(** * A shallow embedding of the quiz application's core logic

    The development follows the TypeScript sources:
    - [types.ts]: the data model (questions, sessions, history, SRS state);
    - [services/databaseService.ts]: the key-value persistence service
      (lifetime statistics, backup and import);
    - [App.tsx]: the question library, the SRS scheduler and the quiz
      session handlers.

    Conventions.  A JavaScript object used as a dictionary is a finite map
    of its own properties, keyed by strings; a read [obj[key]] also sees the
    properties every object inherits from [Object.prototype] ([JS.get]).
    Numbers that the program only ever produces as whole numbers below
    [2^53] (counts, indices, millisecond timestamps) are in [Z]; every other
    number is a binary64 value, with the rounding, the infinities and the
    [NaN] of the machine arithmetic ([float]).  The delays of the retry
    wrapper, which no other part of the program reads, are kept as exact
    rationals.  [Date.now()] and [crypto.randomUUID()] are read from the
    environment and appear as extra arguments. *)

From Stdlib Require Import ZArith QArith Qround Floats Lia Permutation.
From stdpp Require Import gmap strings list fin_maps.

#[local] Set Warnings "-inexact-float".

(** ** JavaScript numbers and property reads *)

Module JS.

Local Open Scope float_scope.

(** A JavaScript number is an IEEE 754 binary64 value, a [float].  This is
    the number a whole number converts to: itself up to [2^53], the nearest
    binary64 value beyond. *)
Definition of_Z (z : Z) : float :=
  SF2Prim (binary_normalize prec emax z 0 false).

(** A whole number as a result of [Math.ceil] or [Math.round]: zero keeps the
    sign of the argument. *)
Definition whole (negative : bool) (n : Z) : float :=
  if (n =? 0)%Z then (if negative then neg_zero else zero) else of_Z n.

(** [Math.max(a, b)]: [NaN] when an argument is; [+0] is larger than [-0]. *)
Definition Math_max (a b : float) : float :=
  if is_nan a || is_nan b then nan
  else if a <? b then b
  else if b <? a then a
  else if get_sign a then b else a.

(** [Math.ceil(x)], computed on the exact value [m * 2^e] of a finite [x]. *)
Definition Math_ceil (x : float) : float :=
  match Prim2SF x with
  | S754_finite s m e =>
      if (0 <=? e)%Z then x
      else
        let d := (2 ^ (- e))%Z in
        whole s (if s then - (Z.pos m / d) else (Z.pos m + d - 1) / d)%Z
  | _ => x
  end.

(** [Math.round(x)]: the whole number nearest to the exact value of [x], a
    tie going up; [floor(x + 1/2)] without intermediate rounding. *)
Definition Math_round (x : float) : float :=
  match Prim2SF x with
  | S754_finite s m e =>
      if (0 <=? e)%Z then x
      else
        let d := (2 ^ (- e))%Z in
        let v := (if s then - Z.pos m else Z.pos m)%Z in
        whole s ((2 * v + d) / (2 * d))%Z
  | _ => x
  end.

(** [Number(x.toFixed(1))].  [toFixed(1)] writes the number of tenths [n]
    for which [n / 10] is nearest to the exact absolute value of [x], the
    larger one on a tie; [Number] reads the digits back as the nearest
    binary64 value.  From [1e21] on, and for a value that is not finite,
    [toFixed] writes the number as [String] does, which reads back as
    itself. *)
Definition toFixed1 (x : float) : float :=
  match Prim2SF x with
  | S754_finite s m e =>
      if 1e21 <=? abs x then x
      else
        let '(n, d) :=
          if (0 <=? e)%Z then (Z.pos m * 2 ^ e, 1)%Z
          else (Z.pos m, 2 ^ (- e))%Z in
        let tenths := ((20 * n + d) / (2 * d))%Z in
        let r :=
          match tenths with
          | Z.pos p =>
              SF2Prim (SFdiv prec emax (S754_finite false p 0)
                         (S754_finite false 10 0))
          | _ => zero
          end in
        if s then - r else r
  | S754_zero _ => zero
  | _ => x
  end.


(** The names of the properties an object inherits from [Object.prototype].
    Each of them holds a function, or the prototype itself for
    [__proto__]: a truthy value. *)
Definition inheritedNames : list string :=
  ["constructor"; "__defineGetter__"; "__defineSetter__"; "hasOwnProperty";
   "__lookupGetter__"; "__lookupSetter__"; "isPrototypeOf";
   "propertyIsEnumerable"; "toString"; "valueOf"; "__proto__";
   "toLocaleString"].

Definition inherited (key : string) : bool :=
  bool_decide (key ∈ inheritedNames).

(** What a read [obj[key]] finds: an own property, a property inherited from
    [Object.prototype], or nothing ([undefined]).  The first two are truthy
    for the objects of this program, whose own properties hold objects. *)
Inductive Property (A : Type) :=
  | Own (value : A)
  | Inherited
  | Missing.

Arguments Own {A} value.
Arguments Inherited {A}.
Arguments Missing {A}.

Definition get {A : Type} (obj : gmap string A) (key : string) : Property A :=
  match obj !! key with
  | Some value => Own value
  | None => if inherited key then Inherited else Missing
  end.

(** The key a value is used as in [obj[value]]: the string itself, or
    ["undefined"]. *)
Definition propertyKey (value : option string) : string :=
  default "undefined" value.

End JS.

(** ** Data model ([types.ts]) *)

Inductive MedicalSpecialty :=
  | INTERNAL_MEDICINE | SURGERY | PEDIATRICS | OB_GYN | PSYCHIATRY
  | EMERGENCY_MEDICINE | FAMILY_MEDICINE | ETHICS | ORTHOPEDICS
  | OPHTHALMOLOGY | ENT | DERMATOLOGY.

Inductive ExamType := STEP_2_CK | STEP_3 | SHELF_BOARD.

Inductive ClinicalComplexity := EASY | MEDIUM | HARD.

Record Explanation := {
  correct : string;
  incorrect : string;
  keyLearningPoint : string
}.

Record Question := {
  q_id : string;
  vignette : string;
  options : list string;
  correctIndex : Z;
  explanation : Explanation;
  tags : option (list string)
}.

Inductive MasteryCardType := Pathophysiology | Diagnosis | Management | Differentiator.

Record MasteryCard := {
  mc_id : string;
  parentId : string;
  mc_type : MasteryCardType;
  front : string;
  back : string
}.

(** [userAnswers] is a sparse JavaScript array: a hole (an index that was
    never assigned) is [None]. *)
Record QuizSession := {
  questions : list Question;
  currentQuestionIndex : nat;
  userAnswers : list (option Z);
  startTime : Z;
  specialties : list MedicalSpecialty;
  examTypes : list ExamType;
  complexity : ClinicalComplexity;
  topics : option string;
  skippedIds : option (list string);
  autoReinforce : bool
}.

Record SessionDetail := {
  questionId : string;
  isCorrect : bool
}.

Record HistoricalSession := {
  hs_id : string;
  timestamp : Z;
  totalQuestions : Z;
  correctAnswers : Z;
  timeTakenMs : Z;
  hs_specialties : list MedicalSpecialty;
  hs_examTypes : list ExamType;
  hs_complexity : option ClinicalComplexity;
  details : option (list SessionDetail)
}.

(** A schedule state as the program may hold it.  [cardId] is [None] when
    the object has no such property.  [repetitions], a count the program
    only changes by one, is a whole number or [None] for [NaN].  A numeric
    property that is missing reads as [undefined], which arithmetic and
    comparisons treat as [NaN]: it is [nan] here. *)
Record SRSState := {
  cardId : option string;
  nextReview : float;
  interval : float;
  ease : float;
  repetitions : option Z
}.

Inductive SRSRating := again | hard | good | easy.

Record StudyWeek := {
  sw_topics : list string;
  hours : Q;
  resources : list string;
  focusDescription : string
}.

Record LifetimeStats := {
  ls_totalQuestions : Z;
  totalCorrect : Z;
  totalHours : float;
  avgAccuracy : float;
  firstSessionDate : Z
}.

(** ** The question library and the SRS scheduler ([App.tsx]) *)

Module Library.

(** [addToLibrary]: the updater passed to [setQuestionLibrary].
    [if (!next[q.id]) next[q.id] = q] for each question in order: the read
    is truthy for an own entry and for an inherited property. *)
Definition addToLibrary (questions : list Question)
    (prev : gmap string Question) : gmap string Question :=
  fold_left
    (fun next q =>
       match JS.get next (q_id q) with
       | JS.Missing => <[q_id q := q]> next
       | _ => next
       end)
    questions prev.

End Library.

Module SRS.

Local Open Scope float_scope.

(** The state used for an identifier that has no entry yet:
    [{ cardId, nextReview: 0, interval: 0, ease: 2.3, repetitions: 0 }]. *)
Definition defaultState (id : string) : SRSState :=
  {| cardId := Some id; nextReview := 0; interval := 0; ease := 2.3;
     repetitions := Some 0%Z |}.

(** What [current] is when [prev[cardId]] is a property inherited from
    [Object.prototype]: a function, which has none of the properties of a
    schedule state. *)
Definition inheritedState : SRSState :=
  {| cardId := None; nextReview := nan; interval := nan; ease := nan;
     repetitions := None |}.

(** [prev[cardId] || { cardId, nextReview: 0, interval: 0, ease: 2.3,
    repetitions: 0 }]. *)
Definition currentState (id : string) (prev : gmap string SRSState) : SRSState :=
  match JS.get prev id with
  | JS.Own s => s
  | JS.Inherited => inheritedState
  | JS.Missing => defaultState id
  end.

(** The multiplicative factor of the third branch:
    [rating === 'hard' ? 1.2 : rating === 'good' ? ease : ease * 1.5]. *)
Definition factor (rating : SRSRating) (ease : float) : float :=
  match rating with
  | hard => 1.2
  | good => ease
  | _ => ease * 1.5
  end.

(** The body of the updater of [updateSRS] on the entry [current]:
    the new [(interval, ease, repetitions)], then [nextReview], then the
    object spread [{ ...current, nextReview, interval, ease, repetitions }]. *)
Definition schedule (now : Z) (rating : SRSRating) (current : SRSState) : SRSState :=
  let '(interval', ease', repetitions') :=
    match rating with
    | again => (0, JS.Math_max 1.3 (ease current - 0.2), Some 0%Z)
    | _ =>
        let interval1 :=
          if bool_decide (repetitions current = Some 0%Z) then 1
          else if bool_decide (repetitions current = Some 1%Z) then 6
          else JS.Math_ceil (interval current * factor rating (ease current)) in
        let repetitions1 := (fun n => (n + 1)%Z) <$> repetitions current in
        let ease1 :=
          match rating with
          | hard => JS.Math_max 1.3 (ease current - 0.15)
          | _ => ease current
          end in
        let ease2 :=
          match rating with
          | easy => ease1 + 0.15
          | _ => ease1
          end in
        (interval1, ease2, repetitions1)
    end in
  {| cardId := cardId current;
     nextReview := JS.of_Z now + interval' * 24 * 60 * 60 * 1000;
     interval := interval';
     ease := ease';
     repetitions := repetitions' |}.

(** [updateSRS]: the updater passed to [setSrsStates];
    [prev[cardId] || default], then [{ ...prev, [cardId]: ... }]. *)
Definition updateSRS (now : Z) (id : string) (rating : SRSRating)
    (prev : gmap string SRSState) : gmap string SRSState :=
  <[id := schedule now rating (currentState id prev)]> prev.

(** A finite sequence of ratings of one item, each at its own time. *)
Definition rateAll (id : string) (events : list (Z * SRSRating))
    (prev : gmap string SRSState) : gmap string SRSState :=
  fold_left (fun m e => updateSRS e.1 id e.2 m) events prev.

End SRS.

(** ** The persistence service ([services/databaseService.ts]) *)

Module Db.

Record AppData := {
  history : list HistoricalSession;
  bookmarks : list Question;
  masteryCards : gmap string (list MasteryCard);
  srsStates : gmap string SRSState;
  questionLibrary : gmap string Question;
  studyPlan : option (gmap string StudyWeek);
  lifetimeStats : LifetimeStats
}.

(** The object store ['kv'] of the database, one slot per key the service
    uses.  [None] is what [get] returns as a falsy value: nothing was stored
    under the key, or [null] was. *)
Record Store := {
  kv_history : option (list HistoricalSession);
  kv_bookmarks : option (list Question);
  kv_masteryCards : option (gmap string (list MasteryCard));
  kv_srsStates : option (gmap string SRSState);
  kv_questionLibrary : option (gmap string Question);
  kv_studyPlan : option (gmap string StudyWeek);
  kv_lifetimeStats : option LifetimeStats
}.

Definition emptyStore : Store :=
  {| kv_history := None; kv_bookmarks := None; kv_masteryCards := None;
     kv_srsStates := None; kv_questionLibrary := None; kv_studyPlan := None;
     kv_lifetimeStats := None |}.

(** [set(key, value)], one function per key. *)
Definition set_history (v : option (list HistoricalSession)) (st : Store) : Store :=
  {| kv_history := v; kv_bookmarks := kv_bookmarks st;
     kv_masteryCards := kv_masteryCards st; kv_srsStates := kv_srsStates st;
     kv_questionLibrary := kv_questionLibrary st; kv_studyPlan := kv_studyPlan st;
     kv_lifetimeStats := kv_lifetimeStats st |}.

Definition set_bookmarks (v : option (list Question)) (st : Store) : Store :=
  {| kv_history := kv_history st; kv_bookmarks := v;
     kv_masteryCards := kv_masteryCards st; kv_srsStates := kv_srsStates st;
     kv_questionLibrary := kv_questionLibrary st; kv_studyPlan := kv_studyPlan st;
     kv_lifetimeStats := kv_lifetimeStats st |}.

Definition set_masteryCards (v : option (gmap string (list MasteryCard))) (st : Store) : Store :=
  {| kv_history := kv_history st; kv_bookmarks := kv_bookmarks st;
     kv_masteryCards := v; kv_srsStates := kv_srsStates st;
     kv_questionLibrary := kv_questionLibrary st; kv_studyPlan := kv_studyPlan st;
     kv_lifetimeStats := kv_lifetimeStats st |}.

Definition set_srsStates (v : option (gmap string SRSState)) (st : Store) : Store :=
  {| kv_history := kv_history st; kv_bookmarks := kv_bookmarks st;
     kv_masteryCards := kv_masteryCards st; kv_srsStates := v;
     kv_questionLibrary := kv_questionLibrary st; kv_studyPlan := kv_studyPlan st;
     kv_lifetimeStats := kv_lifetimeStats st |}.

Definition set_questionLibrary (v : option (gmap string Question)) (st : Store) : Store :=
  {| kv_history := kv_history st; kv_bookmarks := kv_bookmarks st;
     kv_masteryCards := kv_masteryCards st; kv_srsStates := kv_srsStates st;
     kv_questionLibrary := v; kv_studyPlan := kv_studyPlan st;
     kv_lifetimeStats := kv_lifetimeStats st |}.

Definition set_studyPlan (v : option (gmap string StudyWeek)) (st : Store) : Store :=
  {| kv_history := kv_history st; kv_bookmarks := kv_bookmarks st;
     kv_masteryCards := kv_masteryCards st; kv_srsStates := kv_srsStates st;
     kv_questionLibrary := kv_questionLibrary st; kv_studyPlan := v;
     kv_lifetimeStats := kv_lifetimeStats st |}.

Definition set_lifetimeStats (v : option LifetimeStats) (st : Store) : Store :=
  {| kv_history := kv_history st; kv_bookmarks := kv_bookmarks st;
     kv_masteryCards := kv_masteryCards st; kv_srsStates := kv_srsStates st;
     kv_questionLibrary := kv_questionLibrary st; kv_studyPlan := kv_studyPlan st;
     kv_lifetimeStats := v |}.

(** [loadHistory]: [get('history') || []]. *)
Definition loadHistory (st : Store) : list HistoricalSession :=
  default [] (kv_history st).

(** [history.reduce((acc, s) => acc + f(s), 0)]. *)
Definition sumOver (f : HistoricalSession -> Z) (history : list HistoricalSession) : Z :=
  fold_left (fun acc s => (acc + f s)%Z) history 0%Z.

(** [[...history].sort((a, b) => a.timestamp - b.timestamp)]: a stable sort
    under the comparator, here by insertion. *)
Fixpoint insertByTimestamp (a : HistoricalSession) (l : list HistoricalSession)
    : list HistoricalSession :=
  match l with
  | [] => [a]
  | b :: l' =>
      if (timestamp a - timestamp b <=? 0)%Z then a :: l
      else b :: insertByTimestamp a l'
  end.

Definition sortByTimestamp (history : list HistoricalSession) : list HistoricalSession :=
  foldr insertByTimestamp [] history.

(** [updateAnalytics(historyOverride?)].  An array, even an empty one, is
    truthy, so the store is read only when no override is passed.  The result
    is the returned statistics and the store after
    [set('lifetimeStats', ...)]. *)
Definition updateAnalytics (now : Z) (historyOverride : option (list HistoricalSession))
    (st : Store) : LifetimeStats * Store :=
  let history :=
    match historyOverride with
    | Some h => h
    | None => loadHistory st
    end in
  match history with
  | [] =>
      let empty :=
        {| ls_totalQuestions := 0; totalCorrect := 0; totalHours := 0;
           avgAccuracy := 0; firstSessionDate := now |} in
      (empty, set_lifetimeStats (Some empty) st)
  | first :: _ =>
      let totalQuestions' := sumOver totalQuestions history in
      let totalCorrect' := sumOver correctAnswers history in
      let totalTimeMs := sumOver timeTakenMs history in
      let sortedHistory := sortByTimestamp history in
      (* [sortedHistory[0]] exists: sorting keeps the length *)
      let firstSessionDate' := timestamp (hd first sortedHistory) in
      let stats :=
        {| ls_totalQuestions := totalQuestions';
           totalCorrect := totalCorrect';
           totalHours := JS.toFixed1 (JS.of_Z totalTimeMs / 3600000)%float;
           avgAccuracy :=
             JS.Math_round
               (JS.of_Z totalCorrect' / JS.of_Z totalQuestions' * 100)%float;
           firstSessionDate := firstSessionDate' |} in
      (stats, set_lifetimeStats (Some stats) st)
  end.

(** [saveSession(session)]. *)
Definition saveSession (now : Z) (session : HistoricalSession) (st : Store)
    : LifetimeStats * Store :=
  let history := loadHistory st in
  let updatedHistory := session :: history in
  let st1 := set_history (Some updatedHistory) st in
  updateAnalytics now (Some updatedHistory) st1.

(** [getAllData()], with the migration that computes missing lifetime
    statistics. *)
Definition getAllData (now : Z) (st : Store) : AppData * Store :=
  let history' := default [] (kv_history st) in
  let bookmarks' := default [] (kv_bookmarks st) in
  let masteryCards' := default ∅ (kv_masteryCards st) in
  let srsStates' := default ∅ (kv_srsStates st) in
  let questionLibrary' := default ∅ (kv_questionLibrary st) in
  let studyPlan' := kv_studyPlan st in
  let '(lifetimeStats', st') :=
    match kv_lifetimeStats st with
    | Some stats => (stats, st)
    | None =>
        if (0 <? length history')%nat then updateAnalytics now (Some history') st
        else
          let zero :=
            {| ls_totalQuestions := 0; totalCorrect := 0; totalHours := 0;
               avgAccuracy := 0; firstSessionDate := now |} in
          (zero, set_lifetimeStats (Some zero) st)
    end in
  ({| history := history'; bookmarks := bookmarks';
      masteryCards := masteryCards'; srsStates := srsStates';
      questionLibrary := questionLibrary'; studyPlan := studyPlan';
      lifetimeStats := lifetimeStats' |}, st').

(** What [JSON.parse] gives for the text of a backup file.  A field is
    [None] when the key is absent or holds a value the check of [fullImport]
    rejects (not an array for [history] and [bookmarks], falsy for the
    others).  The entries of the [history] array are not checked: one may be
    [null], here [None], instead of a session object. *)
Record Backup := {
  b_history : option (list (option HistoricalSession));
  b_bookmarks : option (list Question);
  b_masteryCards : option (gmap string (list MasteryCard));
  b_srsStates : option (gmap string SRSState);
  b_questionLibrary : option (gmap string Question);
  b_studyPlan : option (gmap string StudyWeek);
  b_lifetimeStats : option LifetimeStats
}.

Inductive Parsed :=
  | SyntaxError (message : string)   (* [JSON.parse] throws *)
  | NotAnObject                      (* [null] or a primitive value *)
  | Object (data : Backup).

(** [backupAllData()]: the value handed to [JSON.stringify], and the store
    after the read. *)
Definition backupAllData (now : Z) (st : Store) : AppData * Store :=
  getAllData now st.

(** [JSON.parse(JSON.stringify(data))] on application data: every key is
    written, [studyPlan: null] reads back as [null].  A number that is not
    finite is written as [null]; it stands for itself here, so the value
    read back is written as the same text again. *)
Definition parseStringified (data : AppData) : Parsed :=
  Object
    {| b_history := Some (Some <$> history data);
       b_bookmarks := Some (bookmarks data);
       b_masteryCards := Some (masteryCards data);
       b_srsStates := Some (srsStates data);
       b_questionLibrary := Some (questionLibrary data);
       b_studyPlan := studyPlan data;
       b_lifetimeStats := Some (lifetimeStats data) |}.

(** The sessions of an imported [history] array, when every entry is a
    session object. *)
Definition sessionsOf (entries : list (option HistoricalSession))
    : option (list HistoricalSession) :=
  mapM id entries.

(** The message of the [TypeError] that [acc + s.totalQuestions] throws on
    an entry [s] that is [null], in the wording of V8. *)
Definition nullEntryMessage : string :=
  "Cannot read properties of null (reading 'totalQuestions')".

(** The outcome of [fullImport]: its boolean result, the text of the
    [alert] raised by the [catch] block, and the database afterwards.  The
    database is [store], except that its history slot holds the array
    [strayHistory] when there is one: an array with a [null] entry, which a
    [Store] cannot hold (the slot of [store] is then empty). *)
Record ImportResult := {
  success : bool;
  alert : option string;
  store : Store;
  strayHistory : option (list (option HistoricalSession))
}.

Definition importFailed (message : string) (st : Store) : ImportResult :=
  {| success := false;
     alert := Some ("Import Failed: " +:+ message);
     store := st;
     strayHistory := None |}.

(** [fullImport(jsonData)] on the parsed text.  The checks throw before the
    first write.  The six writes follow; [updateAnalytics(data.history)]
    comes last, and when it throws on a [null] entry the [catch] block
    reports a failure after the six slots were written. *)
Definition fullImport (now : Z) (parsed : Parsed) (st : Store) : ImportResult :=
  match parsed with
  | SyntaxError message => importFailed message st
  | NotAnObject => importFailed "File content is not a valid JSON object" st
  | Object data =>
      match b_history data with
      | None => importFailed "Missing 'history' array in backup" st
      | Some history' =>
          match b_bookmarks data with
          | None => importFailed "Missing 'bookmarks' array in backup" st
          | Some bookmarks' =>
              match b_questionLibrary data with
              | None => importFailed "Missing 'questionLibrary' in backup" st
              | Some questionLibrary' =>
                  let st1 := set_history (sessionsOf history') st in
                  let st2 := set_bookmarks (Some bookmarks') st1 in
                  let st3 := set_masteryCards (Some (default ∅ (b_masteryCards data))) st2 in
                  let st4 := set_srsStates (Some (default ∅ (b_srsStates data))) st3 in
                  let st5 := set_questionLibrary (Some questionLibrary') st4 in
                  let st6 := set_studyPlan (b_studyPlan data) st5 in
                  match sessionsOf history' with
                  | Some sessions =>
                      let st7 := (updateAnalytics now (Some sessions) st6).2 in
                      {| success := true; alert := None; store := st7;
                         strayHistory := None |}
                  | None =>
                      {| success := false;
                         alert := Some ("Import Failed: " +:+ nullEntryMessage);
                         store := st6;
                         strayHistory := Some history' |}
                  end
              end
          end
      end
  end.

End Db.

(** ** The application state and its handlers ([App.tsx]) *)

Module App.

Inductive View :=
  | View_setup | View_quiz | View_results | View_bookmarks | View_analytics | View_srs.

(** The [useState] cells of the [App] component. *)
Record AppState := {
  view : View;
  session : option QuizSession;
  completedSession : option QuizSession;
  isLoading : bool;
  backgroundProcessing : bool;
  selectedAnswer : option Z;
  hasKey : bool;
  bookmarks : list Question;
  masteryCards : gmap string (list MasteryCard);
  history : list HistoricalSession;
  srsStates : gmap string SRSState;
  questionLibrary : gmap string Question;
  studyPlan : option (gmap string StudyWeek);
  lifetimeStats : option LifetimeStats
}.

(** The state setters, [setX(v)]. *)
Definition setView (v : View) (st : AppState) : AppState :=
  {| view := v; session := session st;
     completedSession := completedSession st; isLoading := isLoading st;
     backgroundProcessing := backgroundProcessing st;
     selectedAnswer := selectedAnswer st; hasKey := hasKey st;
     bookmarks := bookmarks st; masteryCards := masteryCards st;
     history := history st; srsStates := srsStates st;
     questionLibrary := questionLibrary st; studyPlan := studyPlan st;
     lifetimeStats := lifetimeStats st |}.

Definition setSession (v : option QuizSession) (st : AppState) : AppState :=
  {| view := view st; session := v; completedSession := completedSession st;
     isLoading := isLoading st;
     backgroundProcessing := backgroundProcessing st;
     selectedAnswer := selectedAnswer st; hasKey := hasKey st;
     bookmarks := bookmarks st; masteryCards := masteryCards st;
     history := history st; srsStates := srsStates st;
     questionLibrary := questionLibrary st; studyPlan := studyPlan st;
     lifetimeStats := lifetimeStats st |}.

Definition setCompletedSession (v : option QuizSession) (st : AppState) : AppState :=
  {| view := view st; session := session st; completedSession := v;
     isLoading := isLoading st;
     backgroundProcessing := backgroundProcessing st;
     selectedAnswer := selectedAnswer st; hasKey := hasKey st;
     bookmarks := bookmarks st; masteryCards := masteryCards st;
     history := history st; srsStates := srsStates st;
     questionLibrary := questionLibrary st; studyPlan := studyPlan st;
     lifetimeStats := lifetimeStats st |}.

Definition setIsLoading (v : bool) (st : AppState) : AppState :=
  {| view := view st; session := session st;
     completedSession := completedSession st; isLoading := v;
     backgroundProcessing := backgroundProcessing st;
     selectedAnswer := selectedAnswer st; hasKey := hasKey st;
     bookmarks := bookmarks st; masteryCards := masteryCards st;
     history := history st; srsStates := srsStates st;
     questionLibrary := questionLibrary st; studyPlan := studyPlan st;
     lifetimeStats := lifetimeStats st |}.

Definition setBackgroundProcessing (v : bool) (st : AppState) : AppState :=
  {| view := view st; session := session st;
     completedSession := completedSession st; isLoading := isLoading st;
     backgroundProcessing := v; selectedAnswer := selectedAnswer st;
     hasKey := hasKey st; bookmarks := bookmarks st;
     masteryCards := masteryCards st; history := history st;
     srsStates := srsStates st; questionLibrary := questionLibrary st;
     studyPlan := studyPlan st; lifetimeStats := lifetimeStats st |}.

Definition setSelectedAnswer (v : option Z) (st : AppState) : AppState :=
  {| view := view st; session := session st;
     completedSession := completedSession st; isLoading := isLoading st;
     backgroundProcessing := backgroundProcessing st; selectedAnswer := v;
     hasKey := hasKey st; bookmarks := bookmarks st;
     masteryCards := masteryCards st; history := history st;
     srsStates := srsStates st; questionLibrary := questionLibrary st;
     studyPlan := studyPlan st; lifetimeStats := lifetimeStats st |}.

Definition setHasKey (v : bool) (st : AppState) : AppState :=
  {| view := view st; session := session st;
     completedSession := completedSession st; isLoading := isLoading st;
     backgroundProcessing := backgroundProcessing st;
     selectedAnswer := selectedAnswer st; hasKey := v;
     bookmarks := bookmarks st; masteryCards := masteryCards st;
     history := history st; srsStates := srsStates st;
     questionLibrary := questionLibrary st; studyPlan := studyPlan st;
     lifetimeStats := lifetimeStats st |}.

Definition setHistory (v : list HistoricalSession) (st : AppState) : AppState :=
  {| view := view st; session := session st;
     completedSession := completedSession st; isLoading := isLoading st;
     backgroundProcessing := backgroundProcessing st;
     selectedAnswer := selectedAnswer st; hasKey := hasKey st;
     bookmarks := bookmarks st; masteryCards := masteryCards st;
     history := v; srsStates := srsStates st;
     questionLibrary := questionLibrary st; studyPlan := studyPlan st;
     lifetimeStats := lifetimeStats st |}.

Definition setQuestionLibrary (v : gmap string Question) (st : AppState) : AppState :=
  {| view := view st; session := session st;
     completedSession := completedSession st; isLoading := isLoading st;
     backgroundProcessing := backgroundProcessing st;
     selectedAnswer := selectedAnswer st; hasKey := hasKey st;
     bookmarks := bookmarks st; masteryCards := masteryCards st;
     history := history st; srsStates := srsStates st; questionLibrary := v;
     studyPlan := studyPlan st; lifetimeStats := lifetimeStats st |}.

Definition setLifetimeStats (v : option LifetimeStats) (st : AppState) : AppState :=
  {| view := view st; session := session st;
     completedSession := completedSession st; isLoading := isLoading st;
     backgroundProcessing := backgroundProcessing st;
     selectedAnswer := selectedAnswer st; hasKey := hasKey st;
     bookmarks := bookmarks st; masteryCards := masteryCards st;
     history := history st; srsStates := srsStates st;
     questionLibrary := questionLibrary st; studyPlan := studyPlan st;
     lifetimeStats := v |}.

(** The application state together with the database it writes to. *)
Record World := {
  app : AppState;
  db : Db.Store
}.

(** *** The environment of the handlers *)

(** An error as [handleError] reads it: [status] is [error?.status ||
    error?.error?.code], [message] is [error?.message ||
    JSON.stringify(error)]. *)
Record ApiError := {
  status : option Z;
  message : string
}.

(** How a call of the content generator settles. *)
Inductive Generated :=
  | Rejected (error : ApiError)
  | Resolved (generatedQuestions : list Question).

(** [window.aistudio], when the host provides it: the answer of
    [hasSelectedApiKey()] and whether [openSelectKey()] resolves. *)
Record AIStudio := {
  hasSelectedApiKey : bool;
  openSelectKey : bool
}.

(** [haystack.includes(needle)]. *)
Fixpoint includes (needle haystack : string) : bool :=
  String.prefix needle haystack ||
  match haystack with
  | EmptyString => false
  | String _ rest => includes needle rest
  end.

(** [handleError(error)].  [loading] is the value of [isLoading] the handler
    closed over.  The result is the state and the alerts shown. *)
Definition handleError (aistudio : option AIStudio) (loading : bool)
    (error : ApiError) (st : AppState) : AppState * list string :=
  if bool_decide (status error = Some 403%Z) || includes "403" (message error)
     || includes "PERMISSION_DENIED" (message error)
  then
    let st1 := setHasKey false st in
    let st2 :=
      match aistudio with
      | Some studio => if openSelectKey studio then setHasKey true st1 else st1
      | None => st1
      end in
    (st2, ["Permission Denied: Please select a valid API Key with Gemini API access enabled."])
  else if bool_decide (status error = Some 429%Z) || includes "429" (message error)
  then (setHasKey false st, ["API Quota Reached. Please activate your key or wait 60s."])
  else (st, if loading then ["API Error. Please try again."] else []).

(** *** Starting a quiz *)

Inductive Outcome :=
  | Started
  | GenerationFailed (error : ApiError)   (* the [catch] block ran *)
  | KeySelectionFailed.                   (* the early [return] *)

Record StartResult := {
  outcome : Outcome;
  started : AppState;
  alerts : list string
}.

(** [startQuiz(specialties, examTypes, complexity, count, topics,
    autoReinforce)]; [generated] is how [generateQuestions] settles. *)
Definition startQuiz (now : Z) (aistudio : option AIStudio) (generated : Generated)
    (specialties' : list MedicalSpecialty) (examTypes' : list ExamType)
    (complexity' : ClinicalComplexity) (count : Z) (topics' : string)
    (autoReinforce' : bool) (st : AppState) : StartResult :=
  let currentHasKey :=
    match aistudio with
    | Some studio => hasSelectedApiKey studio
    | None => hasKey st
    end in
  let keyChecked : option AppState :=
    if currentHasKey then Some st
    else
      match aistudio with
      | Some studio => if openSelectKey studio then Some (setHasKey true st) else None
      | None => Some (setHasKey true st)
      end in
  match keyChecked with
  | None => {| outcome := KeySelectionFailed; started := st; alerts := [] |}
  | Some st1 =>
      let st2 := setIsLoading true st1 in
      let attempt : ApiError + list Question :=
        match generated with
        | Rejected error => inl error
        | Resolved questions' =>
            if (length questions' =? 0)%nat
            then inl {| status := None; message := "Empty response" |}
            else inr questions'
        end in
      match attempt with
      | inr questions' =>
          let st3 :=
            setQuestionLibrary
              (Library.addToLibrary questions' (questionLibrary st2)) st2 in
          let st4 :=
            setSession
              (Some {| questions := questions';
                       currentQuestionIndex := 0;
                       userAnswers := [];
                       startTime := now;
                       specialties := specialties';
                       examTypes := examTypes';
                       complexity := complexity';
                       topics := Some topics';
                       skippedIds := Some [];
                       autoReinforce := autoReinforce' |}) st3 in
          let st5 := setCompletedSession None st4 in
          let st6 := setView View_quiz st5 in
          {| outcome := Started; started := setIsLoading false st6; alerts := [] |}
      | inl error =>
          let '(st3, shown) := handleError aistudio (isLoading st) error st2 in
          {| outcome := GenerationFailed error;
             started := setIsLoading false st3;
             alerts := shown |}
      end
  end.

(** *** Navigation inside a session *)

(** [{ ...s, currentQuestionIndex, userAnswers }]. *)
Definition withPosition (index : nat) (answers : list (option Z)) (s : QuizSession)
    : QuizSession :=
  {| questions := questions s; currentQuestionIndex := index;
     userAnswers := answers; startTime := startTime s;
     specialties := specialties s; examTypes := examTypes s;
     complexity := complexity s; topics := topics s;
     skippedIds := skippedIds s; autoReinforce := autoReinforce s |}.

(** [{ ...s, questions }]. *)
Definition withQuestions (qs : list Question) (s : QuizSession) : QuizSession :=
  {| questions := qs; currentQuestionIndex := currentQuestionIndex s;
     userAnswers := userAnswers s; startTime := startTime s;
     specialties := specialties s; examTypes := examTypes s;
     complexity := complexity s; topics := topics s;
     skippedIds := skippedIds s; autoReinforce := autoReinforce s |}.

(** [answers[i]]: [None] for [undefined], a hole or an index out of range. *)
Definition answerAt (answers : list (option Z)) (i : nat) : option Z :=
  mjoin (answers !! i).

(** [answers[i] = v] on a copy of the array: an assignment past the end
    extends the array with holes. *)
Definition assignAnswer (answers : list (option Z)) (i : nat) (v : Z)
    : list (option Z) :=
  if decide (i < length answers)%nat then <[i := Some v]> answers
  else answers ++ replicate (i - length answers) None ++ [Some v].

(** [onAnswer={setSelectedAnswer}]. *)
Definition answer (selectedIndex : Z) (st : AppState) : AppState :=
  setSelectedAnswer (Some selectedIndex) st.

(** [onDiscardSession={() => setSession(null)}]. *)
Definition discard (st : AppState) : AppState :=
  setSession None st.

(** [handlePrev()]. *)
Definition handlePrev (st : AppState) : AppState :=
  match session st with
  | None => st
  | Some s =>
      if (0 <? currentQuestionIndex s)%nat then
        let prevIdx := (currentQuestionIndex s - 1)%nat in
        let st1 := setSession (Some (withPosition prevIdx (userAnswers s) s)) st in
        setSelectedAnswer (answerAt (userAnswers s) prevIdx) st1
      else st
  end.

(** *** Completing a session *)

(** [userAnswers.reduce((acc, ans, idx) => ans ===
    questions[idx].correctIndex ? acc + 1 : acc, 0)]: [reduce] skips holes;
    [None] when [questions[idx]] is undefined and the property access
    throws. *)
Fixpoint countCorrect (qs : list Question) (answers : list (option Z))
    (idx : nat) (acc : Z) : option Z :=
  match answers with
  | [] => Some acc
  | None :: rest => countCorrect qs rest (S idx) acc
  | Some ans :: rest =>
      match qs !! idx with
      | None => None
      | Some q =>
          countCorrect qs rest (S idx)
            (if (ans =? correctIndex q)%Z then (acc + 1)%Z else acc)
      end
  end.

(** [questions.map((q, idx) => ({ questionId: q.id, isCorrect:
    userAnswers[idx] === q.correctIndex }))]. *)
Definition sessionDetails (s : QuizSession) : list SessionDetail :=
  imap
    (fun idx q =>
       {| questionId := q_id q;
          isCorrect :=
            match answerAt (userAnswers s) idx with
            | Some ans => (ans =? correctIndex q)%Z
            | None => false
            end |})
    (questions s).

(** [processSessionCompletion(finalSession)], run to its end.  When the
    count throws, the promise is rejected before any state is written. *)
Definition processSessionCompletion (now : Z) (uuid : string)
    (finalSession : QuizSession) (w : World) : World :=
  match countCorrect (questions finalSession) (userAnswers finalSession) 0 0 with
  | None => w
  | Some correctCount =>
      let newHistoryEntry :=
        {| hs_id := uuid;
           timestamp := now;
           totalQuestions := Z.of_nat (length (questions finalSession));
           correctAnswers := correctCount;
           timeTakenMs := (now - startTime finalSession)%Z;
           hs_specialties := specialties finalSession;
           hs_examTypes := examTypes finalSession;
           hs_complexity := Some (complexity finalSession);
           details := Some (sessionDetails finalSession) |} in
      let app1 := setHistory (newHistoryEntry :: history (app w)) (app w) in
      let '(newLifetimeStats, db1) := Db.saveSession now newHistoryEntry (db w) in
      {| app := setLifetimeStats (Some newLifetimeStats) app1; db := db1 |}
  end.

(** *** Advancing, and the remediation it may start *)

(** The arguments of the [generateSimilarQuestions] call. *)
Record RemediationRequest := {
  sourceQuestion : Question;
  r_examTypes : list ExamType;
  r_complexity : ClinicalComplexity;
  r_count : Z;
  r_focus : option string
}.

Record NextResult := {
  world : World;
  requested : option RemediationRequest
}.

(** [handleNext(userFocus?, manualReinforce?)].  Reading
    [currentQuestion.correctIndex] throws when the current index has no
    question; nothing has been written at that point. *)
Definition handleNext (now : Z) (uuid : string) (userFocus : option string)
    (manualReinforce : bool) (w : World) : NextResult :=
  let st := app w in
  match session st, selectedAnswer st with
  | Some s, Some selected =>
      let currentIdx := currentQuestionIndex s in
      match questions s !! currentIdx with
      | None => {| world := w; requested := None |}
      | Some currentQuestion =>
          let correct' := (selected =? correctIndex currentQuestion)%Z in
          let updatedAnswers := assignAnswer (userAnswers s) currentIdx selected in
          let shouldReinforce :=
            manualReinforce ||
            (negb correct'
             && bool_decide (answerAt (userAnswers s) currentIdx = None)
             && autoReinforce s) in
          let nextIndex := (currentIdx + 1)%nat in
          let w1 :=
            if (nextIndex <? length (questions s))%nat then
              let st1 := setSession (Some (withPosition nextIndex updatedAnswers s)) st in
              {| app := setSelectedAnswer (answerAt (userAnswers s) nextIndex) st1;
                 db := db w |}
            else
              let finalSession := withPosition currentIdx updatedAnswers s in
              let w' := processSessionCompletion now uuid finalSession w in
              let st1 := setCompletedSession (Some finalSession) (app w') in
              let st2 := setSession None st1 in
              {| app := setView View_results st2; db := db w' |} in
          if shouldReinforce then
            {| world :=
                 {| app := setBackgroundProcessing true (app w1); db := db w1 |};
               requested :=
                 Some {| sourceQuestion := currentQuestion;
                         r_examTypes := examTypes s;
                         r_complexity := complexity s;
                         r_count := 3;
                         r_focus := userFocus |} |}
          else {| world := w1; requested := None |}
      end
  | _, _ => {| world := w; requested := None |}
  end.

(** The continuation of the [generateSimilarQuestions] promise: the [then]
    callback, the [catch] that only logs, and the [finally]. *)
Definition remediationArrived (remediation : list Question) (st : AppState) : AppState :=
  if (length remediation =? 0)%nat then st
  else
    let st1 :=
      setQuestionLibrary
        (Library.addToLibrary remediation (questionLibrary st)) st in
    setSession
      (match session st1 with
       | None => None
       | Some prev => Some (withQuestions (questions prev ++ remediation) prev)
       end) st1.

Definition remediationSettled (response : Generated) (st : AppState) : AppState :=
  let st1 :=
    match response with
    | Resolved remediation => remediationArrived remediation st
    | Rejected _ => st
    end in
  setBackgroundProcessing false st1.

(** *** Bookmarks, mastery cards and the review queue *)

Definition setBookmarks (v : list Question) (st : AppState) : AppState :=
  {| view := view st; session := session st;
     completedSession := completedSession st; isLoading := isLoading st;
     backgroundProcessing := backgroundProcessing st;
     selectedAnswer := selectedAnswer st; hasKey := hasKey st;
     bookmarks := v; masteryCards := masteryCards st; history := history st;
     srsStates := srsStates st; questionLibrary := questionLibrary st;
     studyPlan := studyPlan st; lifetimeStats := lifetimeStats st |}.

Definition setMasteryCards (v : gmap string (list MasteryCard)) (st : AppState) : AppState :=
  {| view := view st; session := session st;
     completedSession := completedSession st; isLoading := isLoading st;
     backgroundProcessing := backgroundProcessing st;
     selectedAnswer := selectedAnswer st; hasKey := hasKey st;
     bookmarks := bookmarks st; masteryCards := v; history := history st;
     srsStates := srsStates st; questionLibrary := questionLibrary st;
     studyPlan := studyPlan st; lifetimeStats := lifetimeStats st |}.

Definition setSrsStates (v : gmap string SRSState) (st : AppState) : AppState :=
  {| view := view st; session := session st;
     completedSession := completedSession st; isLoading := isLoading st;
     backgroundProcessing := backgroundProcessing st;
     selectedAnswer := selectedAnswer st; hasKey := hasKey st;
     bookmarks := bookmarks st; masteryCards := masteryCards st;
     history := history st; srsStates := v;
     questionLibrary := questionLibrary st; studyPlan := studyPlan st;
     lifetimeStats := lifetimeStats st |}.

(** The state a new bookmark is scheduled with:
    [{ cardId: q.id, nextReview: Date.now(), interval: 0, ease: 2.3,
    repetitions: 0 }]. *)
Definition bookmarkState (now : Z) (q : Question) : SRSState :=
  {| cardId := Some (q_id q); nextReview := JS.of_Z now; interval := 0;
     ease := 2.3; repetitions := Some 0%Z |}.

(** [toggleBookmark(q)].  The schedule state of a new bookmark is written
    unless [prev[q.id]] is truthy: an own state, or an inherited property. *)
Definition toggleBookmark (now : Z) (q : Question) (st : AppState) : AppState :=
  let isAlreadyBookmarked :=
    existsb (fun b => String.eqb (q_id b) (q_id q)) (bookmarks st) in
  if isAlreadyBookmarked then
    setBookmarks
      (List.filter (fun b => negb (String.eqb (q_id b) (q_id q))) (bookmarks st)) st
  else
    let st1 := setBookmarks (bookmarks st ++ [q]) st in
    let st2 :=
      setQuestionLibrary (Library.addToLibrary [q] (questionLibrary st1)) st1 in
    setSrsStates
      (match JS.get (srsStates st2) (q_id q) with
       | JS.Missing => <[q_id q := bookmarkState now q]> (srsStates st2)
       | _ => srsStates st2
       end) st2.

(** The [updateSRS] callback handed to the review screen. *)
Definition rate (now : Z) (id : string) (rating : SRSRating) (st : AppState) : AppState :=
  setSrsStates (SRS.updateSRS now id rating (srsStates st)) st.

(** How a call of [generateMasteryCards] settles. *)
Inductive GeneratedCards :=
  | CardsRejected (error : ApiError)
  | CardsResolved (layers : list MasteryCard).

(** [dissectQuestion(q)]: nothing is generated when [masteryCards[q.id]] is
    truthy, because the question has cards or because its identifier names an
    inherited property; otherwise the cards are stored under the question's
    identifier and each one is rated "again" in turn.  The result is the
    state and the alerts of [handleError]. *)
Definition dissectQuestion (now : Z) (aistudio : option AIStudio)
    (generated : GeneratedCards) (q : Question) (st : AppState)
    : AppState * list string :=
  match JS.get (masteryCards st) (q_id q) with
  | JS.Missing =>
      match generated with
      | CardsResolved layers =>
          let st1 := setMasteryCards (<[q_id q := layers]> (masteryCards st)) st in
          (fold_left (fun acc card => rate now (mc_id card) again acc) layers st1, [])
      | CardsRejected error => handleError aistudio (isLoading st) error st
      end
  | _ => (st, [])
  end.

(** An item of the review queue: [{ type: 'vignette', data }] or
    [{ type: 'mastery', data }]. *)
Inductive DueItem :=
  | Vignette (data : Question)
  | Mastery (data : MasteryCard).

(** What [dueSRSItems] yields for a schedule state that is due: an item, or
    [{ type: 'vignette', data }] with the property the library inherits
    under [name] as its [data]. *)
Inductive Due :=
  | Item (item : DueItem)
  | InheritedVignette (name : string).

Definition itemId (item : DueItem) : string :=
  match item with
  | Vignette q => q_id q
  | Mastery card => mc_id card
  end.

(** The loop [for (const parentId in masteryCards)] with
    [masteryCards[parentId].find(c => c.id === id)]: the first card found. *)
Definition findCard (cards : gmap string (list MasteryCard)) (id : string)
    : option MasteryCard :=
  head
    (omap (fun entry : string * list MasteryCard =>
             List.find (fun c => String.eqb (mc_id c) id) entry.2)
          (map_to_list cards)).

(** [dueSRSItems]: the schedule states with [nextReview <= now], each mapped
    to what [questionLibrary[s.cardId]] reads when that is truthy, otherwise
    to the mastery card of that identifier, the others dropped.  A state
    without [cardId] reads the library under ["undefined"] and matches no
    card.  The list follows the order of the finite map, not the insertion
    order of the JavaScript object. *)
Definition dueSRSItems (now : Z) (st : AppState) : list Due :=
  let due :=
    List.filter (fun s => (nextReview s <=? JS.of_Z now)%float)
      (map_to_list (srsStates st)).*2 in
  omap
    (fun s =>
       let key := JS.propertyKey (cardId s) in
       match JS.get (questionLibrary st) key with
       | JS.Own q => Some (Item (Vignette q))
       | JS.Inherited => Some (InheritedVignette key)
       | JS.Missing =>
           (fun card => Item (Mastery card))
             <$> (cardId s ≫= findCard (masteryCards st))
       end)
    due.

(** *** Start-up and persistence *)

(** The initial values of the [useState] cells. *)
Definition initialState : AppState :=
  {| view := View_setup; session := None; completedSession := None;
     isLoading := false; backgroundProcessing := false;
     selectedAnswer := None; hasKey := true; bookmarks := [];
     masteryCards := ∅; history := []; srsStates := ∅; questionLibrary := ∅;
     studyPlan := None; lifetimeStats := None |}.

(** The five effects [if (isReady) dbService.set(key, value)], which run
    after a render that changed the value. *)
Definition persist (w : World) : World :=
  let st := app w in
  {| app := st;
     db :=
       Db.set_studyPlan (studyPlan st)
         (Db.set_questionLibrary (Some (questionLibrary st))
            (Db.set_srsStates (Some (srsStates st))
               (Db.set_masteryCards (Some (masteryCards st))
                  (Db.set_bookmarks (Some (bookmarks st)) (db w))))) |}.

(** [initData()]: the collections are read with [getAllData], the saved
    session comes from the local storage, and the key status from the host;
    the effects then write the collections back. *)
Definition initData (now : Z) (aistudio : option AIStudio)
    (savedSession : option QuizSession) (store : Db.Store) : World :=
  let '(data, store') := Db.getAllData now store in
  let st :=
    {| view := View_setup;
       session := savedSession;
       completedSession := None;
       isLoading := false;
       backgroundProcessing := false;
       selectedAnswer := None;
       hasKey :=
         match aistudio with
         | Some studio => hasSelectedApiKey studio
         | None => true
         end;
       bookmarks := Db.bookmarks data;
       masteryCards := Db.masteryCards data;
       history := Db.history data;
       srsStates := Db.srsStates data;
       questionLibrary := Db.questionLibrary data;
       studyPlan := Db.studyPlan data;
       lifetimeStats := Some (Db.lifetimeStats data) |} in
  persist {| app := st; db := store' |}.

(** What the user and the pending requests can do to a running application. *)
Inductive Event :=
  | StartQuiz (now : Z) (aistudio : option AIStudio) (generated : Generated)
      (specialties' : list MedicalSpecialty) (examTypes' : list ExamType)
      (complexity' : ClinicalComplexity) (count : Z) (topics' : string)
      (autoReinforce' : bool)
  | Answer (selectedIndex : Z)
  | Next (now : Z) (uuid : string) (userFocus : option string)
      (manualReinforce : bool)
  | Prev
  | Discard
  | RemediationSettled (response : Generated)
  | ToggleBookmark (now : Z) (q : Question)
  | Dissect (now : Z) (aistudio : option AIStudio) (generated : GeneratedCards)
      (q : Question)
  | Rate (now : Z) (id : string) (rating : SRSRating)
  | Navigate (to : View).

Definition onApp (f : AppState -> AppState) (w : World) : World :=
  {| app := f (app w); db := db w |}.

(** One event: the handler, then the effects. *)
Definition step (w : World) (e : Event) : World :=
  persist
    match e with
    | StartQuiz now aistudio generated specialties' examTypes' complexity'
        count topics' autoReinforce' =>
        onApp (fun st =>
                 started (startQuiz now aistudio generated specialties'
                            examTypes' complexity' count topics' autoReinforce' st)) w
    | Answer selectedIndex => onApp (answer selectedIndex) w
    | Next now uuid userFocus manualReinforce =>
        world (handleNext now uuid userFocus manualReinforce w)
    | Prev => onApp handlePrev w
    | Discard => onApp discard w
    | RemediationSettled response => onApp (remediationSettled response) w
    | ToggleBookmark now q => onApp (toggleBookmark now q) w
    | Dissect now aistudio generated q =>
        onApp (fun st => (dissectQuestion now aistudio generated q st).1) w
    | Rate now id rating => onApp (rate now id rating) w
    | Navigate to => onApp (setView to) w
    end.

Definition run (events : list Event) (w : World) : World :=
  fold_left step events w.

End App.

(** ** The retry wrapper of the generator client ([services/geminiService.ts]) *)

Module Gemini.

(** [error.status] and its fallbacks: a number or a name. *)
Inductive Status :=
  | StatusCode (code : Z)
  | StatusName (name : string).

(** An error as the wrapper reads it: the text [msg] and [status]. *)
Record Failure := {
  msg : string;
  status : option Status
}.

Definition hasCode (code : Z) (error : Failure) : bool :=
  match status error with
  | Some (StatusCode c) => (c =? code)%Z
  | _ => false
  end.

Definition hasName (name : string) (error : Failure) : bool :=
  match status error with
  | Some (StatusName n) => String.eqb n name
  | _ => false
  end.

(** [msg.includes('429') || status === 429 || status ===
    'RESOURCE_EXHAUSTED' || msg.includes('quota')]. *)
Definition isRateLimit (error : Failure) : bool :=
  App.includes "429" (msg error) || hasCode 429 error
  || hasName "RESOURCE_EXHAUSTED" error || App.includes "quota" (msg error).

(** [msg.includes('Rpc failed') || msg.includes('xhr error') ||
    msg.includes('code: 6') || msg.includes('500') || status === 500 ||
    status === 503 || status === 'UNKNOWN']. *)
Definition isRpcError (error : Failure) : bool :=
  App.includes "Rpc failed" (msg error) || App.includes "xhr error" (msg error)
  || App.includes "code: 6" (msg error) || App.includes "500" (msg error)
  || hasCode 500 error || hasCode 503 error || hasName "UNKNOWN" error.

(** How a call of [fetchWithRetry] ends: with the value of [fn], with a
    thrown error, or by leaving the [while] loop, which returns
    [undefined]. *)
Inductive Outcome (A : Type) :=
  | Returned (value : A)
  | Thrown (error : Failure)
  | Undefined.

Arguments Returned {A} value.
Arguments Thrown {A} error.
Arguments Undefined {A}.

(** A run: its outcome, the number of calls of [fn] and the delays slept
    between them, in milliseconds. *)
Record Run (A : Type) := {
  outcome : Outcome A;
  calls : nat;
  delays : list Q
}.

Arguments outcome {A} _.
Arguments calls {A} _.
Arguments delays {A} _.

(** The loop [while (retries <= maxRetries)].  [fn k] is how the call made
    after [k] retries settles, [random k] the value of [Math.random()] drawn
    for the delay that follows it.  [fuel] bounds the iterations. *)
Fixpoint retryLoop {A : Type} (fn : nat -> Failure + A) (random : nat -> Q)
    (maxRetries : nat) (initialDelay : Q) (fuel retries : nat) (slept : list Q)
    : Run A :=
  match fuel with
  | O => {| outcome := Undefined; calls := retries; delays := slept |}
  | S fuel' =>
      if (retries <=? maxRetries)%nat then
        match fn retries with
        | inr value =>
            {| outcome := Returned value; calls := S retries; delays := slept |}
        | inl error =>
            if (isRateLimit error || isRpcError error) && (retries <? maxRetries)%nat
            then
              let delay :=
                (initialDelay * inject_Z (2 ^ Z.of_nat retries) + random retries * 1000)%Q in
              retryLoop fn random maxRetries initialDelay fuel' (S retries)
                (slept ++ [delay])
            else
              {| outcome := Thrown error; calls := S retries; delays := slept |}
        end
      else {| outcome := Undefined; calls := retries; delays := slept |}
  end.

(** [fetchWithRetry(fn, maxRetries = 5, initialDelay = 3000)]. *)
Definition fetchWithRetry {A : Type} (fn : nat -> Failure + A) (random : nat -> Q)
    (maxRetries : nat) (initialDelay : Q) : Run A :=
  retryLoop fn random maxRetries initialDelay (S (S maxRetries)) 0 [].

End Gemini.

(** ** The review screen ([components/SRSReview.tsx]) *)

Module Review.

(** The [useState] cells of the component. *)
Record ReviewState := {
  currentIndex : nat;
  showAnswer : bool;
  sessionQuestions : list App.DueItem
}.

(** What [handleRate] did: the state afterwards, the call of [onRate], and
    whether [onClose] was called. *)
Record Rated := {
  review : ReviewState;
  onRate : string * SRSRating;
  closed : bool
}.

(** [handleRate(rating)].  The test [currentIndex < sessionQuestions.length
    - 1] reads the queue of the current render, before the item rated
    "again" is appended.  [None] when there is no item at the current index
    and reading [item.type] throws. *)
Definition handleRate (rating : SRSRating) (r : ReviewState) : option Rated :=
  match sessionQuestions r !! currentIndex r with
  | None => None
  | Some item =>
      let queue :=
        match rating with
        | again => sessionQuestions r ++ [item]
        | _ => sessionQuestions r
        end in
      if (currentIndex r <? length (sessionQuestions r) - 1)%nat then
        Some {| review :=
                  {| currentIndex := currentIndex r + 1; showAnswer := false;
                     sessionQuestions := queue |};
                onRate := (App.itemId item, rating);
                closed := false |}
      else
        Some {| review :=
                  {| currentIndex := currentIndex r; showAnswer := showAnswer r;
                     sessionQuestions := queue |};
                onRate := (App.itemId item, rating);
                closed := true |}
  end.

(** A sequence of ratings, stopped at the one that closes the review: the
    calls of [onRate] in order, the last state, and whether the review
    closed. *)
Fixpoint rateQueue (ratings : list SRSRating) (r : ReviewState)
    : option (list (string * SRSRating) * ReviewState * bool) :=
  match ratings with
  | [] => Some ([], r, false)
  | rating :: ratings' =>
      match handleRate rating r with
      | None => None
      | Some result =>
          if closed result then Some ([onRate result], review result, true)
          else
            match rateQueue ratings' (review result) with
            | None => None
            | Some (calls, r', closed') => Some (onRate result :: calls, r', closed')
            end
      end
  end.

End Review.

(** ** The statistics screen ([components/AnalyticsView.tsx]) *)

Module AnalyticsView.

(** The memoised [lifetime]: the persisted statistics when there are some,
    otherwise computed from the history, [null] for an empty one. *)
Definition lifetime (lifetimeStats : option LifetimeStats)
    (history : list HistoricalSession) : option LifetimeStats :=
  match lifetimeStats with
  | Some stats => Some stats
  | None =>
      match history with
      | [] => None
      | first :: _ =>
          let totalQuestions' := Db.sumOver totalQuestions history in
          let totalCorrect' := Db.sumOver correctAnswers history in
          let totalTimeMs := Db.sumOver timeTakenMs history in
          let sorted := Db.sortByTimestamp history in
          Some
            {| ls_totalQuestions := totalQuestions';
               totalCorrect := totalCorrect';
               totalHours := JS.toFixed1 (JS.of_Z totalTimeMs / 3600000)%float;
               avgAccuracy :=
                 JS.Math_round
                   (JS.of_Z totalCorrect' / JS.of_Z totalQuestions' * 100)%float;
               firstSessionDate := timestamp (hd first sorted) |}
      end
  end.

End AnalyticsView.

(** ** Notions used to state the properties *)


(** The first question of a list that carries a given identifier. *)
Definition firstWithId (i : string) (qs : list Question) : option Question :=
  List.find (fun q => String.eqb (q_id q) i) qs.

(** The sum of a field over all entries of a history. *)
Definition total (f : HistoricalSession -> Z) (history : list HistoricalSession) : Z :=
  foldr (fun s acc => (f s + acc)%Z) 0%Z history.

(** The statistics of an empty history, stamped with the current time. *)
Definition zeroStats (now : Z) : LifetimeStats :=
  {| ls_totalQuestions := 0; totalCorrect := 0; totalHours := 0;
     avgAccuracy := 0; firstSessionDate := now |}.

(** The earliest timestamp of a non-empty history. *)
Fixpoint earliest (first : HistoricalSession) (rest : list HistoricalSession) : Z :=
  match rest with
  | [] => timestamp first
  | s :: rest' => Z.min (timestamp first) (earliest s rest')
  end.

(** Rounding of an exact value to the nearest whole number, a tie going
    up. *)
Definition roundHalfUp (x : Q) : Z := Qfloor (x + (1 # 2)).

(** The statistics [updateAnalytics] returns for a given history. *)
Definition statsOf (now : Z) (history : list HistoricalSession) : LifetimeStats :=
  (Db.updateAnalytics now (Some history) Db.emptyStore).1.

(** Export from [source] at time [t0], import the payload into [target] at
    time [t1], and export again at time [t2]. *)
Record RoundTrip := {
  exported : Db.AppData;
  imported : Db.ImportResult;
  reexported : Db.AppData
}.

Definition exportImportExport (t0 t1 t2 : Z) (source target : Db.Store) : RoundTrip :=
  let payload := (Db.backupAllData t0 source).1 in
  let result := Db.fullImport t1 (Db.parseStringified payload) target in
  {| exported := payload;
     imported := result;
     reexported := (Db.backupAllData t2 (Db.store result)).1 |}.

(** The error a call of the generator ends [startQuiz] with: the one the
    generator raised, or ["Empty response"] for an empty list. *)
Definition generationError (generated : App.Generated) : option App.ApiError :=
  match generated with
  | App.Rejected error => Some error
  | App.Resolved [] => Some {| App.status := None; App.message := "Empty response" |}
  | App.Resolved (_ :: _) => None
  end.

(** Whether [startQuiz] gets past the key check and calls the generator. *)
Definition keyAvailable (aistudio : option App.AIStudio) : bool :=
  match aistudio with
  | Some studio => App.hasSelectedApiKey studio || App.openSelectKey studio
  | None => true
  end.

(** Two application states that differ at most in [hasKey] and
    [isLoading]. *)
Definition sameData (st st' : App.AppState) : Prop :=
  App.view st' = App.view st /\
  App.session st' = App.session st /\
  App.completedSession st' = App.completedSession st /\
  App.backgroundProcessing st' = App.backgroundProcessing st /\
  App.selectedAnswer st' = App.selectedAnswer st /\
  App.bookmarks st' = App.bookmarks st /\
  App.masteryCards st' = App.masteryCards st /\
  App.history st' = App.history st /\
  App.srsStates st' = App.srsStates st /\
  App.questionLibrary st' = App.questionLibrary st /\
  App.studyPlan st' = App.studyPlan st /\
  App.lifetimeStats st' = App.lifetimeStats st.

(** The remediation request a call of [handleNext] issued is for the
    question [q]. *)
Definition sourceQuestion_is (result : App.NextResult) (q : Question) : Prop :=
  App.sourceQuestion <$> App.requested result = Some q.

(** *** Sample data *)

Module Sample.

Definition question (i : string) (answer : Z) : Question :=
  {| q_id := i; vignette := "A 54-year-old presents with chest pain.";
     options := ["Aspirin"; "Observation"; "Antibiotics"];
     correctIndex := answer;
     explanation :=
       {| correct := "First-line therapy."; incorrect := "Not indicated.";
          keyLearningPoint := "Treat early." |};
     tags := None |}.

(** The state after initialisation of a fresh installation. *)
Definition idle : App.AppState :=
  {| App.view := App.View_setup; App.session := None;
     App.completedSession := None; App.isLoading := false;
     App.backgroundProcessing := false; App.selectedAnswer := None;
     App.hasKey := true; App.bookmarks := []; App.masteryCards := ∅;
     App.history := []; App.srsStates := ∅; App.questionLibrary := ∅;
     App.studyPlan := None; App.lifetimeStats := Some (zeroStats 0) |}.

(** A session of two questions, the first one on screen. *)
Definition inProgress : App.AppState :=
  App.started
    (App.startQuiz 10 None
       (App.Resolved [question "a1" 0; question "a2" 1])
       [SURGERY] [STEP_3] MEDIUM 2 "" true idle).

Definition entry (i : string) (at_ questions' correct' elapsed : Z) : HistoricalSession :=
  {| hs_id := i; timestamp := at_; totalQuestions := questions';
     correctAnswers := correct'; timeTakenMs := elapsed;
     hs_specialties := [SURGERY]; hs_examTypes := [STEP_3];
     hs_complexity := Some MEDIUM; details := None |}.

(** The same session with its first question answered wrongly and left, and
    an answer selected on the second and last question. *)
Definition atLast : App.World :=
  let w1 :=
    App.world (App.handleNext 20 "u-1" None false
                 {| App.app := App.answer 1 inProgress; App.db := Db.emptyStore |}) in
  {| App.app := App.answer 1 (App.app w1); App.db := App.db w1 |}.

(** A mastery card of the first sample question. *)
Definition card (i : string) : MasteryCard :=
  {| mc_id := i; parentId := "a1"; mc_type := Diagnosis;
     front := "Next best step?"; back := "Aspirin." |}.

End Sample.

(** *** Notions for the scheduler *)

(** The schedule state of an item after a sequence of ratings, starting from
    the default state. *)
Definition scheduleAll (id : string) (events : list (Z * SRSRating)) : SRSState :=
  fold_left (fun s e => SRS.schedule e.1 e.2 s) events (SRS.defaultState id).

(** The number of ratings other than "again" at the front of a list. *)
Fixpoint successes (ratings : list SRSRating) : nat :=
  match ratings with
  | [] => 0
  | again :: _ => 0
  | _ :: ratings' => S (successes ratings')
  end.

(** The number of ratings since the last "again". *)
Definition streak (ratings : list SRSRating) : nat := successes (rev ratings).

(** *** Notions for the retry wrapper and the review screen *)

(** The errors [fetchWithRetry] retries. *)
Definition retryable (error : Gemini.Failure) : bool :=
  Gemini.isRateLimit error || Gemini.isRpcError error.

(** The delay slept after the call that followed [k] retries failed:
    [initialDelay * Math.pow(2, k) + Math.random() * 1000]. *)
Definition delayAt (random : nat -> Q) (initialDelay : Q) (k : nat) : Q :=
  (initialDelay * inject_Z (2 ^ Z.of_nat k) + random k * 1000)%Q.

(** The identifiers of the items of a review queue from a position on. *)
Definition remainingIds (r : Review.ReviewState) : list string :=
  App.itemId <$> drop (Review.currentIndex r) (Review.sessionQuestions r).

(** *** Notions for the application *)

(** A session whose current position has a question and whose answers are
    recorded without gaps up to, at most, the current position's. *)
Definition sessionOk (s : QuizSession) : Prop :=
  (currentQuestionIndex s < length (questions s))%nat /\
  (currentQuestionIndex s <= length (userAnswers s))%nat /\
  (length (userAnswers s) <= length (questions s))%nat /\
  Forall is_Some (userAnswers s).

Definition sessionInv (st : App.AppState) : Prop :=
  match App.session st with
  | Some s => sessionOk s
  | None => True
  end.

(** A question is bookmarked when a bookmark carries its identifier:
    [bookmarks.some(b => b.id === q.id)]. *)
Definition bookmarked (q : Question) (st : App.AppState) : bool :=
  existsb (fun b => String.eqb (q_id b) (q_id q)) (App.bookmarks st).

(** An item of the review queue stands for the identifier [id]: it is the
    library question stored under [id], or a mastery card with that
    identifier. *)
Definition standsFor (st : App.AppState) (id : string) (item : App.DueItem) : Prop :=
  match item with
  | App.Vignette q => App.questionLibrary st !! id = Some q
  | App.Mastery card => mc_id card = id
  end.

(** The session [startQuiz] creates. *)
Definition freshSession (now : Z) (qs : list Question)
    (specialties' : list MedicalSpecialty) (examTypes' : list ExamType)
    (complexity' : ClinicalComplexity) (topics' : string) (autoReinforce' : bool)
    : QuizSession :=
  {| questions := qs; currentQuestionIndex := 0; userAnswers := [];
     startTime := now; specialties := specialties'; examTypes := examTypes';
     complexity := complexity'; topics := Some topics'; skippedIds := Some [];
     autoReinforce := autoReinforce' |}.

(** The schedule states after rating each card of a list "again". *)
Definition rateCards (now : Z) (layers : list MasteryCard)
    (states : gmap string SRSState) : gmap string SRSState :=
  fold_left (fun m card => SRS.updateSRS now (mc_id card) again m) layers states.

(** The number of positions at which the answer is the question's correct
    option. *)
Fixpoint matching (qs : list Question) (answers : list (option Z)) : nat :=
  match qs, answers with
  | q :: qs', answer :: answers' =>
      (if bool_decide (answer = Some (correctIndex q)) then 1 else 0)
      + matching qs' answers'
  | _, _ => 0
  end.

(** The number of questions of a session whose detail is marked correct. *)
Definition correctDetails (s : QuizSession) : nat :=
  length (List.filter isCorrect (App.sessionDetails s)).

(** An identifier that names no property inherited from
    [Object.prototype]. *)
Definition ordinary (id : string) : Prop := JS.inherited id = false.

(** Every question of the active session and every bookmark has an entry in
    the question library, and every bookmark has a schedule state, unless
    its identifier names an inherited property. *)
Definition referencesResolved (st : App.AppState) : Prop :=
  (forall s q, App.session st = Some s -> q ∈ questions s -> ordinary (q_id q) ->
               is_Some (App.questionLibrary st !! q_id q)) /\
  (forall b, b ∈ App.bookmarks st -> ordinary (q_id b) ->
             is_Some (App.questionLibrary st !! q_id b) /\
             is_Some (App.srsStates st !! q_id b)).

(** A schedule state stored under [k] carries [k] as its identifier, or no
    identifier at all, which happens only under the name of an inherited
    property. *)
Definition keyedAt (k : string) (s : SRSState) : Prop :=
  cardId s = Some k \/ (cardId s = None /\ JS.inherited k = true).

Definition keyed (st : App.AppState) : Prop :=
  forall k s, App.srsStates st !! k = Some s -> keyedAt k s.

(** The database holds what the application holds. *)
Definition mirrored (w : App.World) : Prop :=
  Db.loadHistory (App.db w) = App.history (App.app w) /\
  Db.kv_lifetimeStats (App.db w) = App.lifetimeStats (App.app w) /\
  Db.kv_bookmarks (App.db w) = Some (App.bookmarks (App.app w)) /\
  Db.kv_masteryCards (App.db w) = Some (App.masteryCards (App.app w)) /\
  Db.kv_srsStates (App.db w) = Some (App.srsStates (App.app w)) /\
  Db.kv_questionLibrary (App.db w) = Some (App.questionLibrary (App.app w)) /\
  Db.kv_studyPlan (App.db w) = App.studyPlan (App.app w).

(** The collections of two application states are the same. *)
Definition sameApp (st st' : App.AppState) : Prop :=
  App.history st' = App.history st /\
  App.lifetimeStats st' = App.lifetimeStats st /\
  App.bookmarks st' = App.bookmarks st /\
  App.masteryCards st' = App.masteryCards st /\
  App.srsStates st' = App.srsStates st /\
  App.questionLibrary st' = App.questionLibrary st /\
  App.studyPlan st' = App.studyPlan st.

(** *** Notions for the persistence service *)

(** The stored lifetime statistics are those of the stored history. *)
Definition statsConsistent (st : Db.Store) : Prop :=
  exists now, Db.kv_lifetimeStats st = Some (statsOf now (Db.loadHistory st)).

(** Two stores that hold the same collections, whatever their lifetime
    statistics. *)
Definition sameCollections (st st' : Db.Store) : Prop :=
  Db.kv_history st' = Db.kv_history st /\
  Db.kv_bookmarks st' = Db.kv_bookmarks st /\
  Db.kv_masteryCards st' = Db.kv_masteryCards st /\
  Db.kv_srsStates st' = Db.kv_srsStates st /\
  Db.kv_questionLibrary st' = Db.kv_questionLibrary st /\
  Db.kv_studyPlan st' = Db.kv_studyPlan st.

(** ** Property reads *)

Section PropertyFacts.

Context {A : Type}.

Implicit Types (obj : gmap string A) (key : string).

Lemma get_Own obj key value : obj !! key = Some value -> JS.get obj key = JS.Own value.
Proof. unfold JS.get. by intros ->. Qed.

Lemma get_Missing obj key :
  JS.get obj key = JS.Missing <-> obj !! key = None /\ JS.inherited key = false.
Proof.
  unfold JS.get. destruct (obj !! key), (JS.inherited key); split;
    first [done | by intros [? ?]].
Qed.

Lemma get_ordinary obj key :
  ordinary key ->
  JS.get obj key = match obj !! key with Some value => JS.Own value | None => JS.Missing end.
Proof. unfold ordinary, JS.get. by intros ->. Qed.

End PropertyFacts.

(** ** The question library *)

Section LibraryFacts.

Implicit Types (lib : gmap string Question) (qs : list Question) (i : string).

Lemma addToLibrary_cons q qs lib :
  Library.addToLibrary (q :: qs) lib =
  Library.addToLibrary qs
    (match JS.get lib (q_id q) with JS.Missing => <[q_id q := q]> lib | _ => lib end).
Proof. reflexivity. Qed.

(** The entry under an identifier after a merge: the one that was there;
    otherwise none when the identifier names an inherited property, and
    otherwise the first question of the batch that carries it. *)
Lemma addToLibrary_lookup qs lib i :
  Library.addToLibrary qs lib !! i =
    match lib !! i with
    | Some existing => Some existing
    | None => if JS.inherited i then None else firstWithId i qs
    end.
Proof.
  revert lib. induction qs as [|q qs IH]; intros lib.
  - simpl. by destruct (lib !! i), (JS.inherited i).
  - rewrite addToLibrary_cons, IH. unfold firstWithId, JS.get. simpl.
    destruct (String.eqb_spec (q_id q) i) as [->|Hne].
    + destruct (lib !! i) eqn:Hi; [by rewrite Hi|].
      destruct (JS.inherited i); [by rewrite Hi|].
      by rewrite lookup_insert_eq.
    + destruct (lib !! q_id q) eqn:Hq; [done|].
      destruct (JS.inherited (q_id q)); [done|].
      by rewrite lookup_insert_ne.
Qed.

Lemma addToLibrary_keeps qs lib i q :
  lib !! i = Some q -> Library.addToLibrary qs lib !! i = Some q.
Proof. intros H. by rewrite addToLibrary_lookup, H. Qed.

Lemma addToLibrary_dom qs lib :
  dom (Library.addToLibrary qs lib) =
    dom lib ∪ list_to_set (List.filter (fun i => negb (JS.inherited i)) (q_id <$> qs)).
Proof.
  apply set_eq. intros i.
  rewrite elem_of_union, elem_of_list_to_set, !elem_of_dom,
    addToLibrary_lookup, list_elem_of_In, filter_In, <- list_elem_of_In.
  destruct (lib !! i) as [existing|] eqn:Hi.
  - split; [by left|by eexists].
  - unfold firstWithId. destruct (JS.inherited i) eqn:Hinh.
    + split; [by intros [? ?]|]. intros [[? ?]|[_ ?]]; done.
    + split.
      * intros [q Hq]. right. apply find_some in Hq as [Hin Hid].
        apply String.eqb_eq in Hid. subst i. split; [|done].
        apply list_elem_of_fmap. exists q. split; [done|].
        by apply list_elem_of_In.
      * intros [[? ?]|[Hin _]]; [done|].
        apply list_elem_of_fmap in Hin as (q & -> & Hin).
        apply list_elem_of_In in Hin.
        destruct (List.find _ qs) as [found|] eqn:Hfind; [by eexists|].
        eapply find_none in Hfind; [|exact Hin].
        by rewrite String.eqb_refl in Hfind.
Qed.

(** X27: merging questions into the library never overwrites an entry, and
    binds an identifier that was absent to the first question of the batch
    that carries it, unless the identifier names an inherited property: such
    a question is dropped.  The library gains exactly the identifiers of the
    batch that name no inherited property. *)
Theorem addToLibrary_first_write_wins qs lib :
  (forall i,
     Library.addToLibrary qs lib !! i =
       match lib !! i with
       | Some existing => Some existing
       | None => if JS.inherited i then None else firstWithId i qs
       end) /\
  dom (Library.addToLibrary qs lib) =
    dom lib ∪ list_to_set (List.filter (fun i => negb (JS.inherited i)) (q_id <$> qs)).
Proof. split; [intros i; apply addToLibrary_lookup|apply addToLibrary_dom]. Qed.

(** C8: the merge tests [!next[q.id]], which also sees the properties an
    object inherits.  A question whose identifier is ["toString"] is not in
    the empty library, and is not inserted into it: the library is still
    empty after the merge; in a batch, the questions with other identifiers
    are inserted and this one is left out. *)
Theorem addToLibrary_skips_inherited_name :
  let named := Sample.question "toString" 0 in
  let other := Sample.question "q2" 1 in
  (∅ : gmap string Question) !! q_id named = None /\
  Library.addToLibrary [named] ∅ = ∅ /\
  Library.addToLibrary [named; other] ∅ !! "toString" = None /\
  Library.addToLibrary [named; other] ∅ !! "q2" = Some other.
Proof.
  cbn zeta. split_and!.
  - apply lookup_empty.
  - reflexivity.
  - by rewrite addToLibrary_lookup.
  - by rewrite addToLibrary_lookup.
Qed.

(** A batch with a repeated identifier and one already in the library. *)
Example addToLibrary_sample :
  let old := Sample.question "q1" 0 in
  let lib := Library.addToLibrary
               [Sample.question "q1" 2; Sample.question "q2" 1; Sample.question "q2" 0]
               {["q1" := old]} in
  lib !! "q1" = Some old /\ lib !! "q2" = Some (Sample.question "q2" 1) /\
  lib !! "q3" = None.
Proof. cbn zeta. rewrite !addToLibrary_lookup. by vm_compute. Qed.

End LibraryFacts.

(** ** The SRS scheduler *)

Section SchedulerFacts.

Local Open Scope float_scope.

Implicit Types (s current : SRSState) (prev : gmap string SRSState).

Lemma updateSRS_lookup now id rating prev :
  SRS.updateSRS now id rating prev !! id =
    Some (SRS.schedule now rating (SRS.currentState id prev)).
Proof. unfold SRS.updateSRS. by rewrite lookup_insert_eq. Qed.

Lemma updateSRS_other now id rating prev (other : string) :
  other <> id -> SRS.updateSRS now id rating prev !! other = prev !! other.
Proof. intros Hne. unfold SRS.updateSRS. by rewrite lookup_insert_ne. Qed.

Lemma currentState_Own id prev s : prev !! id = Some s -> SRS.currentState id prev = s.
Proof. intros Hs. unfold SRS.currentState. by rewrite (get_Own _ _ _ Hs). Qed.

(** X28: the entry [updateSRS] writes for an item, case by case on the
    rating, computed in binary64 arithmetic from what [prev[cardId] ||
    default] reads: the item's own state; the default state (interval 0,
    ease 2.3, repetitions 0) when it has none; but the inherited property,
    which has no number to offer, when the identifier names one. *)
Theorem updateSRS_schedule (now : Z) (id : string) (rating : SRSRating) prev :
  let current :=
    match prev !! id with
    | Some s => s
    | None =>
        if JS.inherited id then
          {| cardId := None; nextReview := nan; interval := nan; ease := nan;
             repetitions := None |}
        else
          {| cardId := Some id; nextReview := 0; interval := 0; ease := 2.3;
             repetitions := Some 0%Z |}
    end in
  exists next,
    SRS.updateSRS now id rating prev !! id = Some next /\
    match rating with
    | again =>
        repetitions next = Some 0%Z /\
        interval next = 0 /\
        ease next = JS.Math_max 1.3 (ease current - 0.2) /\
        nextReview next = JS.of_Z now + 0
    | hard =>
        interval next =
          (if bool_decide (repetitions current = Some 0%Z) then 1
           else if bool_decide (repetitions current = Some 1%Z) then 6
           else JS.Math_ceil (interval current * 1.2)) /\
        repetitions next = (fun n => (n + 1)%Z) <$> repetitions current /\
        ease next = JS.Math_max 1.3 (ease current - 0.15) /\
        nextReview next = JS.of_Z now + interval next * 24 * 60 * 60 * 1000
    | good =>
        interval next =
          (if bool_decide (repetitions current = Some 0%Z) then 1
           else if bool_decide (repetitions current = Some 1%Z) then 6
           else JS.Math_ceil (interval current * ease current)) /\
        repetitions next = (fun n => (n + 1)%Z) <$> repetitions current /\
        ease next = ease current /\
        nextReview next = JS.of_Z now + interval next * 24 * 60 * 60 * 1000
    | easy =>
        interval next =
          (if bool_decide (repetitions current = Some 0%Z) then 1
           else if bool_decide (repetitions current = Some 1%Z) then 6
           else JS.Math_ceil (interval current * (ease current * 1.5))) /\
        repetitions next = (fun n => (n + 1)%Z) <$> repetitions current /\
        ease next = ease current + 0.15 /\
        nextReview next = JS.of_Z now + interval next * 24 * 60 * 60 * 1000
    end.
Proof.
  intros current. eexists. split; [apply updateSRS_lookup|].
  replace (SRS.currentState id prev) with current
    by (subst current; unfold SRS.currentState, JS.get;
        by destruct (prev !! id), (JS.inherited id)).
  destruct rating; split_and!; reflexivity.
Qed.

(** C2: the default state is what [prev[cardId] || { ... }] gives only when
    the read is falsy, and the read also sees inherited properties.  For the
    identifier ["constructor"], which has no schedule state, [current] is the
    function every object inherits under that name: the entry written has no
    identifier, and its numbers are computed from [undefined].  An item with
    another identifier starts from the default state, as the rule for a
    first rating "hard" says: interval 1, ease 2.3 - 0.15, repetitions 1. *)
Theorem updateSRS_inherited_name_not_defaulted :
  let prev : gmap string SRSState := ∅ in
  prev !! "constructor" = None /\
  SRS.updateSRS 1000 "constructor" hard prev !! "constructor" =
    Some {| cardId := None; nextReview := nan; interval := nan; ease := nan;
            repetitions := None |} /\
  SRS.updateSRS 1000 "constructor" again prev !! "constructor" =
    Some {| cardId := None; nextReview := 1000; interval := 0; ease := nan;
            repetitions := Some 0%Z |} /\
  SRS.updateSRS 1000 "card" hard prev !! "card" =
    Some {| cardId := Some "card"; nextReview := 86401000; interval := 1;
            ease := 2.15; repetitions := Some 1%Z |}.
Proof.
  cbn zeta. split; [apply lookup_empty|].
  rewrite !updateSRS_lookup. split_and!; vm_compute; reflexivity.
Qed.

Lemma schedule_cardId now rating s : cardId (SRS.schedule now rating s) = cardId s.
Proof. by destruct rating. Qed.


(** *** Sequences of ratings *)

Lemma rateAll_lookup id events prev :
  SRS.rateAll id events prev !! id =
    match events with
    | [] => prev !! id
    | _ :: _ =>
        Some (fold_left (fun s e => SRS.schedule e.1 e.2 s) events
                (SRS.currentState id prev))
    end.
Proof.
  destruct events as [|e events]; [done|].
  revert e prev. induction events as [|e' events IH]; intros e prev.
  - simpl. apply updateSRS_lookup.
  - change (SRS.rateAll id (e :: e' :: events) prev)
      with (SRS.rateAll id (e' :: events) (SRS.updateSRS e.1 id e.2 prev)).
    rewrite IH. by rewrite (currentState_Own _ _ _ (updateSRS_lookup _ _ _ _)).
Qed.


(** Three "good" ratings of a new item: intervals 1, 6, then
    [ceil (6 * 2.3) = 14] days. *)
Example rateAll_three_goods :
  SRS.rateAll "card" [(0, good); (5, good); (9, good)]%Z ∅ !! "card" =
    Some {| cardId := Some "card"; nextReview := 1209600009;
            interval := 14; ease := 2.3; repetitions := Some 3%Z |}.
Proof. rewrite rateAll_lookup. vm_compute. reflexivity. Qed.

(** "again" seven times from the default ease 2.3 stops at the floor. *)
Example rateAll_again_floor :
  ease <$> SRS.rateAll "card" (replicate 7 (0%Z, again)) ∅ !! "card" = Some 1.3.
Proof. rewrite rateAll_lookup. vm_compute. reflexivity. Qed.

(** The ease is a binary64 value: after "hard", "hard", "again", "hard",
    "hard" it is a little above 1.5, and a "good" rating of the interval of
    six days gives ten days, not nine. *)
Example rateAll_rounding :
  interval <$>
    SRS.rateAll "card"
      [(0, hard); (1, hard); (2, again); (3, hard); (4, hard); (5, good)]%Z ∅
      !! "card" = Some 10.
Proof. rewrite rateAll_lookup. vm_compute. reflexivity. Qed.

End SchedulerFacts.

(** ** Lifetime statistics *)

Section AnalyticsFacts.

Implicit Types (history rest : list HistoricalSession) (a first : HistoricalSession).

Lemma sumOver_total f history : Db.sumOver f history = total f history.
Proof.
  unfold Db.sumOver.
  enough (H : forall acc,
             fold_left (fun acc s => (acc + f s)%Z) history acc = (acc + total f history)%Z)
    by (rewrite H; lia).
  induction history as [|s history IH]; intros acc; simpl; [lia|].
  rewrite IH. lia.
Qed.

Lemma total_Permutation f history history' :
  history ≡ₚ history' -> total f history = total f history'.
Proof. induction 1; simpl; lia. Qed.

Lemma insertByTimestamp_Permutation a history :
  Db.insertByTimestamp a history ≡ₚ a :: history.
Proof.
  induction history as [|b history IH]; simpl; [done|].
  destruct (timestamp a - timestamp b <=? 0)%Z; [done|].
  rewrite IH. apply Permutation_swap.
Qed.

Lemma sortByTimestamp_Permutation history : Db.sortByTimestamp history ≡ₚ history.
Proof.
  induction history as [|a history IH]; simpl; [done|].
  by rewrite insertByTimestamp_Permutation, IH.
Qed.

Lemma hd_insertByTimestamp d a history :
  timestamp (hd d (Db.insertByTimestamp a history)) =
    match history with
    | [] => timestamp a
    | b :: _ => Z.min (timestamp a) (timestamp b)
    end.
Proof.
  destruct history as [|b history]; simpl; [done|].
  destruct (Z.leb_spec (timestamp a - timestamp b) 0); simpl; lia.
Qed.

Lemma hd_sortByTimestamp d first rest :
  timestamp (hd d (Db.sortByTimestamp (first :: rest))) = earliest first rest.
Proof.
  revert first. induction rest as [|s rest IH]; intros first; [done|].
  change (Db.sortByTimestamp (first :: s :: rest))
    with (Db.insertByTimestamp first (Db.sortByTimestamp (s :: rest))).
  rewrite hd_insertByTimestamp.
  destruct (Db.sortByTimestamp (s :: rest)) as [|b sorted] eqn:Hsorted.
  - pose proof (sortByTimestamp_Permutation (s :: rest)) as Hperm.
    rewrite Hsorted in Hperm. by apply Permutation_nil_cons in Hperm.
  - simpl. f_equal. rewrite <- (IH s), Hsorted. reflexivity.
Qed.

(** The earliest timestamp is the timestamp of an entry and a lower bound of
    all of them. *)
Lemma earliest_least first rest :
  earliest first rest ∈ timestamp <$> first :: rest /\
  Forall (fun s => (earliest first rest <= timestamp s)%Z) (first :: rest).
Proof.
  revert first. induction rest as [|s rest IH]; intros first.
  - simpl. split; [apply list_elem_of_here|]. repeat constructor. lia.
  - destruct (IH s) as [Hin Hle]. cbn [earliest]. split.
    + destruct (Z.min_spec (timestamp first) (earliest s rest)) as [[_ ->]|[_ ->]].
      * apply list_elem_of_here.
      * apply list_elem_of_further, Hin.
    + constructor; [lia|].
      eapply Forall_impl; [exact Hle|]. simpl. intros; lia.
Qed.

Lemma earliest_Permutation first rest first' rest' :
  first :: rest ≡ₚ first' :: rest' -> earliest first rest = earliest first' rest'.
Proof.
  intros Hperm.
  destruct (earliest_least first rest) as [Hin Hle].
  destruct (earliest_least first' rest') as [Hin' Hle'].
  apply list_elem_of_fmap in Hin as (s & Hs & Hsin).
  apply list_elem_of_fmap in Hin' as (s' & Hs' & Hsin').
  rewrite Hperm in Hsin. rewrite <- Hperm in Hsin'.
  rewrite Forall_forall in Hle, Hle'.
  apply Hle' in Hsin. apply Hle in Hsin'. lia.
Qed.

Lemma updateAnalytics_cons now first rest st :
  (Db.updateAnalytics now (Some (first :: rest)) st).1 =
    let history := first :: rest in
    {| ls_totalQuestions := total totalQuestions history;
       totalCorrect := total correctAnswers history;
       totalHours :=
         JS.toFixed1 (JS.of_Z (total timeTakenMs history) / 3600000)%float;
       avgAccuracy :=
         JS.Math_round
           (JS.of_Z (total correctAnswers history)
            / JS.of_Z (total totalQuestions history) * 100)%float;
       firstSessionDate := earliest first rest |}.
Proof.
  unfold Db.updateAnalytics. cbn [fst].
  by rewrite !sumOver_total, hd_sortByTimestamp.
Qed.

Lemma statsOf_cons now first rest :
  statsOf now (first :: rest) =
    {| ls_totalQuestions := total totalQuestions (first :: rest);
       totalCorrect := total correctAnswers (first :: rest);
       totalHours :=
         JS.toFixed1 (JS.of_Z (total timeTakenMs (first :: rest)) / 3600000)%float;
       avgAccuracy :=
         JS.Math_round
           (JS.of_Z (total correctAnswers (first :: rest))
            / JS.of_Z (total totalQuestions (first :: rest)) * 100)%float;
       firstSessionDate := earliest first rest |}.
Proof. unfold statsOf. apply updateAnalytics_cons. Qed.

Lemma updateAnalytics_Permutation now history stored st st' :
  stored ≡ₚ history ->
  history <> [] ->
  (Db.updateAnalytics now (Some stored) st').1 =
  (Db.updateAnalytics now (Some history) st).1.
Proof.
  intros Hperm Hne.
  destruct history as [|first rest]; [done|].
  destruct stored as [|first' rest'];
    [by apply Permutation_nil_cons in Hperm|].
  rewrite !updateAnalytics_cons. cbn zeta.
  rewrite (total_Permutation totalQuestions _ _ Hperm),
    (total_Permutation correctAnswers _ _ Hperm),
    (total_Permutation timeTakenMs _ _ Hperm),
    (earliest_Permutation _ _ _ _ Hperm).
  reflexivity.
Qed.

(** X29: the statistics [updateAnalytics] returns for a history: the zeroed
    record stamped with the current time when it is empty; otherwise the sums
    of questions and of correct answers, the hours and the accuracy as
    binary64 arithmetic computes them from the sums, and the least timestamp,
    whatever the order of the stored list. *)
Theorem updateAnalytics_stats (now : Z) history (st : Db.Store) :
  let stats := (Db.updateAnalytics now (Some history) st).1 in
  match history with
  | [] => stats = zeroStats now
  | first :: rest =>
      let sumQuestions := total totalQuestions history in
      let sumCorrect := total correctAnswers history in
      ls_totalQuestions stats = sumQuestions /\
      totalCorrect stats = sumCorrect /\
      totalHours stats =
        JS.toFixed1 (JS.of_Z (total timeTakenMs history) / 3600000)%float /\
      avgAccuracy stats =
        JS.Math_round (JS.of_Z sumCorrect / JS.of_Z sumQuestions * 100)%float /\
      (firstSessionDate stats ∈ timestamp <$> history /\
       Forall (fun s => (firstSessionDate stats <= timestamp s)%Z) history) /\
      (forall stored,
         stored ≡ₚ history ->
         (Db.updateAnalytics now (Some stored) st).1 = stats)
  end.
Proof.
  destruct history as [|first rest]; [reflexivity|].
  cbn zeta. rewrite updateAnalytics_cons. cbn zeta.
  cbn [ls_totalQuestions totalCorrect totalHours avgAccuracy firstSessionDate].
  split_and!; try reflexivity.
  - apply earliest_least.
  - apply earliest_least.
  - intros stored Hperm.
    rewrite (updateAnalytics_Permutation now (first :: rest) stored st st Hperm)
      by done.
    apply updateAnalytics_cons.
Qed.

(** C4: the accuracy is [Math.round((totalCorrect / totalQuestions) * 100)],
    computed in binary64 arithmetic with the division first.  For 23 correct
    answers out of 40 the quotient times 100 is 57.49999999999999, which
    rounds to 57, while 100 * 23 / 40 is 57.5 and rounds to 58.  The sums and
    the first-session date are as stated.  The 540000 milliseconds of the
    session are 0.15 hours; the quotient computed is just below, and is
    written as 0.1. *)
Theorem updateAnalytics_accuracy_rounds_down :
  let history := [Sample.entry "s1" 100 40 23 540000] in
  let stats := (Db.updateAnalytics 999 (Some history) Db.emptyStore).1 in
  ls_totalQuestions stats = 40%Z /\
  totalCorrect stats = 23%Z /\
  firstSessionDate stats = 100%Z /\
  roundHalfUp (100 * (inject_Z 23 / inject_Z 40)) = 58%Z /\
  (JS.of_Z 23 / JS.of_Z 40 * 100 = 57.49999999999999)%float /\
  avgAccuracy stats = 57%float /\
  totalHours stats = 0.1%float.
Proof. cbn zeta. split_and!; vm_compute; reflexivity. Qed.

(** Two sessions stored most recent first: 5 questions, 4 correct, two hours,
    80 percent, first session at time 100. *)
Example updateAnalytics_sample :
  statsOf 999 [Sample.entry "s2" 200 2 1 1800000; Sample.entry "s1" 100 3 3 5400000] =
    {| ls_totalQuestions := 5; totalCorrect := 4; totalHours := 2;
       avgAccuracy := 80; firstSessionDate := 100 |}.
Proof. vm_compute. reflexivity. Qed.

(** A history whose entries count no question at all has no accuracy:
    [0 / 0] is [NaN]. *)
Example updateAnalytics_no_questions :
  avgAccuracy (statsOf 999 [Sample.entry "s0" 100 0 0 1000]) = nan.
Proof. vm_compute. reflexivity. Qed.

End AnalyticsFacts.

(** ** Backup and import *)

Section ImportFacts.

Implicit Types (st source target : Db.Store) (data : Db.Backup).

Lemma updateAnalytics_override now history st :
  Db.updateAnalytics now (Some history) st =
    (statsOf now history, Db.set_lifetimeStats (Some (statsOf now history)) st).
Proof. unfold statsOf. by destruct history. Qed.

Lemma statsOf_nonempty now now' history :
  history <> [] -> statsOf now history = statsOf now' history.
Proof. unfold statsOf. by destruct history. Qed.

Lemma sessionsOf_sessions (sessions : list HistoricalSession) :
  Db.sessionsOf (Some <$> sessions) = Some sessions.
Proof.
  unfold Db.sessionsOf. induction sessions as [|s sessions IH]; [done|].
  cbn. by rewrite IH.
Qed.

Lemma sessionsOf_null (entries : list (option HistoricalSession)) :
  None ∈ entries -> Db.sessionsOf entries = None.
Proof.
  unfold Db.sessionsOf. induction entries as [|entry entries IH]; intros Hin.
  - by apply not_elem_of_nil in Hin.
  - apply elem_of_cons in Hin as [<-|Hin]; [done|].
    cbn. rewrite (IH Hin). by destruct entry.
Qed.

(** C5: [fullImport] on a parsed payload.  When [history], [bookmarks] or
    [questionLibrary] is missing the import fails with a message that names
    the first missing field, and the store is untouched.  Only a payload
    that has the three fields gets written: the five collections beside the
    history are overwritten from it; when every entry of its history is a
    session, the history is overwritten too, the import succeeds, and the
    lifetime statistics stored are the sums, the hours, the accuracy and the
    earliest timestamp of the imported sessions (the zeroed record for none).
    The entries of the history are not validated: when one is [null], the
    statistics are not recomputed, for [updateAnalytics] throws on it after
    the six slots were written, and the import reports that error. *)
Theorem fullImport_validates (now : Z) data st :
  let result := Db.fullImport now (Db.Object data) st in
  match Db.b_history data, Db.b_bookmarks data, Db.b_questionLibrary data with
  | None, _, _ =>
      result =
        {| Db.success := false;
           Db.alert := Some "Import Failed: Missing 'history' array in backup";
           Db.store := st;
           Db.strayHistory := None |}
  | Some _, None, _ =>
      result =
        {| Db.success := false;
           Db.alert := Some "Import Failed: Missing 'bookmarks' array in backup";
           Db.store := st;
           Db.strayHistory := None |}
  | Some _, Some _, None =>
      result =
        {| Db.success := false;
           Db.alert := Some "Import Failed: Missing 'questionLibrary' in backup";
           Db.store := st;
           Db.strayHistory := None |}
  | Some entries, Some bookmarks', Some questionLibrary' =>
      let written := Db.store result in
      (Db.kv_bookmarks written = Some bookmarks' /\
       Db.kv_masteryCards written = Some (default ∅ (Db.b_masteryCards data)) /\
       Db.kv_srsStates written = Some (default ∅ (Db.b_srsStates data)) /\
       Db.kv_questionLibrary written = Some questionLibrary' /\
       Db.kv_studyPlan written = Db.b_studyPlan data) /\
      (forall sessions,
         entries = Some <$> sessions ->
         Db.success result = true /\
         Db.alert result = None /\
         Db.strayHistory result = None /\
         Db.kv_history written = Some sessions /\
         Db.kv_lifetimeStats written =
           Some
             match sessions with
             | [] => zeroStats now
             | first :: rest =>
                 {| ls_totalQuestions := total totalQuestions sessions;
                    totalCorrect := total correctAnswers sessions;
                    totalHours :=
                      JS.toFixed1
                        (JS.of_Z (total timeTakenMs sessions) / 3600000)%float;
                    avgAccuracy :=
                      JS.Math_round
                        (JS.of_Z (total correctAnswers sessions)
                         / JS.of_Z (total totalQuestions sessions) * 100)%float;
                    firstSessionDate := earliest first rest |}
             end) /\
      (None ∈ entries ->
       Db.success result = false /\
       Db.alert result =
         Some "Import Failed: Cannot read properties of null (reading 'totalQuestions')" /\
       Db.strayHistory result = Some entries /\
       Db.kv_lifetimeStats written = Db.kv_lifetimeStats st)
  end.
Proof.
  unfold Db.fullImport.
  destruct (Db.b_history data) as [entries|]; [|reflexivity].
  destruct (Db.b_bookmarks data) as [bookmarks'|]; [|reflexivity].
  destruct (Db.b_questionLibrary data) as [questionLibrary'|]; [|reflexivity].
  cbn zeta. split_and!.
  1-5: destruct (Db.sessionsOf entries) as [sessions|];
       [rewrite updateAnalytics_override|]; reflexivity.
  - intros sessions ->. rewrite sessionsOf_sessions, updateAnalytics_override.
    cbn. split_and!; try reflexivity. f_equal.
    destruct sessions as [|first rest]; [reflexivity|]. apply statsOf_cons.
  - intros Hnull. rewrite (sessionsOf_null _ Hnull). by split_and!.
Qed.

(** A failed import has written nothing, unless it failed on a [null] entry
    of the history, after the writes. *)
Lemma fullImport_failure_commits_nothing now parsed st :
  Db.success (Db.fullImport now parsed st) = false ->
  Db.strayHistory (Db.fullImport now parsed st) = None ->
  Db.store (Db.fullImport now parsed st) = st.
Proof.
  destruct parsed as [message| |data]; [done..|]. unfold Db.fullImport.
  destruct (Db.b_history data) as [entries|]; [|done].
  destruct (Db.b_bookmarks data), (Db.b_questionLibrary data); [|done..].
  cbn zeta. by destruct (Db.sessionsOf entries).
Qed.

(** A backup whose history holds [null]: the import fails, and the
    bookmarks of the backup have replaced the stored ones. *)
Example fullImport_null_entry :
  let target := Db.set_bookmarks (Some [Sample.question "old" 0]) Db.emptyStore in
  let backup :=
    {| Db.b_history := Some [None]; Db.b_bookmarks := Some [];
       Db.b_masteryCards := None; Db.b_srsStates := None;
       Db.b_questionLibrary := Some ∅; Db.b_studyPlan := None;
       Db.b_lifetimeStats := None |} in
  let result := Db.fullImport 2000 (Db.Object backup) target in
  Db.success result = false /\
  Db.strayHistory result = Some [None] /\
  Db.kv_bookmarks (Db.store result) = Some [] /\
  Db.kv_lifetimeStats (Db.store result) = None.
Proof. cbn zeta. by split_and!. Qed.

Lemma getAllData_collections now st :
  let data : Db.AppData := (Db.getAllData now st).1 in
  Db.history data = default [] (Db.kv_history st) /\
  Db.bookmarks data = default [] (Db.kv_bookmarks st) /\
  Db.masteryCards data = default ∅ (Db.kv_masteryCards st) /\
  Db.srsStates data = default ∅ (Db.kv_srsStates st) /\
  Db.questionLibrary data = default ∅ (Db.kv_questionLibrary st) /\
  Db.studyPlan data = Db.kv_studyPlan st /\
  Db.lifetimeStats data =
    default (statsOf now (default [] (Db.kv_history st))) (Db.kv_lifetimeStats st).
Proof.
  unfold Db.getAllData. cbn zeta.
  destruct (Db.kv_lifetimeStats st) as [stats|]; [done|].
  destruct (default [] (Db.kv_history st)) as [|first rest] eqn:Hh; [done|].
  cbn [Nat.ltb Nat.leb length]. rewrite updateAnalytics_override. done.
Qed.

Lemma fullImport_parseStringified now (payload : Db.AppData) target :
  Db.fullImport now (Db.parseStringified payload) target =
    {| Db.success := true;
       Db.alert := None;
       Db.store :=
         {| Db.kv_history := Some (Db.history payload);
            Db.kv_bookmarks := Some (Db.bookmarks payload);
            Db.kv_masteryCards := Some (Db.masteryCards payload);
            Db.kv_srsStates := Some (Db.srsStates payload);
            Db.kv_questionLibrary := Some (Db.questionLibrary payload);
            Db.kv_studyPlan := Db.studyPlan payload;
            Db.kv_lifetimeStats := Some (statsOf now (Db.history payload)) |};
       Db.strayHistory := None |}.
Proof.
  unfold Db.fullImport, Db.parseStringified.
  cbn -[Db.updateAnalytics Db.sessionsOf].
  by rewrite sessionsOf_sessions, updateAnalytics_override.
Qed.

(** The counterexample to C6: a store with an empty history, exported at
    time 1000 and imported at time 2000, re-exports a payload whose
    first-session date is 2000 instead of 1000. *)
Lemma roundTrip_restamps_empty_history :
  let source := Db.emptyStore in
  let trip :=
    exportImportExport 1000 2000 3000 source (Db.backupAllData 1000 source).2 in
  Db.success (imported trip) = true /\
  firstSessionDate (Db.lifetimeStats (exported trip)) = 1000%Z /\
  firstSessionDate (Db.lifetimeStats (reexported trip)) = 2000%Z /\
  reexported trip <> exported trip.
Proof.
  cbn zeta. repeat split.
  intros Heq.
  apply (f_equal (fun d => firstSessionDate (Db.lifetimeStats d))) in Heq.
  discriminate Heq.
Qed.

(** C6, amended: export followed by import and a second export gives back
    every tracked collection; the lifetime statistics of the second payload
    are those recomputed from the imported history at the time of the import.
    The two payloads are therefore equal when the history is not empty and
    the exported statistics were the ones of that history. *)
Theorem roundTrip_collections (t0 t1 t2 : Z) source target :
  let trip := exportImportExport t0 t1 t2 source target in
  Db.success (imported trip) = true /\
  Db.history (reexported trip) = Db.history (exported trip) /\
  Db.bookmarks (reexported trip) = Db.bookmarks (exported trip) /\
  Db.masteryCards (reexported trip) = Db.masteryCards (exported trip) /\
  Db.srsStates (reexported trip) = Db.srsStates (exported trip) /\
  Db.questionLibrary (reexported trip) = Db.questionLibrary (exported trip) /\
  Db.studyPlan (reexported trip) = Db.studyPlan (exported trip) /\
  Db.lifetimeStats (reexported trip) = statsOf t1 (Db.history (exported trip)) /\
  (Db.history (exported trip) <> [] ->
   Db.lifetimeStats (exported trip) = statsOf t0 (Db.history (exported trip)) ->
   reexported trip = exported trip).
Proof.
  cbn zeta. unfold exportImportExport, Db.backupAllData.
  cbn [exported imported reexported].
  generalize ((Db.getAllData t0 source).1). intros payload.
  rewrite fullImport_parseStringified. cbn [Db.success Db.store].
  unfold Db.getAllData.
  cbn [Db.kv_history Db.kv_bookmarks Db.kv_masteryCards Db.kv_srsStates
       Db.kv_questionLibrary Db.kv_studyPlan Db.kv_lifetimeStats default fst
       Db.history Db.bookmarks Db.masteryCards Db.srsStates Db.questionLibrary
       Db.studyPlan Db.lifetimeStats].
  repeat split.
  intros Hne Hstats. destruct payload as [h b m s q p l].
  cbn in *. subst l. by rewrite (statsOf_nonempty t1 t0).
Qed.

End ImportFacts.

(** ** The quiz session *)

Section SessionFacts.

Implicit Types (st : App.AppState) (w : App.World) (s : QuizSession).

Lemma withQuestions_same s : App.withQuestions (questions s) s = s.
Proof. by destruct s. Qed.

Lemma handleError_sameData aistudio loading error st :
  sameData st (App.handleError aistudio loading error st).1.
Proof.
  unfold App.handleError.
  destruct (_ || _ || _); [|destruct (_ || _)]; cbn [fst];
    [destruct aistudio as [[has opens]|]; [destruct opens|]|..];
    repeat split.
Qed.

(** X30: the guard of [handleNext] is on the cell [selectedAnswer]: when it
    is [null] the handler returns at once, the application state and the
    database are the ones it was called in, and no remediation is
    requested. *)
Theorem handleNext_without_answer (now : Z) (uuid : string)
    (userFocus : option string) (manualReinforce : bool) w :
  App.selectedAnswer (App.app w) = None ->
  App.handleNext now uuid userFocus manualReinforce w =
    {| App.world := w; App.requested := None |}.
Proof.
  intros Hnone. unfold App.handleNext. rewrite Hnone.
  by destruct (App.session (App.app w)).
Qed.

Lemma handleNext_without_answer_witness :
  let w := {| App.app := Sample.inProgress; App.db := Db.emptyStore |} in
  (exists s, App.session (App.app w) = Some s /\ currentQuestionIndex s = 0%nat) /\
  App.handleNext 20 "u-1" None true w = {| App.world := w; App.requested := None |}.
Proof.
  split.
  - eexists. split; reflexivity.
  - apply (handleNext_without_answer 20 "u-1" None true). reflexivity.
Defined.

(** C9: the cell [selectedAnswer] is written by the answer buttons and when
    the position moves, and by nothing else: starting a quiz does not clear
    it.  A session is completed with option 1 selected on its last question;
    a new quiz is started and holds no answer at position 0; [handleNext],
    called before any answer is given, finds the selection of the previous
    session, records it as the answer at position 0 and moves to
    position 1. *)
Theorem handleNext_records_stale_answer :
  let completed := App.world (App.handleNext 30 "u-2" None false Sample.atLast) in
  let restarted :=
    {| App.app :=
         App.started
           (App.startQuiz 40 None
              (App.Resolved [Sample.question "b1" 0; Sample.question "b2" 1])
              [SURGERY] [STEP_3] MEDIUM 2 "" false (App.app completed));
       App.db := App.db completed |} in
  let advanced := App.world (App.handleNext 50 "u-3" None false restarted) in
  App.session (App.app completed) = None /\
  currentQuestionIndex <$> App.session (App.app restarted) = Some 0%nat /\
  userAnswers <$> App.session (App.app restarted) = Some [] /\
  App.selectedAnswer (App.app restarted) = Some 1%Z /\
  currentQuestionIndex <$> App.session (App.app advanced) = Some 1%nat /\
  userAnswers <$> App.session (App.app advanced) = Some [Some 1%Z] /\
  advanced <> restarted.
Proof.
  cbn zeta. split_and!; try (vm_compute; reflexivity).
  intros Heq.
  apply (f_equal (fun w => currentQuestionIndex <$> App.session (App.app w))) in Heq.
  vm_compute in Heq. discriminate Heq.
Qed.

Lemma sameData_refl st : sameData st st.
Proof. repeat split. Qed.

Lemma sameData_trans st1 st2 st3 :
  sameData st1 st2 -> sameData st2 st3 -> sameData st1 st3.
Proof.
  unfold sameData. intros H12 H23.
  repeat match goal with H : _ /\ _ |- _ => destruct H as [? H] end.
  repeat split; congruence.
Qed.

Lemma sameData_setIsLoading v st : sameData st (App.setIsLoading v st).
Proof. repeat split. Qed.

Lemma sameData_setHasKey v st : sameData st (App.setHasKey v st).
Proof. repeat split. Qed.

(** The [catch] path of [startQuiz], from the state [st1] left by the key
    check. *)
Lemma startQuiz_catch_sameData aistudio loading error st1 :
  sameData st1
    (App.setIsLoading false
       (App.handleError aistudio loading error (App.setIsLoading true st1)).1).
Proof.
  eapply sameData_trans; [apply (sameData_setIsLoading true)|].
  eapply sameData_trans; [apply handleError_sameData|].
  apply sameData_setIsLoading.
Qed.

(** C7: when the content generator raises an error or returns no question,
    [startQuiz] ends in its [catch] block with that error (or returns before
    the call when no key could be selected); no session is started, and the
    application state is the one before the attempt except for the [hasKey]
    and [isLoading] flags: session, question library, history and lifetime
    statistics are unchanged. *)
Theorem startQuiz_failure_keeps_state (now : Z) (aistudio : option App.AIStudio)
    (generated : App.Generated) (specialties' : list MedicalSpecialty)
    (examTypes' : list ExamType) (complexity' : ClinicalComplexity) (count : Z)
    (topics' : string) (autoReinforce' : bool) st (error : App.ApiError) :
  generationError generated = Some error ->
  let result :=
    App.startQuiz now aistudio generated specialties' examTypes' complexity'
      count topics' autoReinforce' st in
  App.outcome result =
    (if keyAvailable aistudio then App.GenerationFailed error
     else App.KeySelectionFailed) /\
  App.session (App.started result) = App.session st /\
  App.questionLibrary (App.started result) = App.questionLibrary st /\
  App.history (App.started result) = App.history st /\
  App.lifetimeStats (App.started result) = App.lifetimeStats st /\
  sameData st (App.started result).
Proof.
  intros Herror result.
  assert (Hattempt :
            match generated with
            | App.Rejected e => inl e
            | App.Resolved questions' =>
                if (length questions' =? 0)%nat
                then inl {| App.status := None; App.message := "Empty response" |}
                else inr questions'
            end = inl error).
  { destruct generated as [e|[|q qs]]; simpl in *; congruence. }
  assert (Hresult :
            App.outcome result =
              (if keyAvailable aistudio then App.GenerationFailed error
               else App.KeySelectionFailed) /\
            sameData st (App.started result)).
  { subst result. unfold App.startQuiz. rewrite Hattempt.
    destruct aistudio as [[has opens]|]; cbn [App.hasSelectedApiKey App.openSelectKey keyAvailable];
      [destruct has, opens|destruct (App.hasKey st)]; cbn [orb];
      try (split; [reflexivity|apply sameData_refl]);
      match goal with
      | |- context [App.handleError ?a ?l ?e ?s] =>
          pose proof (startQuiz_catch_sameData a l e) as Hcatch;
          destruct (App.handleError a l e s) as [st3 shown] eqn:Hhandle
      end;
      cbn [App.outcome App.started]; (split; [reflexivity|]).
    - specialize (Hcatch st). by rewrite Hhandle in Hcatch.
    - specialize (Hcatch st). by rewrite Hhandle in Hcatch.
    - specialize (Hcatch (App.setHasKey true st)). rewrite Hhandle in Hcatch.
      eapply sameData_trans; [apply (sameData_setHasKey true)|exact Hcatch].
    - specialize (Hcatch st). by rewrite Hhandle in Hcatch.
    - specialize (Hcatch (App.setHasKey true st)). rewrite Hhandle in Hcatch.
      eapply sameData_trans; [apply (sameData_setHasKey true)|exact Hcatch]. }
  destruct Hresult as [Houtcome Hsame]. split; [exact Houtcome|].
  pose proof Hsame as Hfields. unfold sameData in Hfields.
  repeat match goal with H : _ /\ _ |- _ => destruct H as [? H] end.
  repeat split; assumption.
Qed.

Lemma startQuiz_failure_keeps_state_witness :
  generationError (App.Resolved []) =
    Some {| App.status := None; App.message := "Empty response" |} /\
  let result :=
    App.startQuiz 40 None (App.Resolved []) [SURGERY] [STEP_3] MEDIUM 5 "" true
      Sample.inProgress in
  App.outcome result =
    App.GenerationFailed {| App.status := None; App.message := "Empty response" |} /\
  App.session (App.started result) = App.session Sample.inProgress.
Proof.
  split; [reflexivity|].
  pose proof (startQuiz_failure_keeps_state 40 None (App.Resolved []) [SURGERY]
                [STEP_3] MEDIUM 5 "" true Sample.inProgress _ eq_refl) as H.
  cbn zeta in *. destruct H as (Houtcome & Hsession & _).
  split; [exact Houtcome|exact Hsession].
Defined.

(** *** Remediation that arrives late *)

Lemma remediationArrived_session remediation st :
  App.session (App.remediationArrived remediation st) =
    match App.session st with
    | None => None
    | Some active =>
        Some (App.withQuestions (questions active ++ remediation) active)
    end.
Proof.
  unfold App.remediationArrived.
  destruct remediation as [|q remediation]; [|reflexivity].
  cbn [length Nat.eqb]. destruct (App.session st) as [active|]; [|done].
  by rewrite app_nil_r, withQuestions_same.
Qed.

(** The counterexample to C1.  A quiz is started, its first question is
    answered wrongly and [handleNext] requests remediation for it; the
    session is discarded and a new quiz is started; the remediation response
    then arrives and its question is appended to the new session. *)
Lemma remediation_reaches_replacing_session :
  let missed := Sample.question "a1" 0 in
  let fresh := Sample.question "b1" 2 in
  let remedial := Sample.question "r1" 1 in
  let answered := App.answer 1 Sample.inProgress in
  let advanced :=
    App.handleNext 20 "u-1" None false
      {| App.app := answered; App.db := Db.emptyStore |} in
  let discarded := App.discard (App.app (App.world advanced)) in
  let replaced :=
    App.started
      (App.startQuiz 30 None (App.Resolved [fresh]) [PEDIATRICS] [STEP_2_CK]
         EASY 1 "" false discarded) in
  let settled := App.remediationSettled (App.Resolved [remedial]) replaced in
  sourceQuestion_is advanced missed /\
  App.session discarded = None /\
  questions <$> App.session replaced = Some [fresh] /\
  questions <$> App.session settled = Some [fresh; remedial] /\
  App.session settled <> App.session replaced.
Proof.
  cbn zeta. repeat split. intros Heq.
  apply (f_equal (fmap (fun s => length (questions s)))) in Heq.
  discriminate Heq.
Qed.

(** C1, amended: the callback that receives the remediation questions is
    guarded by the presence of an active session.  If the session has been
    cleared (discarded or completed) the callback leaves it cleared; if a
    session is active, whichever it is, the questions are appended to it.
    The questions are merged into the question library in both cases; a
    failed request changes neither. *)
Theorem remediationSettled_guard (response : App.Generated) st :
  let st' := App.remediationSettled response st in
  let remediation :=
    match response with
    | App.Resolved qs => qs
    | App.Rejected _ => []
    end in
  App.session st' =
    match App.session st with
    | None => None
    | Some active =>
        Some (App.withQuestions (questions active ++ remediation) active)
    end /\
  App.questionLibrary st' = Library.addToLibrary remediation (App.questionLibrary st) /\
  App.backgroundProcessing st' = false /\
  App.completedSession st' = App.completedSession st /\
  App.history st' = App.history st /\
  App.lifetimeStats st' = App.lifetimeStats st /\
  App.view st' = App.view st.
Proof.
  cbn zeta. unfold App.remediationSettled.
  destruct response as [error|remediation].
  - cbn. repeat split. destruct (App.session st) as [active|]; [|done].
    by rewrite app_nil_r, withQuestions_same.
  - split.
    + change (App.session (App.setBackgroundProcessing false ?x))
        with (App.session x).
      apply remediationArrived_session.
    + unfold App.remediationArrived.
      destruct remediation as [|q remediation]; repeat split.
Qed.

End SessionFacts.

(** ** Further properties of the persistence service *)

Section StoreFacts.

Implicit Types (st : Db.Store) (session a b : HistoricalSession).

Lemma saveSession_unfold now session st :
  Db.saveSession now session st =
    (statsOf now (session :: Db.loadHistory st),
     Db.set_lifetimeStats (Some (statsOf now (session :: Db.loadHistory st)))
       (Db.set_history (Some (session :: Db.loadHistory st)) st)).
Proof. unfold Db.saveSession. cbn zeta. apply updateAnalytics_override. Qed.

(** X1: [saveSession] puts the session in front of the stored history,
    stores the statistics it returns, and touches no other slot; the totals
    grow by the session's counts and the first-session date is the earlier
    of the session's timestamp and the previous ones. *)
Theorem saveSession_records (now : Z) session st :
  let history := Db.loadHistory st in
  let stats := (Db.saveSession now session st).1 in
  let st' := (Db.saveSession now session st).2 in
  Db.kv_history st' = Some (session :: history) /\
  Db.kv_lifetimeStats st' = Some stats /\
  ls_totalQuestions stats = (totalQuestions session + total totalQuestions history)%Z /\
  totalCorrect stats = (correctAnswers session + total correctAnswers history)%Z /\
  firstSessionDate stats =
    match history with
    | [] => timestamp session
    | previous :: rest => Z.min (timestamp session) (earliest previous rest)
    end /\
  Db.kv_bookmarks st' = Db.kv_bookmarks st /\
  Db.kv_masteryCards st' = Db.kv_masteryCards st /\
  Db.kv_srsStates st' = Db.kv_srsStates st /\
  Db.kv_questionLibrary st' = Db.kv_questionLibrary st /\
  Db.kv_studyPlan st' = Db.kv_studyPlan st.
Proof.
  cbn zeta. rewrite saveSession_unfold, statsOf_cons. cbn.
  repeat split. by destruct (Db.loadHistory st).
Qed.

(** X2: the lifetime statistics do not depend on the order in which two
    sessions are saved. *)
Theorem saveSession_order_irrelevant (t1 t2 t1' t2' : Z) a b st :
  (Db.saveSession t2 b (Db.saveSession t1 a st).2).1 =
  (Db.saveSession t2' a (Db.saveSession t1' b st).2).1.
Proof.
  rewrite !saveSession_unfold. cbn [fst snd].
  unfold Db.loadHistory. simpl.
  rewrite (statsOf_nonempty t2 t2') by done. unfold statsOf.
  apply updateAnalytics_Permutation; [apply Permutation_swap|done].
Qed.

Lemma getAllData_unfold now st :
  Db.getAllData now st =
    let stats :=
      default (statsOf now (Db.loadHistory st)) (Db.kv_lifetimeStats st) in
    ({| Db.history := Db.loadHistory st;
        Db.bookmarks := default [] (Db.kv_bookmarks st);
        Db.masteryCards := default ∅ (Db.kv_masteryCards st);
        Db.srsStates := default ∅ (Db.kv_srsStates st);
        Db.questionLibrary := default ∅ (Db.kv_questionLibrary st);
        Db.studyPlan := Db.kv_studyPlan st;
        Db.lifetimeStats := stats |},
     match Db.kv_lifetimeStats st with
     | Some _ => st
     | None => Db.set_lifetimeStats (Some stats) st
     end).
Proof.
  unfold Db.getAllData, Db.loadHistory. cbn zeta.
  destruct (Db.kv_lifetimeStats st) as [stats|]; [done|].
  destruct (default [] (Db.kv_history st)) as [|first rest] eqn:Hh; [done|].
  cbn [Nat.ltb Nat.leb length]. by rewrite updateAnalytics_override.
Qed.

(** X3: [getAllData] changes no collection; afterwards the store holds the
    lifetime statistics it returned, and reading again, at any time, returns
    the same data and leaves the store as it is. *)
Theorem getAllData_idempotent (now later : Z) st :
  let data := (Db.getAllData now st).1 in
  let st' := (Db.getAllData now st).2 in
  sameCollections st st' /\
  Db.kv_lifetimeStats st' = Some (Db.lifetimeStats data) /\
  Db.getAllData later st' = (data, st').
Proof.
  cbn zeta. rewrite (getAllData_unfold later), (getAllData_unfold now).
  cbn zeta. cbn [fst snd].
  destruct (Db.kv_lifetimeStats st) as [stats|] eqn:Hstats.
  - rewrite Hstats. repeat split.
  - repeat split.
Qed.

(** X4: after [saveSession], after a successful [fullImport] and after the
    first [getAllData] on a store without statistics, the stored lifetime
    statistics are those of the stored history; [getAllData] keeps them so. *)
Theorem statsConsistent_established (now : Z) st :
  (forall session, statsConsistent (Db.saveSession now session st).2) /\
  (forall parsed,
     Db.success (Db.fullImport now parsed st) = true ->
     statsConsistent (Db.store (Db.fullImport now parsed st))) /\
  (Db.kv_lifetimeStats st = None -> statsConsistent (Db.getAllData now st).2) /\
  (statsConsistent st -> statsConsistent (Db.getAllData now st).2).
Proof.
  repeat split.
  - intros session. rewrite saveSession_unfold. by exists now.
  - intros [message| |data]; [done..|]. unfold Db.fullImport.
    destruct (Db.b_history data) as [entries|]; [|done].
    destruct (Db.b_bookmarks data), (Db.b_questionLibrary data); try done.
    cbn zeta. destruct (Db.sessionsOf entries) as [sessions|]; [|done].
    intros _. rewrite updateAnalytics_override. by exists now.
  - intros Hnone. rewrite getAllData_unfold. cbn zeta. cbn [snd].
    rewrite Hnone. by exists now.
  - intros [t Ht]. rewrite getAllData_unfold. cbn zeta. cbn [snd].
    rewrite Ht. by exists t.
Qed.

(** X5: a successful import replaces the whole store: its success and the
    store it leaves do not depend on what was stored before. *)
Theorem fullImport_replaces (now : Z) (parsed : Db.Parsed) st st' :
  Db.success (Db.fullImport now parsed st) = Db.success (Db.fullImport now parsed st') /\
  (Db.success (Db.fullImport now parsed st) = true ->
   Db.store (Db.fullImport now parsed st) = Db.store (Db.fullImport now parsed st')).
Proof.
  destruct parsed as [message| |data]; [done..|]. unfold Db.fullImport.
  destruct (Db.b_history data) as [entries|]; [|done].
  destruct (Db.b_bookmarks data), (Db.b_questionLibrary data); [|done..].
  cbn zeta. destruct (Db.sessionsOf entries) as [sessions|]; [|done].
  by rewrite !updateAnalytics_override.
Qed.

(** X6: the statistics screen, given no persisted statistics, computes for a
    non-empty history exactly what [updateAnalytics] returns for it, and
    nothing for an empty one; persisted statistics are shown as they are. *)
Theorem lifetime_agrees (now : Z) (history : list HistoricalSession) :
  AnalyticsView.lifetime None history =
    match history with
    | [] => None
    | _ :: _ => Some (statsOf now history)
    end /\
  forall stats, AnalyticsView.lifetime (Some stats) history = Some stats.
Proof. split; [by destruct history|done]. Qed.

End StoreFacts.

(** ** Further properties of the scheduler *)

Section ReviewIntervals.

Implicit Types (s : SRSState) (events : list (Z * SRSRating)).

Lemma scheduleAll_snoc id events e :
  scheduleAll id (events ++ [e]) = SRS.schedule e.1 e.2 (scheduleAll id events).
Proof. unfold scheduleAll. by rewrite fold_left_app. Qed.

Lemma successes_app_again ratings ratings' :
  successes (ratings ++ again :: ratings') = successes ratings.
Proof.
  induction ratings as [|r ratings IH]; [done|]. destruct r; simpl; by rewrite ?IH.
Qed.

(** X8: the repetition count of an item is the number of ratings it received
    since its last "again" (all of them when it never had one). *)
Theorem repetitions_streak (id : string) events :
  repetitions (scheduleAll id events) = Some (Z.of_nat (streak events.*2)).
Proof.
  unfold streak.
  induction events as [|[now rating] events IH] using rev_ind; [done|].
  rewrite scheduleAll_snoc, fmap_app, rev_app_distr. cbn [fmap list_fmap rev app snd].
  destruct rating; cbn [successes]; [done|..];
    unfold SRS.schedule; cbn [repetitions]; rewrite IH; cbn; f_equal; lia.
Qed.

End ReviewIntervals.

(** ** The retry wrapper *)

Section RetryFacts.

Context {A : Type}.

Implicit Types (fn : nat -> Gemini.Failure + A) (random : nat -> Q).

Lemma retryLoop_spec fn random (maxRetries : nat) (initialDelay : Q)
    (fuel retries : nat) (slept : list Q) :
  (retries <= maxRetries)%nat ->
  (maxRetries - retries < fuel)%nat ->
  let r := Gemini.retryLoop fn random maxRetries initialDelay fuel retries slept in
  exists last : nat,
    (retries <= last <= maxRetries)%nat /\
    Gemini.calls r = S last /\
    Gemini.delays r =
      slept ++ (delayAt random initialDelay <$> seq retries (last - retries)) /\
    (forall k, (retries <= k < last)%nat ->
               exists error, fn k = inl error /\ retryable error = true) /\
    match fn last with
    | inr value => Gemini.outcome r = Gemini.Returned value
    | inl error =>
        Gemini.outcome r = Gemini.Thrown error /\
        (retryable error = false \/ last = maxRetries)
    end.
Proof.
  revert retries slept. induction fuel as [|fuel IH]; intros retries slept Hle Hfuel;
    [lia|].
  cbn zeta. cbn [Gemini.retryLoop].
  destruct (Nat.leb_spec retries maxRetries) as [_|?]; [|lia].
  assert (Hstop : forall r : Gemini.Run A,
             Gemini.calls r = S retries ->
             Gemini.delays r = slept ->
             match fn retries with
             | inr value => Gemini.outcome r = Gemini.Returned value
             | inl error =>
                 Gemini.outcome r = Gemini.Thrown error /\
                 (retryable error = false \/ retries = maxRetries)
             end ->
             exists last : nat,
               (retries <= last <= maxRetries)%nat /\
               Gemini.calls r = S last /\
               Gemini.delays r =
                 slept ++ (delayAt random initialDelay <$> seq retries (last - retries)) /\
               (forall k, (retries <= k < last)%nat ->
                          exists error, fn k = inl error /\ retryable error = true) /\
               match fn last with
               | inr value => Gemini.outcome r = Gemini.Returned value
               | inl error =>
                   Gemini.outcome r = Gemini.Thrown error /\
                   (retryable error = false \/ last = maxRetries)
               end).
  { intros r Hcalls Hdelays Hend. exists retries. split_and!; [lia|lia|done| | |done].
    - by rewrite Nat.sub_diag, app_nil_r.
    - intros k Hk. lia. }
  destruct (fn retries) as [error|value] eqn:Hfn.
  - fold (retryable error).
    destruct (retryable error) eqn:Hretry; cbn [andb].
    + destruct (Nat.ltb_spec retries maxRetries) as [Hlt|Hge].
      * destruct (IH (S retries) (slept ++ [delayAt random initialDelay retries]))
          as (last & Hlast & Hcalls & Hdelays & Hbefore & Hend); [lia..|].
        exists last. split_and!; [lia|lia|exact Hcalls| | |exact Hend].
        -- cbn zeta in Hdelays. fold (delayAt random initialDelay retries).
           rewrite Hdelays, <- app_assoc. f_equal.
           replace (last - retries)%nat with (S (last - S retries)) by lia.
           reflexivity.
        -- intros k Hk. destruct (decide (k = retries)) as [->|Hne].
           ++ by exists error.
           ++ apply Hbefore. lia.
      * apply Hstop; [done..|]. split; [done|right; lia].
    + apply Hstop; [done..|]. split; [done|by left].
  - by apply Hstop.
Qed.

(** X9: [fetchWithRetry] never leaves its loop without a result: it calls
    [fn] at most [maxRetries + 1] times, sleeping once between two calls, and
    ends at the first call that succeeds, fails with an error that is not
    retried, or is the last one allowed, with that call's value or error. *)
Theorem fetchWithRetry_settles fn random (maxRetries : nat) (initialDelay : Q) :
  let r := Gemini.fetchWithRetry fn random maxRetries initialDelay in
  exists last : nat,
    (last <= maxRetries)%nat /\
    Gemini.calls r = S last /\
    length (Gemini.delays r) = last /\
    (forall k, (k < last)%nat -> exists error, fn k = inl error /\ retryable error = true) /\
    match fn last with
    | inr value => Gemini.outcome r = Gemini.Returned value
    | inl error =>
        Gemini.outcome r = Gemini.Thrown error /\
        (retryable error = false \/ last = maxRetries)
    end.
Proof.
  cbn zeta. unfold Gemini.fetchWithRetry.
  destruct (retryLoop_spec fn random maxRetries initialDelay (S (S maxRetries)) 0 [])
    as (last & Hlast & Hcalls & Hdelays & Hbefore & Hend); [lia..|].
  exists last. split_and!; [lia|exact Hcalls| | |exact Hend].
  - cbn zeta in Hdelays. rewrite Hdelays. cbn [app].
    rewrite length_fmap, length_seq. lia.
  - intros k Hk. apply Hbefore. lia.
Qed.

End RetryFacts.

(** ** The review screen *)

Section ReviewFacts.

Implicit Types (r : Review.ReviewState) (ratings : list SRSRating).

Lemma handleRate_success rating r item :
  rating <> again ->
  Review.sessionQuestions r !! Review.currentIndex r = Some item ->
  Review.handleRate rating r =
    Some
      (if decide (S (Review.currentIndex r) = length (Review.sessionQuestions r))
       then {| Review.review :=
                 {| Review.currentIndex := Review.currentIndex r;
                    Review.showAnswer := Review.showAnswer r;
                    Review.sessionQuestions := Review.sessionQuestions r |};
               Review.onRate := (App.itemId item, rating);
               Review.closed := true |}
       else {| Review.review :=
                 {| Review.currentIndex := Review.currentIndex r + 1;
                    Review.showAnswer := false;
                    Review.sessionQuestions := Review.sessionQuestions r |};
               Review.onRate := (App.itemId item, rating);
               Review.closed := false |}).
Proof.
  intros Hrating Hitem. unfold Review.handleRate. rewrite Hitem.
  apply lookup_lt_Some in Hitem.
  destruct (Nat.ltb_spec (Review.currentIndex r)
              (length (Review.sessionQuestions r) - 1)); case_decide; try lia;
    by destruct rating.
Qed.

(** X11: a review in which no item is rated "again" rates every remaining
    item of the queue once, in order, and closes with the rating of the last
    one, the queue unchanged. *)
Theorem rateQueue_without_again ratings r :
  Forall (fun rating => rating <> again) ratings ->
  ratings <> [] ->
  Review.currentIndex r + length ratings = length (Review.sessionQuestions r) ->
  exists r',
    Review.rateQueue ratings r = Some (zip (remainingIds r) ratings, r', true) /\
    Review.sessionQuestions r' = Review.sessionQuestions r /\
    S (Review.currentIndex r') = length (Review.sessionQuestions r).
Proof.
  revert r. induction ratings as [|rating ratings IH]; intros r Hall Hne Hlen; [done|].
  apply Forall_cons in Hall as [Hrating Hall]. cbn [length] in Hlen.
  destruct (Review.sessionQuestions r !! Review.currentIndex r) as [item|] eqn:Hitem;
    [|apply lookup_ge_None in Hitem; lia].
  assert (Hids : remainingIds r =
                 App.itemId item ::
                 (App.itemId <$> drop (S (Review.currentIndex r)) (Review.sessionQuestions r))).
  { unfold remainingIds. by rewrite (drop_S _ _ _ Hitem). }
  cbn [Review.rateQueue]. rewrite (handleRate_success _ _ _ Hrating Hitem).
  case_decide as Hlast; cbn [Review.closed Review.review Review.onRate].
  - assert (ratings = []) as -> by (destruct ratings; [done|cbn in Hlen; lia]).
    exists {| Review.currentIndex := Review.currentIndex r;
              Review.showAnswer := Review.showAnswer r;
              Review.sessionQuestions := Review.sessionQuestions r |}.
    split; [|split; [reflexivity|exact Hlast]].
    rewrite Hids. cbn [zip zip_with].
    by destruct (App.itemId <$> drop (S (Review.currentIndex r)) (Review.sessionQuestions r)).
  - destruct ratings as [|rating' ratings]; [cbn in Hlen; lia|].
    destruct (IH {| Review.currentIndex := Review.currentIndex r + 1;
                    Review.showAnswer := false;
                    Review.sessionQuestions := Review.sessionQuestions r |})
      as (r' & Hrun & Hqueue & Hindex); [done|done|cbn in *; lia|].
    rewrite Hrun. exists r'. split; [|split; [exact Hqueue|exact Hindex]].
    rewrite Hids. unfold remainingIds. cbn [Review.currentIndex Review.sessionQuestions zip zip_with].
    by rewrite Nat.add_1_r.
Qed.

Lemma rateQueue_without_again_witness :
  let queue :=
    [App.Vignette (Sample.question "q1" 0); App.Vignette (Sample.question "q2" 1)] in
  let r := {| Review.currentIndex := 0; Review.showAnswer := false;
              Review.sessionQuestions := queue |} in
  Forall (fun rating => rating <> again) [good; hard] /\
  exists r', Review.rateQueue [good; hard] r =
               Some ([("q1", good); ("q2", hard)], r', true).
Proof.
  cbn zeta.
  assert (Hall : Forall (fun rating => rating <> again) [good; hard])
    by (repeat constructor; discriminate).
  split; [exact Hall|].
  destruct (rateQueue_without_again [good; hard]
              {| Review.currentIndex := 0; Review.showAnswer := false;
                 Review.sessionQuestions :=
                   [App.Vignette (Sample.question "q1" 0);
                    App.Vignette (Sample.question "q2" 1)] |}
              Hall ltac:(discriminate) eq_refl) as (r' & Hrun & _).
  exists r'. exact Hrun.
Defined.

End ReviewFacts.

(** ** Advancing through a session *)

Section AdvanceFacts.

Implicit Types (st : App.AppState) (w : App.World) (s : QuizSession)
  (answers : list (option Z)).

Lemma assignAnswer_length answers (i : nat) (v : Z) :
  length (App.assignAnswer answers i v) = Nat.max (length answers) (S i).
Proof.
  unfold App.assignAnswer. case_decide.
  - rewrite length_insert. lia.
  - rewrite !length_app, length_replicate. cbn. lia.
Qed.

Lemma assignAnswer_same answers (i : nat) (v : Z) :
  App.answerAt (App.assignAnswer answers i v) i = Some v.
Proof.
  unfold App.answerAt, App.assignAnswer. case_decide.
  - by rewrite list_lookup_insert_eq.
  - rewrite app_assoc, lookup_app_r; rewrite length_app, length_replicate; [|lia].
    by replace (i - (length answers + (i - length answers)))%nat with 0%nat by lia.
Qed.

Lemma assignAnswer_other answers (i j : nat) (v : Z) :
  j <> i -> App.answerAt (App.assignAnswer answers i v) j = App.answerAt answers j.
Proof.
  intros Hne. unfold App.answerAt, App.assignAnswer. case_decide.
  - by rewrite list_lookup_insert_ne.
  - destruct (decide (j < length answers)%nat).
    + by rewrite lookup_app_l.
    + rewrite (lookup_ge_None_2 answers j) by lia. rewrite lookup_app_r by lia.
      destruct (decide (j < i)%nat).
      * rewrite lookup_app_l by (rewrite length_replicate; lia).
        rewrite lookup_replicate_2 by lia. done.
      * rewrite lookup_app_r by (rewrite length_replicate; lia).
        rewrite length_replicate.
        destruct (j - length answers - (i - length answers))%nat eqn:Hd; [lia|done].
Qed.

Lemma assignAnswer_no_gap answers (i : nat) (v : Z) :
  (i <= length answers)%nat ->
  Forall is_Some answers -> Forall is_Some (App.assignAnswer answers i v).
Proof.
  intros Hi Hall. unfold App.assignAnswer. case_decide.
  - apply Forall_insert; [done|by eexists].
  - replace (i - length answers)%nat with 0%nat by lia. cbn.
    apply Forall_app. split; [done|]. repeat constructor. by eexists.
Qed.

(** The state [handleNext] leaves, when it does not return early. *)
Lemma handleNext_unfold now uuid userFocus manualReinforce w s a q :
  App.session (App.app w) = Some s ->
  App.selectedAnswer (App.app w) = Some a ->
  questions s !! currentQuestionIndex s = Some q ->
  let idx := currentQuestionIndex s in
  let updated := App.assignAnswer (userAnswers s) idx a in
  let reinforce :=
    manualReinforce ||
    (negb (a =? correctIndex q)%Z
     && bool_decide (App.answerAt (userAnswers s) idx = None)
     && autoReinforce s) in
  let w1 :=
    if (idx + 1 <? length (questions s))%nat then
      {| App.app :=
           App.setSelectedAnswer (App.answerAt (userAnswers s) (idx + 1))
             (App.setSession (Some (App.withPosition (idx + 1) updated s)) (App.app w));
         App.db := App.db w |}
    else
      let final := App.withPosition idx updated s in
      let w' := App.processSessionCompletion now uuid final w in
      {| App.app :=
           App.setView App.View_results
             (App.setSession None
                (App.setCompletedSession (Some final) (App.app w')));
         App.db := App.db w' |} in
  App.world (App.handleNext now uuid userFocus manualReinforce w) =
    if reinforce
    then {| App.app := App.setBackgroundProcessing true (App.app w1);
            App.db := App.db w1 |}
    else w1.
Proof.
  intros Hs Ha Hq. cbn zeta. unfold App.handleNext. rewrite Hs, Ha, Hq.
  by destruct (_ || _).
Qed.

(** X12: when an answer is selected and the current question is not the
    last one, [handleNext] records the answer at the current position and no
    other, moves to the next position, shows the answer recorded there if
    any, and leaves the questions, the history and the database as they
    were. *)
Theorem handleNext_advances (now : Z) (uuid : string) (userFocus : option string)
    (manualReinforce : bool) w s (a : Z) :
  App.session (App.app w) = Some s ->
  App.selectedAnswer (App.app w) = Some a ->
  (currentQuestionIndex s + 1 < length (questions s))%nat ->
  let w' := App.world (App.handleNext now uuid userFocus manualReinforce w) in
  exists s',
    App.session (App.app w') = Some s' /\
    currentQuestionIndex s' = (currentQuestionIndex s + 1)%nat /\
    questions s' = questions s /\
    App.answerAt (userAnswers s') (currentQuestionIndex s) = Some a /\
    (forall j, j <> currentQuestionIndex s ->
               App.answerAt (userAnswers s') j = App.answerAt (userAnswers s) j) /\
    App.selectedAnswer (App.app w') =
      App.answerAt (userAnswers s) (currentQuestionIndex s + 1) /\
    App.completedSession (App.app w') = App.completedSession (App.app w) /\
    sameApp (App.app w) (App.app w') /\
    App.db w' = App.db w.
Proof.
  intros Hs Ha Hlt.
  destruct (questions s !! currentQuestionIndex s) as [q|] eqn:Hq;
    [|apply lookup_ge_None in Hq; lia].
  cbn zeta. rewrite (handleNext_unfold _ _ _ _ _ _ _ _ Hs Ha Hq). cbn zeta.
  destruct (Nat.ltb_spec (currentQuestionIndex s + 1) (length (questions s))); [|lia].
  exists (App.withPosition (currentQuestionIndex s + 1)
            (App.assignAnswer (userAnswers s) (currentQuestionIndex s) a) s).
  destruct (_ || _); cbn; split_and!; try done;
    try apply assignAnswer_same; intros j Hj; by apply assignAnswer_other.
Qed.

Lemma handleNext_advances_witness :
  let w := {| App.app := App.answer 1 Sample.inProgress; App.db := Db.emptyStore |} in
  (exists s, App.session (App.app w) = Some s /\
             (currentQuestionIndex s + 1 < length (questions s))%nat) /\
  exists s', App.session (App.app (App.world (App.handleNext 20 "u-1" None false w)))
               = Some s' /\
             currentQuestionIndex s' = 1%nat.
Proof.
  cbn zeta. split.
  - eexists. split; [reflexivity|]. cbn. lia.
  - destruct (handleNext_advances 20 "u-1" None false
                {| App.app := App.answer 1 Sample.inProgress; App.db := Db.emptyStore |}
                _ 1 eq_refl eq_refl ltac:(cbn; lia)) as (s' & Hs' & Hidx & _).
    exists s'. split; [exact Hs'|exact Hidx].
Defined.

(** X13: going forward and then back loses nothing: after [handleNext] on a
    question that is not the last and [handlePrev], the session is at the
    position it started from, with the same questions, and the answer given
    there is the selected one. *)
Theorem handleNext_handlePrev (now : Z) (uuid : string) (userFocus : option string)
    (manualReinforce : bool) w s (a : Z) :
  App.session (App.app w) = Some s ->
  App.selectedAnswer (App.app w) = Some a ->
  (currentQuestionIndex s + 1 < length (questions s))%nat ->
  let st' :=
    App.handlePrev (App.app (App.world (App.handleNext now uuid userFocus manualReinforce w))) in
  exists s',
    App.session st' = Some s' /\
    currentQuestionIndex s' = currentQuestionIndex s /\
    questions s' = questions s /\
    App.answerAt (userAnswers s') (currentQuestionIndex s) = Some a /\
    App.selectedAnswer st' = Some a.
Proof.
  intros Hs Ha Hlt.
  destruct (questions s !! currentQuestionIndex s) as [q|] eqn:Hq;
    [|apply lookup_ge_None in Hq; lia].
  cbn zeta. rewrite (handleNext_unfold _ _ _ _ _ _ _ _ Hs Ha Hq). cbn zeta.
  destruct (Nat.ltb_spec (currentQuestionIndex s + 1) (length (questions s))); [|lia].
  exists (App.withPosition (currentQuestionIndex s)
            (App.assignAnswer (userAnswers s) (currentQuestionIndex s) a) s).
  destruct (_ || _); unfold App.handlePrev; cbn;
    replace (currentQuestionIndex s + 1)%nat with (S (currentQuestionIndex s)) by lia;
    cbn; rewrite Nat.sub_0_r; split_and!; try done; apply assignAnswer_same.
Qed.

Lemma handleNext_handlePrev_witness :
  let w := {| App.app := App.answer 1 Sample.inProgress; App.db := Db.emptyStore |} in
  App.selectedAnswer (App.app w) = Some 1%Z /\
  App.selectedAnswer
    (App.handlePrev (App.app (App.world (App.handleNext 20 "u-1" None false w))))
    = Some 1%Z.
Proof.
  cbn zeta. split; [reflexivity|].
  destruct (handleNext_handlePrev 20 "u-1" None false
              {| App.app := App.answer 1 Sample.inProgress; App.db := Db.emptyStore |}
              _ 1 eq_refl eq_refl ltac:(cbn; lia)) as (s' & _ & _ & _ & _ & Hsel).
  exact Hsel.
Defined.

End AdvanceFacts.

(** ** Completing a session *)

Section CompletionFacts.

Implicit Types (st : App.AppState) (w : App.World) (s : QuizSession)
  (qs : list Question) (answers : list (option Z)).

Lemma countCorrect_matching qs answers (idx : nat) (acc : Z) :
  (length answers <= length (drop idx qs))%nat ->
  App.countCorrect qs answers idx acc =
    Some (acc + Z.of_nat (matching (drop idx qs) answers))%Z.
Proof.
  revert idx acc. induction answers as [|answer answers IH]; intros idx acc Hlen.
  - cbn. destruct (drop idx qs); f_equal; cbn; lia.
  - destruct (qs !! idx) as [q|] eqn:Hq;
      [|apply lookup_ge_None in Hq; rewrite length_drop in Hlen; cbn in Hlen; lia].
    rewrite (drop_S _ _ _ Hq) in *. cbn [length] in Hlen.
    cbn [App.countCorrect matching]. destruct answer as [ans|].
    + rewrite Hq, IH by lia.
      destruct (Z.eqb_spec ans (correctIndex q)); case_bool_decide;
        try congruence; f_equal; lia.
    + rewrite IH by lia. case_bool_decide; [done|]. f_equal; lia.
Qed.

Lemma filter_imap_none (h : nat -> Question -> SessionDetail) qs :
  (forall i q, isCorrect (h i q) = false) ->
  List.filter isCorrect (imap h qs) = [].
Proof.
  revert h. induction qs as [|q qs IH]; intros h Hh; [done|].
  cbn. rewrite Hh. apply IH. intros i q'. apply Hh.
Qed.

Lemma sessionDetails_matching (f : nat -> nat) qs answers :
  (forall i, f (S i) = S (f i)) ->
  length
    (List.filter isCorrect
       (imap (fun idx q =>
                {| questionId := q_id q;
                   isCorrect :=
                     match App.answerAt answers (f idx - f 0) with
                     | Some ans => (ans =? correctIndex q)%Z
                     | None => false
                     end |}) qs))
  = matching qs answers.
Proof.
  intros Hf. revert answers.
  induction qs as [|q qs IH]; intros answers; [done|].
  cbn [imap matching]. rewrite Nat.sub_diag.
  destruct answers as [|answer answers].
  - unfold App.answerAt. cbn.
    rewrite (filter_imap_none _ qs); [done|].
    intros i q'. cbn. by rewrite lookup_nil.
  - unfold App.answerAt at 1. cbn [lookup list_lookup mjoin option_join option_bind].
    rewrite <- (IH answers).
    assert (Htail :
              imap ((fun idx q' =>
                       {| questionId := q_id q';
                          isCorrect :=
                            match App.answerAt (answer :: answers) (f idx - f 0) with
                            | Some ans => (ans =? correctIndex q')%Z
                            | None => false
                            end |}) ∘ S) qs
              = imap (fun idx q' =>
                        {| questionId := q_id q';
                           isCorrect :=
                             match App.answerAt answers (f idx - f 0) with
                             | Some ans => (ans =? correctIndex q')%Z
                             | None => false
                             end |}) qs).
    { apply imap_ext. intros i q' _. cbn. f_equal.
      assert (Hmono : forall j, (f 0 <= f j)%nat).
      { induction j as [|j IHj]; [done|]. rewrite Hf. lia. }
      pose proof (Hmono i).
      replace (f (S i) - f 0)%nat with (S (f i - f 0)) by (rewrite Hf; lia).
      reflexivity. }
    rewrite Htail.
    destruct answer as [ans|]; cbn [mjoin].
    + destruct (Z.eqb_spec ans (correctIndex q)); case_bool_decide;
        try congruence; cbn; lia.
    + case_bool_decide; [done|]. cbn. lia.
Qed.

Lemma correctDetails_matching s :
  correctDetails s = matching (questions s) (userAnswers s).
Proof.
  unfold correctDetails, App.sessionDetails.
  rewrite <- (sessionDetails_matching (fun i => i) (questions s) (userAnswers s)) by done.
  f_equal. f_equal. apply imap_ext. intros i q _. cbn. by rewrite Nat.sub_0_r.
Qed.

Lemma matching_le qs answers : (matching qs answers <= length qs)%nat.
Proof.
  revert answers. induction qs as [|q qs IH]; intros [|answer answers]; cbn; try lia.
  specialize (IH answers). case_bool_decide; lia.
Qed.

(** X14: when an answer is selected on the last question of a session whose
    answers do not outnumber its questions, [handleNext] clears the session,
    keeps it as the completed one and shows the results; it puts one entry in
    front of the history of the application and of the database, with the
    number of questions, the number of details marked correct as the number
    of correct answers (so between 0 and the number of questions), the time
    since the start; the lifetime statistics of both are those of the new
    history. *)
Theorem handleNext_completes (now : Z) (uuid : string) (userFocus : option string)
    (manualReinforce : bool) w s (a : Z) :
  App.session (App.app w) = Some s ->
  App.selectedAnswer (App.app w) = Some a ->
  S (currentQuestionIndex s) = length (questions s) ->
  (length (userAnswers s) <= length (questions s))%nat ->
  let w' := App.world (App.handleNext now uuid userFocus manualReinforce w) in
  let final :=
    App.withPosition (currentQuestionIndex s)
      (App.assignAnswer (userAnswers s) (currentQuestionIndex s) a) s in
  App.session (App.app w') = None /\
  App.completedSession (App.app w') = Some final /\
  App.view (App.app w') = App.View_results /\
  exists entry,
    App.history (App.app w') = entry :: App.history (App.app w) /\
    Db.kv_history (App.db w') = Some (entry :: Db.loadHistory (App.db w)) /\
    hs_id entry = uuid /\
    timestamp entry = now /\
    timeTakenMs entry = (now - startTime s)%Z /\
    totalQuestions entry = Z.of_nat (length (questions s)) /\
    correctAnswers entry = Z.of_nat (correctDetails final) /\
    (0 <= correctAnswers entry <= totalQuestions entry)%Z /\
    details entry = Some (App.sessionDetails final) /\
    App.lifetimeStats (App.app w') =
      Some (statsOf now (entry :: Db.loadHistory (App.db w))) /\
    Db.kv_lifetimeStats (App.db w') = App.lifetimeStats (App.app w').
Proof.
  intros Hs Ha Hlast Hlen.
  destruct (questions s !! currentQuestionIndex s) as [q|] eqn:Hq;
    [|apply lookup_ge_None in Hq; lia].
  cbn zeta. rewrite (handleNext_unfold _ _ _ _ _ _ _ _ Hs Ha Hq). cbn zeta.
  destruct (Nat.ltb_spec (currentQuestionIndex s + 1) (length (questions s))); [lia|].
  set (final := App.withPosition (currentQuestionIndex s)
                  (App.assignAnswer (userAnswers s) (currentQuestionIndex s) a) s).
  assert (Hcount :
            App.countCorrect (questions final) (userAnswers final) 0 0 =
              Some (Z.of_nat (correctDetails final))).
  { rewrite countCorrect_matching, correctDetails_matching; [done|].
    subst final. cbn [questions userAnswers App.withPosition]. rewrite drop_0.
    rewrite assignAnswer_length. lia. }
  assert (Hbound : (correctDetails final <= length (questions s))%nat).
  { rewrite correctDetails_matching. apply matching_le. }
  unfold App.processSessionCompletion. rewrite Hcount, saveSession_unfold.
  destruct (_ || _); cbn -[correctDetails]; (split_and!; [done..|]); eexists;
    (split_and!; try reflexivity; cbn -[correctDetails]; lia).
Qed.

Lemma handleNext_completes_witness :
  (exists s, App.session (App.app Sample.atLast) = Some s /\
             S (currentQuestionIndex s) = length (questions s)) /\
  App.session (App.app (App.world (App.handleNext 30 "u-2" None false Sample.atLast)))
    = None.
Proof.
  split.
  - eexists. split; reflexivity.
  - refine (proj1 (handleNext_completes 30 "u-2" None false Sample.atLast _ 1
                     eq_refl eq_refl eq_refl _)).
    vm_compute. lia.
Defined.

End CompletionFacts.

(** ** What each handler changes *)

Section HandlerEffects.

Implicit Types (st : App.AppState) (w : App.World) (s : QuizSession).

Lemma sameData_sameApp st st' : sameData st st' -> sameApp st st'.
Proof.
  unfold sameData, sameApp. intros H.
  repeat match goal with H : _ /\ _ |- _ => destruct H as [? H] end.
  split_and!; assumption.
Qed.

Lemma startQuiz_effect now aistudio generated specialties' examTypes' complexity'
    count topics' autoReinforce' st :
  let st' :=
    App.started (App.startQuiz now aistudio generated specialties' examTypes'
                   complexity' count topics' autoReinforce' st) in
  sameData st st' \/
  exists q qs,
    generated = App.Resolved (q :: qs) /\
    keyAvailable aistudio = true /\
    App.session st' =
      Some (freshSession now (q :: qs) specialties' examTypes' complexity' topics'
              autoReinforce') /\
    App.questionLibrary st' = Library.addToLibrary (q :: qs) (App.questionLibrary st) /\
    App.completedSession st' = None /\
    App.view st' = App.View_quiz /\
    App.selectedAnswer st' = App.selectedAnswer st /\
    App.history st' = App.history st /\
    App.lifetimeStats st' = App.lifetimeStats st /\
    App.bookmarks st' = App.bookmarks st /\
    App.masteryCards st' = App.masteryCards st /\
    App.srsStates st' = App.srsStates st /\
    App.studyPlan st' = App.studyPlan st.
Proof.
  cbn zeta. unfold App.startQuiz.
  destruct generated as [error|[|q qs]].
  1,2: left;
    destruct aistudio as [[has opens]|]; cbn [App.hasSelectedApiKey App.openSelectKey];
    [destruct has, opens|destruct (App.hasKey st)];
    cbn [length Nat.eqb];
    try apply sameData_refl;
    match goal with
    | |- context [App.handleError ?a ?l ?e ?s] =>
        pose proof (startQuiz_catch_sameData a l e) as Hcatch;
        destruct (App.handleError a l e s) as [st3 shown] eqn:Hhandle
    end; cbn [App.started length Nat.eqb] in *;
    first
      [ specialize (Hcatch st); by rewrite Hhandle in Hcatch
      | specialize (Hcatch (App.setHasKey true st)); rewrite Hhandle in Hcatch;
        eapply sameData_trans; [apply (sameData_setHasKey true)|exact Hcatch] ].
  destruct aistudio as [[has opens]|]; cbn [App.hasSelectedApiKey App.openSelectKey];
    [destruct has, opens|destruct (App.hasKey st)];
    try (left; apply sameData_refl);
    right; exists q, qs; split_and!; reflexivity.
Qed.

Lemma handleNext_effect now uuid userFocus manualReinforce w :
  let w' := App.world (App.handleNext now uuid userFocus manualReinforce w) in
  (App.bookmarks (App.app w') = App.bookmarks (App.app w) /\
   App.masteryCards (App.app w') = App.masteryCards (App.app w) /\
   App.srsStates (App.app w') = App.srsStates (App.app w) /\
   App.questionLibrary (App.app w') = App.questionLibrary (App.app w) /\
   App.studyPlan (App.app w') = App.studyPlan (App.app w)) /\
  ((App.history (App.app w') = App.history (App.app w) /\
    App.lifetimeStats (App.app w') = App.lifetimeStats (App.app w) /\
    App.db w' = App.db w) \/
   (exists entry,
      App.history (App.app w') = entry :: App.history (App.app w) /\
      App.lifetimeStats (App.app w') = Some (Db.saveSession now entry (App.db w)).1 /\
      App.db w' = (Db.saveSession now entry (App.db w)).2)) /\
  (App.session (App.app w') = App.session (App.app w) \/
   App.session (App.app w') = None \/
   exists s a,
     App.session (App.app w) = Some s /\
     (currentQuestionIndex s + 1 < length (questions s))%nat /\
     App.session (App.app w') =
       Some (App.withPosition (currentQuestionIndex s + 1)
               (App.assignAnswer (userAnswers s) (currentQuestionIndex s) a) s)).
Proof.
  cbn zeta.
  destruct (App.session (App.app w)) as [s|] eqn:Hs;
    [|unfold App.handleNext; rewrite Hs; cbn; split_and!; [done..|by left|by left]].
  destruct (App.selectedAnswer (App.app w)) as [a|] eqn:Ha;
    [|unfold App.handleNext; rewrite Hs, Ha; cbn; rewrite Hs;
      split_and!; [done..|by left|by left]].
  destruct (questions s !! currentQuestionIndex s) as [q|] eqn:Hq;
    [|unfold App.handleNext; rewrite Hs, Ha, Hq; cbn; rewrite Hs;
      split_and!; [done..|by left|by left]].
  rewrite (handleNext_unfold _ _ _ _ _ _ _ _ Hs Ha Hq). cbn zeta.
  destruct (Nat.ltb_spec (currentQuestionIndex s + 1) (length (questions s))).
  - destruct (_ || _); cbn; (split_and!; [done..|by left|]);
      right; right; by exists s, a.
  - unfold App.processSessionCompletion.
    destruct (App.countCorrect _ _ _ _) as [correctCount|].
    + match goal with
      | |- context [Db.saveSession now ?e (App.db w)] =>
          remember e as entry eqn:Hentry;
          destruct (Db.saveSession now entry (App.db w)) as [stats db1] eqn:Hsave
      end.
      destruct (_ || _); cbn -[Db.saveSession];
        (split_and!; [done..| |by right; left]);
        right; exists entry; rewrite Hsave; by split_and!.
    + destruct (_ || _); cbn; (split_and!; [done..|by left|by right; left]).
Qed.

Lemma remediationSettled_effect response st :
  let st' := App.remediationSettled response st in
  let remediation :=
    match response with
    | App.Resolved qs => qs
    | App.Rejected _ => []
    end in
  App.session st' =
    match App.session st with
    | None => None
    | Some active => Some (App.withQuestions (questions active ++ remediation) active)
    end /\
  App.questionLibrary st' = Library.addToLibrary remediation (App.questionLibrary st) /\
  App.history st' = App.history st /\
  App.lifetimeStats st' = App.lifetimeStats st /\
  App.bookmarks st' = App.bookmarks st /\
  App.masteryCards st' = App.masteryCards st /\
  App.srsStates st' = App.srsStates st /\
  App.studyPlan st' = App.studyPlan st.
Proof.
  cbn zeta. unfold App.remediationSettled.
  destruct response as [error|remediation].
  - cbn. split_and!; try done. destruct (App.session st) as [active|]; [|done].
    by rewrite app_nil_r, withQuestions_same.
  - split.
    + change (App.session (App.setBackgroundProcessing false ?x))
        with (App.session x).
      apply remediationArrived_session.
    + unfold App.remediationArrived.
      destruct remediation as [|q remediation]; by split_and!.
Qed.

Lemma rateCards_fold now layers st :
  let st' := fold_left (fun acc card => App.rate now (mc_id card) again acc) layers st in
  App.srsStates st' = rateCards now layers (App.srsStates st) /\
  App.session st' = App.session st /\
  App.questionLibrary st' = App.questionLibrary st /\
  App.history st' = App.history st /\
  App.lifetimeStats st' = App.lifetimeStats st /\
  App.bookmarks st' = App.bookmarks st /\
  App.masteryCards st' = App.masteryCards st /\
  App.studyPlan st' = App.studyPlan st.
Proof.
  cbn zeta. revert st. induction layers as [|card layers IH]; intros st; [done|].
  cbn [fold_left]. unfold rateCards. cbn [fold_left].
  destruct (IH (App.rate now (mc_id card) again st)) as (H1 & H2 & H3 & H4 & H5 & H6 & H7 & H8).
  by split_and!.
Qed.

Lemma dissectQuestion_effect now aistudio generated q st :
  let st' := (App.dissectQuestion now aistudio generated q st).1 in
  App.session st' = App.session st /\
  App.questionLibrary st' = App.questionLibrary st /\
  App.history st' = App.history st /\
  App.lifetimeStats st' = App.lifetimeStats st /\
  App.bookmarks st' = App.bookmarks st /\
  App.studyPlan st' = App.studyPlan st /\
  (App.srsStates st' = App.srsStates st \/
   exists layers,
     generated = App.CardsResolved layers /\
     JS.get (App.masteryCards st) (q_id q) = JS.Missing /\
     App.masteryCards st' = <[q_id q := layers]> (App.masteryCards st) /\
     App.srsStates st' = rateCards now layers (App.srsStates st)).
Proof.
  cbn zeta. unfold App.dissectQuestion.
  destruct (JS.get (App.masteryCards st) (q_id q)) as [cards| |] eqn:Hcards;
    [by split_and!; [..|left]..|].
  destruct generated as [error|layers].
  - pose proof (handleError_sameData aistudio (App.isLoading st) error st) as Hsame.
    unfold sameData in Hsame.
    repeat match goal with H : _ /\ _ |- _ => destruct H as [? H] end.
    split_and!; try assumption. by left.
  - cbn [fst].
    destruct (rateCards_fold now layers
                (App.setMasteryCards (<[q_id q := layers]> (App.masteryCards st)) st))
      as (H1 & H2 & H3 & H4 & H5 & H6 & H7 & H8).
    split_and!; try assumption. right. exists layers. by split_and!.
Qed.

End HandlerEffects.

(** ** Invariants of a running application *)

Section TraceInvariants.

Implicit Types (st : App.AppState) (w : App.World) (s : QuizSession)
  (e : App.Event) (events : list App.Event).

Lemma run_invariant (P : App.World -> Prop) :
  (forall w e, P w -> P (App.step w e)) ->
  forall events w, P w -> P (App.run events w).
Proof.
  intros Hstep events. unfold App.run.
  induction events as [|e events IH]; intros w Hw; [done|].
  cbn [fold_left]. apply IH, Hstep, Hw.
Qed.

Lemma sessionOk_fresh now q qs specialties' examTypes' complexity' topics' autoReinforce' :
  sessionOk (freshSession now (q :: qs) specialties' examTypes' complexity' topics'
               autoReinforce').
Proof. unfold sessionOk. cbn. split_and!; [lia..|constructor]. Qed.

Lemma sessionOk_advance s (a : Z) :
  sessionOk s ->
  (currentQuestionIndex s + 1 < length (questions s))%nat ->
  sessionOk (App.withPosition (currentQuestionIndex s + 1)
               (App.assignAnswer (userAnswers s) (currentQuestionIndex s) a) s).
Proof.
  intros (Hidx & Hans & Hlen & Hall) Hlt. unfold sessionOk.
  cbn [questions currentQuestionIndex userAnswers App.withPosition].
  rewrite assignAnswer_length. split_and!; [lia..|].
  by apply assignAnswer_no_gap.
Qed.

Lemma step_sessionInv w e : sessionInv (App.app w) -> sessionInv (App.app (App.step w e)).
Proof.
  intros Hinv. unfold sessionInv in *.
  destruct e; cbn [App.step App.persist App.app App.onApp].
  - match goal with
    | |- context [App.startQuiz ?n ?a ?g ?sp ?ex ?cx ?c ?t ?ar ?st] =>
        destruct (startQuiz_effect n a g sp ex cx c t ar st)
          as [Hsame|(q & qs & _ & _ & Hsession & _)]
    end.
    + destruct Hsame as (_ & -> & _). exact Hinv.
    + rewrite Hsession. apply sessionOk_fresh.
  - exact Hinv.
  - destruct (handleNext_effect now uuid userFocus manualReinforce w)
      as (_ & _ & [->|[->|(s & a & Hs & Hlt & ->)]]); [exact Hinv|done|].
    rewrite Hs in Hinv. by apply sessionOk_advance.
  - unfold App.handlePrev. destruct (App.session (App.app w)) as [s|] eqn:Hs;
      [|by rewrite Hs].
    destruct (Nat.ltb_spec 0 (currentQuestionIndex s)); [|by rewrite Hs].
    cbn. destruct Hinv as (Hidx & Hans & Hlen & Hall).
    unfold sessionOk. cbn. split_and!; [lia..|done].
  - done.
  - destruct (remediationSettled_effect response (App.app w)) as (-> & _).
    destruct (App.session (App.app w)) as [s|]; [|done].
    destruct Hinv as (Hidx & Hans & Hlen & Hall).
    unfold sessionOk. cbn. rewrite length_app. split_and!; [lia..|done].
  - unfold App.toggleBookmark. destruct (existsb _ _); [exact Hinv|].
    cbn. by destruct (App.srsStates (App.app w) !! q_id q).
  - destruct (dissectQuestion_effect now aistudio generated q (App.app w)) as (-> & _).
    exact Hinv.
  - exact Hinv.
  - exact Hinv.
Qed.

(** X15: whatever the user and the pending requests do, a session that has a
    question at its current position, an answer at every position before it,
    no gap among its answers and no more answers than questions, stays so:
    [handleNext] never reads a question that does not exist. *)
Theorem run_keeps_session_ok events w :
  sessionInv (App.app w) -> sessionInv (App.app (App.run events w)).
Proof. apply (run_invariant (fun w => sessionInv (App.app w))), step_sessionInv. Qed.

Lemma run_keeps_session_ok_witness :
  sessionInv Sample.inProgress /\
  sessionInv
    (App.app
       (App.run [App.Answer 1; App.Next 20 "u-1" None false;
                 App.RemediationSettled (App.Resolved [Sample.question "r1" 2]);
                 App.Prev]
          {| App.app := Sample.inProgress; App.db := Db.emptyStore |})).
Proof.
  assert (Hstart : sessionInv Sample.inProgress).
  { unfold sessionInv, sessionOk. cbn. split_and!; [lia..|constructor]. }
  split; [exact Hstart|].
  exact (run_keeps_session_ok _ {| App.app := Sample.inProgress; App.db := Db.emptyStore |}
           Hstart).
Defined.

(** *** The database mirrors the application *)

Lemma persist_mirrored w :
  Db.loadHistory (App.db w) = App.history (App.app w) ->
  Db.kv_lifetimeStats (App.db w) = App.lifetimeStats (App.app w) ->
  mirrored (App.persist w).
Proof. intros Hh Hl. unfold mirrored. by split_and!. Qed.

Lemma step_mirrored w e :
  mirrored w /\ is_Some (App.lifetimeStats (App.app w)) ->
  mirrored (App.step w e) /\ is_Some (App.lifetimeStats (App.app (App.step w e))).
Proof.
  intros [(Hh & Hl & _) Hsome].
  pose (P := fun w1 : App.World =>
               Db.loadHistory (App.db w1) = App.history (App.app w1) /\
               Db.kv_lifetimeStats (App.db w1) = App.lifetimeStats (App.app w1) /\
               is_Some (App.lifetimeStats (App.app w1))).
  assert (Hpersist : forall w1, P w1 ->
             mirrored (App.persist w1) /\
             is_Some (App.lifetimeStats (App.app (App.persist w1)))).
  { intros w1 (H1 & H2 & H3). split; [by apply persist_mirrored|exact H3]. }
  assert (Hkeep : forall f : App.AppState -> App.AppState,
             App.history (f (App.app w)) = App.history (App.app w) ->
             App.lifetimeStats (f (App.app w)) = App.lifetimeStats (App.app w) ->
             P (App.onApp f w)).
  { intros f Hfh Hfl. unfold P. cbn. rewrite Hfh, Hfl. by split_and!. }
  unfold App.step. apply Hpersist. destruct e.
  - apply Hkeep;
      match goal with
      | |- context [App.startQuiz ?n ?a ?g ?sp ?ex ?cx ?c ?t ?ar ?st] =>
          destruct (startQuiz_effect n a g sp ex cx c t ar st)
            as [Hsame|(q & qs & _ & _ & _ & _ & _ & _ & _ & Hhist & Hlife & _)]
      end; try (apply sameData_sameApp in Hsame; apply Hsame); done.
  - by apply Hkeep.
  - unfold P.
    destruct (handleNext_effect now uuid userFocus manualReinforce w)
      as (_ & [(Hhist & Hlife & Hdb)|(entry & Hhist & Hlife & Hdb)] & _).
    + rewrite Hhist, Hlife, Hdb. by split_and!.
    + rewrite Hhist, Hlife, Hdb, saveSession_unfold. cbn. rewrite Hh.
      by split_and!.
  - apply Hkeep; unfold App.handlePrev;
      destruct (App.session (App.app w)) as [s|]; try done;
      by destruct (0 <? currentQuestionIndex s)%nat.
  - by apply Hkeep.
  - destruct (remediationSettled_effect response (App.app w))
      as (_ & _ & Hhist & Hlife & _).
    by apply Hkeep.
  - apply Hkeep; unfold App.toggleBookmark; destruct (existsb _ _); try done;
      cbn; by destruct (App.srsStates (App.app w) !! q_id q).
  - destruct (dissectQuestion_effect now aistudio generated q (App.app w))
      as (_ & _ & Hhist & Hlife & _).
    by apply (Hkeep (fun st => (App.dissectQuestion now aistudio generated q st).1)).
  - by apply Hkeep.
  - by apply Hkeep.
Qed.

Lemma initData_mirrored now aistudio savedSession store :
  mirrored (App.initData now aistudio savedSession store) /\
  is_Some (App.lifetimeStats (App.app (App.initData now aistudio savedSession store))).
Proof.
  unfold App.initData. rewrite getAllData_unfold. cbn zeta.
  split; [|by eexists].
  apply persist_mirrored; cbn;
    destruct (Db.kv_lifetimeStats store) as [stats|] eqn:Hstats; cbn;
    by rewrite ?Hstats.
Qed.

(** X16: what the application holds is what the database holds.  After any
    sequence of events from start-up, starting the application again on the
    database restores the history, the lifetime statistics, the bookmarks, the
    mastery cards, the schedule states, the question library and the study
    plan, and leaves the database as it is. *)
Theorem reload_restores (now later : Z) (aistudio aistudio' : option App.AIStudio)
    (saved saved' : option QuizSession) (store : Db.Store) events :
  let w := App.run events (App.initData now aistudio saved store) in
  let reloaded := App.initData later aistudio' saved' (App.db w) in
  sameApp (App.app w) (App.app reloaded) /\ App.db reloaded = App.db w.
Proof.
  cbn zeta.
  set (w := App.run events (App.initData now aistudio saved store)).
  assert (Hw : mirrored w /\ is_Some (App.lifetimeStats (App.app w))).
  { apply (run_invariant
             (fun w => mirrored w /\ is_Some (App.lifetimeStats (App.app w))));
      [apply step_mirrored|apply initData_mirrored]. }
  clearbody w. destruct Hw as [(Hh & Hl & Hb & Hm & Hs & Hq & Hp) [stats Hstats]].
  unfold App.initData. rewrite getAllData_unfold. cbn zeta.
  rewrite Hl, Hstats. unfold sameApp. cbn.
  rewrite Hb, Hm, Hs, Hq, Hh, Hp. cbn. split; [by split_and!|].
  destruct (App.db w) as [kh kb km ks kq kp kl]. cbn in *.
  by rewrite <- Hb, <- Hm, <- Hs, <- Hq, <- Hp.
Qed.

End TraceInvariants.

(** ** Bookmarks, cards and the review queue *)

Section QueueFacts.

Local Open Scope float_scope.

Implicit Types (st : App.AppState) (q : Question) (m : gmap string SRSState)
  (card : MasteryCard) (layers : list MasteryCard).

Lemma toggleBookmark_on now q st :
  bookmarked q st = false ->
  App.toggleBookmark now q st =
    App.setSrsStates
      (match JS.get (App.srsStates st) (q_id q) with
       | JS.Missing => <[q_id q := App.bookmarkState now q]> (App.srsStates st)
       | _ => App.srsStates st
       end)
      (App.setQuestionLibrary (Library.addToLibrary [q] (App.questionLibrary st))
         (App.setBookmarks (App.bookmarks st ++ [q]) st)).
Proof. unfold bookmarked, App.toggleBookmark. by intros ->. Qed.

Lemma toggleBookmark_off now q st :
  bookmarked q st = true ->
  App.toggleBookmark now q st =
    App.setBookmarks
      (List.filter (fun b => negb (String.eqb (q_id b) (q_id q))) (App.bookmarks st)) st.
Proof. unfold bookmarked, App.toggleBookmark. by intros ->. Qed.

Lemma filter_other_ids q (l : list Question) :
  existsb (fun b => String.eqb (q_id b) (q_id q)) l = false ->
  List.filter (fun b => negb (String.eqb (q_id b) (q_id q))) l = l.
Proof.
  induction l as [|b l IH]; [done|]. cbn.
  destruct (String.eqb (q_id b) (q_id q)); [done|]. cbn. intros H. by rewrite IH.
Qed.

(** The schedule states after a question is bookmarked. *)
Lemma toggleBookmark_on_srsStates now q st :
  bookmarked q st = false ->
  App.srsStates (App.toggleBookmark now q st) =
    match JS.get (App.srsStates st) (q_id q) with
    | JS.Missing => <[q_id q := App.bookmarkState now q]> (App.srsStates st)
    | _ => App.srsStates st
    end.
Proof. intros Hnot. by rewrite toggleBookmark_on. Qed.

(** X17: bookmarking a question that was not bookmarked and removing the
    bookmark again gives back the list of bookmarks, and keeps every schedule
    state and what the first step added to the library.  When the
    identifier of the question names no inherited property, the question has
    a schedule state and a library entry afterwards; when it names one, the
    first step adds neither: the schedule states and the library are the ones
    before. *)
Theorem toggleBookmark_twice (now later : Z) q st :
  bookmarked q st = false ->
  let st1 := App.toggleBookmark now q st in
  let st2 := App.toggleBookmark later q st1 in
  bookmarked q st1 = true /\
  App.bookmarks st2 = App.bookmarks st /\
  App.srsStates st2 = App.srsStates st1 /\
  (forall k s, App.srsStates st !! k = Some s -> App.srsStates st2 !! k = Some s) /\
  App.questionLibrary st2 = App.questionLibrary st1 /\
  (ordinary (q_id q) ->
   is_Some (App.srsStates st2 !! q_id q) /\
   is_Some (App.questionLibrary st2 !! q_id q)) /\
  (JS.inherited (q_id q) = true ->
   App.srsStates st2 = App.srsStates st /\
   App.questionLibrary st2 = App.questionLibrary st).
Proof.
  intros Hnot. cbn zeta. rewrite (toggleBookmark_on now q st Hnot).
  assert (Hon : forall st', App.bookmarks st' = App.bookmarks st ++ [q] ->
                            bookmarked q st' = true).
  { intros st' Hb. unfold bookmarked. rewrite Hb, existsb_app. cbn.
    by rewrite String.eqb_refl, orb_true_r. }
  match goal with |- context [App.toggleBookmark later q ?x] =>
    set (st1 := x) end.
  rewrite (toggleBookmark_off later q st1 (Hon st1 eq_refl)). subst st1.
  split_and!; try done.
  - by apply Hon.
  - cbn. rewrite List.filter_app. cbn. rewrite String.eqb_refl. cbn.
    rewrite app_nil_r. by apply filter_other_ids.
  - intros k s Hk. cbn. unfold JS.get.
    destruct (App.srsStates st !! q_id q) eqn:Hq; [done|].
    destruct (JS.inherited (q_id q)); [done|].
    rewrite lookup_insert_ne; [done|]. intros <-. congruence.
  - intros Hord. split.
    + cbn. rewrite (get_ordinary _ _ Hord).
      destruct (App.srsStates st !! q_id q) eqn:Hq; [by rewrite Hq|].
      rewrite lookup_insert_eq. by eexists.
    + cbn -[Library.addToLibrary]. rewrite addToLibrary_lookup, Hord.
      destruct (App.questionLibrary st !! q_id q); [by eexists|].
      unfold firstWithId. cbn. rewrite String.eqb_refl. by eexists.
  - intros Hinh. cbn. unfold JS.get. rewrite Hinh.
    split; [by destruct (App.srsStates st !! q_id q)|].
    by destruct (App.questionLibrary st !! q_id q).
Qed.

Lemma toggleBookmark_twice_witness :
  bookmarked (Sample.question "a1" 0) Sample.inProgress = false /\
  App.bookmarks
    (App.toggleBookmark 9 (Sample.question "a1" 0)
       (App.toggleBookmark 5 (Sample.question "a1" 0) Sample.inProgress))
    = App.bookmarks Sample.inProgress.
Proof.
  split; [reflexivity|].
  exact (proj1 (proj2 (toggleBookmark_twice 5 9 (Sample.question "a1" 0)
                         Sample.inProgress eq_refl))).
Defined.

(** *** Membership in the review queue *)

Lemma dueSRSItems_member (now : Z) st (k : string) (s : SRSState) (due : App.Due) :
  App.srsStates st !! k = Some s ->
  (nextReview s <=? JS.of_Z now) = true ->
  match JS.get (App.questionLibrary st) (JS.propertyKey (cardId s)) with
  | JS.Own stored => Some (App.Item (App.Vignette stored))
  | JS.Inherited => Some (App.InheritedVignette (JS.propertyKey (cardId s)))
  | JS.Missing =>
      (fun card => App.Item (App.Mastery card))
        <$> (cardId s ≫= App.findCard (App.masteryCards st))
  end = Some due ->
  due ∈ App.dueSRSItems now st.
Proof.
  intros Hk Hdue Hitem. unfold App.dueSRSItems. cbn zeta.
  apply list_elem_of_omap. exists s. split; [|exact Hitem].
  apply list_elem_of_In, filter_In. split; [|exact Hdue].
  apply list_elem_of_In, list_elem_of_fmap. exists (k, s). split; [done|].
  by apply elem_of_map_to_list.
Qed.

Lemma findCard_Some (cards : gmap string (list MasteryCard)) (parent : string)
    layers card :
  cards !! parent = Some layers ->
  card ∈ layers ->
  exists found, App.findCard cards (mc_id card) = Some found /\ mc_id found = mc_id card.
Proof.
  intros Hparent Hcard. unfold App.findCard.
  set (l := omap _ (map_to_list cards)).
  assert (Hall : Forall (fun c => mc_id c = mc_id card) l).
  { apply Forall_forall. intros c Hc. subst l.
    apply list_elem_of_omap in Hc as ([p layer] & _ & Hfind).
    apply find_some in Hfind as [_ Heq]. by apply String.eqb_eq in Heq. }
  assert (Hne : l <> []).
  { destruct (List.find (fun c => String.eqb (mc_id c) (mc_id card)) layers)
      as [c|] eqn:Hfind.
    - intros Hl. assert (Hin : c ∈ l); [|rewrite Hl in Hin; by apply not_elem_of_nil in Hin].
      subst l. apply list_elem_of_omap. exists (parent, layers).
      split; [by apply elem_of_map_to_list|done].
    - apply list_elem_of_In in Hcard. eapply find_none in Hfind; [|exact Hcard].
      by rewrite String.eqb_refl in Hfind. }
  destruct l as [|found l']; [done|].
  exists found. split; [done|]. by apply Forall_cons in Hall as [? _].
Qed.

(** Adding zero to a number does not move it past a number it was not
    above. *)
Lemma leb_add_zero (x y : float) : (x <=? y) = true -> (x + 0 <=? y) = true.
Proof.
  rewrite !leb_spec, add_spec.
  change (Prim2SF 0) with (S754_zero false).
  unfold SF64add, SFadd.
  destruct (Prim2SF x) as [sx|sx| |sx mx ex]; [|done..].
  destruct sx; [|done]. by destruct (Prim2SF y).
Qed.

(** The entry a rating "again" writes: its review time is
    [Date.now() + 0 * 24 * 60 * 60 * 1000]. *)
Lemma updateSRS_again_due now id m :
  exists s, SRS.updateSRS now id again m !! id = Some s /\
            nextReview s = JS.of_Z now + 0 /\
            cardId s = cardId (SRS.currentState id m).
Proof. eexists. split; [apply updateSRS_lookup|]. by split. Qed.

Lemma currentState_keyed id m :
  (forall k s, m !! k = Some s -> keyedAt k s) ->
  ordinary id ->
  cardId (SRS.currentState id m) = Some id.
Proof.
  intros Hkeyed Hord. unfold SRS.currentState. rewrite (get_ordinary _ _ Hord).
  destruct (m !! id) as [s|] eqn:Hs; [|done].
  destruct (Hkeyed id s Hs) as [?|[_ Hinh]]; [done|].
  unfold ordinary in Hord. congruence.
Qed.

Lemma rateCards_keeps_due now layers m id :
  (exists s, m !! id = Some s /\ nextReview s = JS.of_Z now + 0 /\ cardId s = Some id) ->
  exists s, rateCards now layers m !! id = Some s /\
            nextReview s = JS.of_Z now + 0 /\ cardId s = Some id.
Proof.
  revert m. induction layers as [|c layers IH]; intros m Hm; [done|].
  unfold rateCards. cbn [fold_left]. apply IH.
  destruct Hm as (s & Hs & Hdue & Hid).
  destruct (decide (mc_id c = id)) as [->|Hne].
  - destruct (updateSRS_again_due now id m) as (s' & Hs' & Hdue' & Hid').
    exists s'. split_and!; [done..|]. by rewrite Hid', (currentState_Own _ _ _ Hs).
  - exists s. split_and!; [|done..]. by rewrite updateSRS_other.
Qed.

Lemma updateSRS_keyedAt now id rating m :
  (forall k s, m !! k = Some s -> keyedAt k s) ->
  forall k s, SRS.updateSRS now id rating m !! k = Some s -> keyedAt k s.
Proof.
  intros Hkeyed k s. destruct (decide (k = id)) as [->|Hne].
  - rewrite updateSRS_lookup. intros [= <-]. unfold keyedAt.
    rewrite schedule_cardId. unfold SRS.currentState, JS.get.
    destruct (m !! id) as [s0|] eqn:Hs0; [by apply Hkeyed|].
    destruct (JS.inherited id) eqn:Hinh; [by right|by left].
  - rewrite updateSRS_other by done. apply Hkeyed.
Qed.

Lemma rateCards_due now layers m card :
  (forall k s, m !! k = Some s -> keyedAt k s) ->
  card ∈ layers ->
  ordinary (mc_id card) ->
  exists s, rateCards now layers m !! mc_id card = Some s /\
            nextReview s = JS.of_Z now + 0 /\ cardId s = Some (mc_id card).
Proof.
  revert m. induction layers as [|c layers IH]; intros m Hkeyed Hcard Hord;
    [by apply not_elem_of_nil in Hcard|].
  unfold rateCards. cbn [fold_left].
  apply elem_of_cons in Hcard as [->|Hcard].
  - apply rateCards_keeps_due.
    destruct (updateSRS_again_due now (mc_id c) m) as (s' & Hs' & Hdue' & Hid').
    exists s'. split_and!; [done..|]. rewrite Hid'. by apply currentState_keyed.
  - apply (IH (SRS.updateSRS now (mc_id c) again m)); [|done..].
    by apply updateSRS_keyedAt.
Qed.

(** X18: a question bookmarked for the first time, with no schedule state
    yet and an identifier that names no inherited property, is in the review
    queue at every later time: the queue holds the library question stored
    under its identifier.  "Later" is as the queue compares the two clock
    readings, as numbers. *)
Theorem bookmark_is_due (now later : Z) q st :
  bookmarked q st = false ->
  JS.get (App.srsStates st) (q_id q) = JS.Missing ->
  (JS.of_Z now <=? JS.of_Z later) = true ->
  let st' := App.toggleBookmark now q st in
  exists stored,
    App.questionLibrary st' !! q_id q = Some stored /\
    App.Item (App.Vignette stored) ∈ App.dueSRSItems later st'.
Proof.
  intros Hnot Hmissing Hlater. cbn zeta.
  rewrite (toggleBookmark_on now q st Hnot), Hmissing.
  apply get_Missing in Hmissing as [_ Hord].
  assert (Hlib : is_Some (Library.addToLibrary [q] (App.questionLibrary st) !! q_id q)).
  { rewrite addToLibrary_lookup, Hord.
    destruct (App.questionLibrary st !! q_id q); [by eexists|].
    unfold firstWithId. cbn. rewrite String.eqb_refl. by eexists. }
  destruct Hlib as [stored Hstored]. exists stored. split; [exact Hstored|].
  eapply (dueSRSItems_member later _ (q_id q)).
  - cbn. apply lookup_insert_eq.
  - exact Hlater.
  - cbn -[Library.addToLibrary]. by rewrite (get_Own _ _ _ Hstored).
Qed.

Lemma bookmark_is_due_witness :
  bookmarked (Sample.question "a2" 1) Sample.inProgress = false /\
  exists stored,
    App.Item (App.Vignette stored)
      ∈ App.dueSRSItems 8 (App.toggleBookmark 5 (Sample.question "a2" 1) Sample.inProgress).
Proof.
  split; [reflexivity|].
  destruct (bookmark_is_due 5 8 (Sample.question "a2" 1) Sample.inProgress
              eq_refl eq_refl eq_refl) as (stored & _ & Hdue).
  exists stored. exact Hdue.
Defined.

(** X19: when the cards of a question are generated, every card whose
    identifier names no inherited property is in the review queue at every
    later time: as the card itself, as another card with the same
    identifier, or as the library question stored under that identifier.
    "Later" is as the queue compares the two clock readings, as numbers. *)
Theorem dissected_cards_due (now later : Z) (aistudio : option App.AIStudio) q st
    layers card :
  JS.get (App.masteryCards st) (q_id q) = JS.Missing ->
  keyed st ->
  card ∈ layers ->
  ordinary (mc_id card) ->
  (JS.of_Z now <=? JS.of_Z later) = true ->
  let st' := (App.dissectQuestion now aistudio (App.CardsResolved layers) q st).1 in
  App.masteryCards st' !! q_id q = Some layers /\
  exists item,
    App.Item item ∈ App.dueSRSItems later st' /\ standsFor st' (mc_id card) item.
Proof.
  intros Hmissing Hkeyed Hcard Hord Hlater. cbn zeta.
  assert (Hcards :
            App.masteryCards (App.dissectQuestion now aistudio (App.CardsResolved layers) q st).1
              = <[q_id q := layers]> (App.masteryCards st) /\
            App.srsStates (App.dissectQuestion now aistudio (App.CardsResolved layers) q st).1
              = rateCards now layers (App.srsStates st)).
  { unfold App.dissectQuestion. rewrite Hmissing. cbn [fst].
    destruct (rateCards_fold now layers
                (App.setMasteryCards (<[q_id q := layers]> (App.masteryCards st)) st))
      as (H1 & _ & _ & _ & _ & _ & H7 & _).
    by split. }
  destruct Hcards as [Hcards Hsrs].
  set (st' := (App.dissectQuestion now aistudio (App.CardsResolved layers) q st).1) in *.
  split; [rewrite Hcards; apply lookup_insert_eq|].
  destruct (rateCards_due now layers (App.srsStates st) card Hkeyed Hcard Hord)
    as (s & Hs & Hdue & Hid).
  rewrite <- Hsrs in Hs.
  assert (Hle : (nextReview s <=? JS.of_Z later) = true)
    by (rewrite Hdue; by apply leb_add_zero).
  assert (Hkey : JS.propertyKey (cardId s) = mc_id card) by (by rewrite Hid).
  destruct (App.questionLibrary st' !! mc_id card) as [stored|] eqn:Hstored.
  - exists (App.Vignette stored). split; [|exact Hstored].
    eapply dueSRSItems_member; [exact Hs|exact Hle|].
    by rewrite Hkey, (get_Own _ _ _ Hstored).
  - destruct (findCard_Some (App.masteryCards st') (q_id q) layers card)
      as (found & Hfound & Hfid); [rewrite Hcards; apply lookup_insert_eq|exact Hcard|].
    exists (App.Mastery found). split; [|exact Hfid].
    eapply dueSRSItems_member; [exact Hs|exact Hle|].
    rewrite Hkey, (get_ordinary _ _ Hord), Hstored, Hid. cbn. by rewrite Hfound.
Qed.

Lemma dissected_cards_due_witness :
  keyed Sample.inProgress /\
  let st' :=
    (App.dissectQuestion 5 None
       (App.CardsResolved [Sample.card "c1"; Sample.card "c2"])
       (Sample.question "a1" 0) Sample.inProgress).1 in
  exists item, App.Item item ∈ App.dueSRSItems 7 st' /\ standsFor st' "c2" item.
Proof.
  assert (Hkeyed : keyed Sample.inProgress).
  { intros k s Hk.
    change (App.srsStates Sample.inProgress) with (∅ : gmap string SRSState) in Hk.
    by rewrite lookup_empty in Hk. }
  split; [exact Hkeyed|].
  refine (proj2 (dissected_cards_due 5 7 None (Sample.question "a1" 0)
                   Sample.inProgress [Sample.card "c1"; Sample.card "c2"]
                   (Sample.card "c2") eq_refl Hkeyed _ eq_refl eq_refl)).
  apply list_elem_of_further, list_elem_of_here.
Defined.

End QueueFacts.

(** ** Further invariants of a running application *)

Section CollectionInvariants.

Implicit Types (st : App.AppState) (w : App.World) (q : Question)
  (e : App.Event) (events : list App.Event) (m : gmap string SRSState).

Lemma rateCards_keyedAt now layers m :
  (forall k s, m !! k = Some s -> keyedAt k s) ->
  forall k s, rateCards now layers m !! k = Some s -> keyedAt k s.
Proof.
  revert m. induction layers as [|c layers IH]; intros m Hkeyed; [done|].
  unfold rateCards. cbn [fold_left]. apply IH. by apply updateSRS_keyedAt.
Qed.

Lemma updateSRS_is_Some now id rating m k :
  is_Some (m !! k) -> is_Some (SRS.updateSRS now id rating m !! k).
Proof.
  intros Hk. unfold SRS.updateSRS. destruct (decide (k = id)) as [->|Hne].
  - rewrite lookup_insert_eq. by eexists.
  - by rewrite lookup_insert_ne.
Qed.

Lemma rateCards_is_Some now layers m k :
  is_Some (m !! k) -> is_Some (rateCards now layers m !! k).
Proof.
  revert m. induction layers as [|c layers IH]; intros m Hk; [done|].
  unfold rateCards. cbn [fold_left]. apply IH. by apply updateSRS_is_Some.
Qed.

Lemma addToLibrary_is_Some qs (lib : gmap string Question) k :
  is_Some (lib !! k) -> is_Some (Library.addToLibrary qs lib !! k).
Proof. intros [q Hq]. rewrite addToLibrary_lookup, Hq. by eexists. Qed.

Lemma addToLibrary_member qs (lib : gmap string Question) q :
  q ∈ qs -> ordinary (q_id q) -> is_Some (Library.addToLibrary qs lib !! q_id q).
Proof.
  intros Hq Hord. apply elem_of_dom. rewrite addToLibrary_dom.
  apply elem_of_union_r, elem_of_list_to_set, list_elem_of_In, filter_In.
  split; [|by rewrite Hord].
  apply list_elem_of_In, list_elem_of_fmap. by exists q.
Qed.

(** The schedule states and the bookmarks after one event. *)
Lemma step_srsStates w e :
  let st := App.app w in
  let st' := App.app (App.step w e) in
  App.srsStates st' = App.srsStates st \/
  (exists now id rating,
     App.srsStates st' = SRS.updateSRS now id rating (App.srsStates st)) \/
  (exists now layers, App.srsStates st' = rateCards now layers (App.srsStates st)) \/
  (exists now q,
     e = App.ToggleBookmark now q /\ bookmarked q st = false /\
     JS.get (App.srsStates st) (q_id q) = JS.Missing /\
     App.srsStates st' = <[q_id q := App.bookmarkState now q]> (App.srsStates st)).
Proof.
  cbn zeta. destruct e; cbn [App.step App.persist App.app App.onApp].
  - match goal with
    | |- context [App.startQuiz ?n ?a ?g ?sp ?ex ?cx ?c ?t ?ar ?st] =>
        destruct (startQuiz_effect n a g sp ex cx c t ar st)
          as [Hsame|(q & qs & Hfields)]
    end.
    + apply sameData_sameApp in Hsame. left. apply Hsame.
    + left. apply Hfields.
  - by left.
  - left. apply (handleNext_effect now uuid userFocus manualReinforce w).
  - left. unfold App.handlePrev. destruct (App.session (App.app w)) as [s|]; [|done].
    by destruct (0 <? currentQuestionIndex s)%nat.
  - by left.
  - left. apply (remediationSettled_effect response (App.app w)).
  - destruct (bookmarked q (App.app w)) eqn:Hb.
    + left. by rewrite toggleBookmark_off.
    + rewrite toggleBookmark_on_srsStates by done.
      destruct (JS.get (App.srsStates (App.app w)) (q_id q)) eqn:Hq; [by left..|].
      right; right; right. by exists now, q.
  - destruct (dissectQuestion_effect now aistudio generated q (App.app w))
      as (_ & _ & _ & _ & _ & _ & [Hsame|(layers & _ & _ & _ & Hsrs)]).
    + by left.
    + right; right; left. by exists now, layers.
  - right; left. by exists now, id, rating.
  - by left.
Qed.

Lemma step_bookmarks w e :
  let st := App.app w in
  let st' := App.app (App.step w e) in
  App.bookmarks st' = App.bookmarks st \/
  exists now q,
    e = App.ToggleBookmark now q /\ App.toggleBookmark now q st = st'.
Proof.
  cbn zeta. destruct e; cbn [App.step App.persist App.app App.onApp].
  - match goal with
    | |- context [App.startQuiz ?n ?a ?g ?sp ?ex ?cx ?c ?t ?ar ?st] =>
        destruct (startQuiz_effect n a g sp ex cx c t ar st)
          as [Hsame|(q & qs & Hfields)]
    end.
    + apply sameData_sameApp in Hsame. left. apply Hsame.
    + left. apply Hfields.
  - by left.
  - left. apply (handleNext_effect now uuid userFocus manualReinforce w).
  - left. unfold App.handlePrev. destruct (App.session (App.app w)) as [s|]; [|done].
    by destruct (0 <? currentQuestionIndex s)%nat.
  - by left.
  - left. apply (remediationSettled_effect response (App.app w)).
  - right. by exists now, q.
  - left. apply (dissectQuestion_effect now aistudio generated q (App.app w)).
  - by left.
  - by left.
Qed.

Lemma step_keyed w e : keyed (App.app w) -> keyed (App.app (App.step w e)).
Proof.
  intros Hkeyed. unfold keyed in *.
  destruct (step_srsStates w e)
    as [->|[(now & id & rating & ->)|[(now & layers & ->)|(now & q & _ & _ & _ & ->)]]].
  - exact Hkeyed.
  - by apply updateSRS_keyedAt.
  - by apply rateCards_keyedAt.
  - intros k s. destruct (decide (k = q_id q)) as [->|Hne].
    + rewrite lookup_insert_eq. intros [= <-]. by left.
    + rewrite lookup_insert_ne by done. apply Hkeyed.
Qed.

(** X20: a schedule state is stored under the identifier it carries, and
    this stays so whatever happens, with one exception that is kept as it
    is: a state that carries no identifier at all, which a rating writes
    under an identifier that names an inherited property and has no state
    yet. *)
Theorem run_keeps_keyed events w :
  keyed (App.app w) -> keyed (App.app (App.run events w)).
Proof. apply (run_invariant (fun w => keyed (App.app w))), step_keyed. Qed.

Lemma run_keeps_keyed_witness :
  keyed Sample.inProgress /\
  keyed
    (App.app
       (App.run [App.ToggleBookmark 5 (Sample.question "a1" 0);
                 App.Rate 6 "a1" good;
                 App.Rate 6 "valueOf" good;
                 App.Dissect 7 None (App.CardsResolved [Sample.card "c1"])
                   (Sample.question "a1" 0)]
          {| App.app := Sample.inProgress; App.db := Db.emptyStore |})).
Proof.
  assert (Hkeyed : keyed Sample.inProgress).
  { intros k s Hk.
    change (App.srsStates Sample.inProgress) with (∅ : gmap string SRSState) in Hk.
    by rewrite lookup_empty in Hk. }
  split; [exact Hkeyed|].
  exact (run_keeps_keyed _ {| App.app := Sample.inProgress; App.db := Db.emptyStore |}
           Hkeyed).
Defined.

Lemma NoDup_filter_ids (f : Question -> bool) (l : list Question) :
  NoDup (q_id <$> l) -> NoDup (q_id <$> List.filter f l).
Proof.
  induction l as [|b l IH]; [done|]. cbn. intros Hnd.
  apply NoDup_cons in Hnd as [Hnotin Hnd]. destruct (f b); [|by apply IH].
  cbn. apply NoDup_cons. split; [|by apply IH].
  intros Hin. apply Hnotin. apply list_elem_of_fmap in Hin as (b' & -> & Hb').
  apply list_elem_of_fmap. exists b'. split; [done|].
  apply list_elem_of_In in Hb'. apply filter_In in Hb' as [Hb' _].
  by apply list_elem_of_In.
Qed.

Lemma not_bookmarked_not_in q st :
  bookmarked q st = false -> q_id q ∉ q_id <$> App.bookmarks st.
Proof.
  unfold bookmarked. intros Hnot Hin.
  apply list_elem_of_fmap in Hin as (b & Heq & Hb).
  assert (Hex : existsb (fun b => String.eqb (q_id b) (q_id q)) (App.bookmarks st) = true).
  { apply existsb_exists. exists b. split; [by apply list_elem_of_In|].
    rewrite Heq. apply String.eqb_refl. }
  congruence.
Qed.

Lemma step_bookmarks_distinct w e :
  NoDup (q_id <$> App.bookmarks (App.app w)) ->
  NoDup (q_id <$> App.bookmarks (App.app (App.step w e))).
Proof.
  intros Hnd. destruct (step_bookmarks w e) as [->|(now & q & _ & <-)]; [done|].
  destruct (bookmarked q (App.app w)) eqn:Hb.
  - rewrite toggleBookmark_off by done. cbn. by apply NoDup_filter_ids.
  - rewrite toggleBookmark_on by done. cbn. rewrite fmap_app. cbn.
    apply NoDup_app. split_and!; [done| |apply NoDup_singleton].
    intros id Hid Hq. apply list_elem_of_singleton in Hq as ->.
    by apply (not_bookmarked_not_in q (App.app w)).
Qed.

(** X21: no two bookmarks ever carry the same identifier. *)
Theorem run_keeps_bookmarks_distinct events w :
  NoDup (q_id <$> App.bookmarks (App.app w)) ->
  NoDup (q_id <$> App.bookmarks (App.app (App.run events w))).
Proof.
  apply (run_invariant (fun w => NoDup (q_id <$> App.bookmarks (App.app w)))),
    step_bookmarks_distinct.
Qed.

Lemma run_keeps_bookmarks_distinct_witness :
  NoDup (q_id <$> App.bookmarks Sample.inProgress) /\
  NoDup
    (q_id <$>
       App.bookmarks
         (App.app
            (App.run [App.ToggleBookmark 5 (Sample.question "a1" 0);
                      App.ToggleBookmark 6 (Sample.question "a1" 3);
                      App.ToggleBookmark 7 (Sample.question "a2" 1)]
               {| App.app := Sample.inProgress; App.db := Db.emptyStore |}))).
Proof.
  assert (Hnd : NoDup (q_id <$> App.bookmarks Sample.inProgress))
    by apply NoDup_nil_2.
  split; [exact Hnd|].
  exact (run_keeps_bookmarks_distinct _
           {| App.app := Sample.inProgress; App.db := Db.emptyStore |} Hnd).
Defined.

End CollectionInvariants.

(** ** What a running application never loses *)

Section Monotonicity.

Implicit Types (st : App.AppState) (w : App.World) (q : Question)
  (e : App.Event) (events : list App.Event).

Lemma addToLibrary_nil (lib : gmap string Question) : Library.addToLibrary [] lib = lib.
Proof. reflexivity. Qed.

(** The question library and the session after one event. *)
Lemma step_library w e :
  let st := App.app w in
  let st' := App.app (App.step w e) in
  exists qs,
    App.questionLibrary st' = Library.addToLibrary qs (App.questionLibrary st) /\
    (forall s', App.session st' = Some s' ->
       forall q, q ∈ questions s' ->
         q ∈ qs \/ exists s, App.session st = Some s /\ q ∈ questions s) /\
    (forall b, b ∈ App.bookmarks st' -> b ∈ qs \/ b ∈ App.bookmarks st).
Proof.
  cbn zeta.
  assert (Hsame : forall st',
             App.questionLibrary st' = App.questionLibrary (App.app w) ->
             (App.session st' = App.session (App.app w) \/ App.session st' = None \/
              exists s s', App.session (App.app w) = Some s /\
                           App.session st' = Some s' /\ questions s' = questions s) ->
             App.bookmarks st' = App.bookmarks (App.app w) ->
             exists qs,
               App.questionLibrary st' = Library.addToLibrary qs (App.questionLibrary (App.app w)) /\
               (forall s', App.session st' = Some s' ->
                  forall q, q ∈ questions s' ->
                    q ∈ qs \/ exists s, App.session (App.app w) = Some s /\ q ∈ questions s) /\
               (forall b, b ∈ App.bookmarks st' -> b ∈ qs \/ b ∈ App.bookmarks (App.app w))).
  { intros st' Hlib Hsession Hbookmarks. exists []. split_and!.
    - by rewrite Hlib.
    - intros s' Hs' q Hq. right.
      destruct Hsession as [Heq|[Hnone|(s & s'' & Hs & Hs'' & Hqs)]].
      + exists s'. by rewrite <- Heq.
      + congruence.
      + exists s. split; [done|]. rewrite Hs' in Hs''. injection Hs'' as <-.
        by rewrite <- Hqs.
    - intros b Hb. right. by rewrite <- Hbookmarks. }
  destruct e; cbn [App.step App.persist App.app App.onApp].
  - match goal with
    | |- context [App.startQuiz ?n ?a ?g ?sp ?ex ?cx ?c ?t ?ar ?st] =>
        destruct (startQuiz_effect n a g sp ex cx c t ar st)
          as [Hdata|(q & qs & _ & _ & Hsession & Hlib & _ & _ & _ & _ & _ & Hb & _)]
    end.
    + pose proof Hdata as (_ & Hs & _). apply sameData_sameApp in Hdata.
      apply Hsame; [apply Hdata|by left|apply Hdata].
    + exists (q :: qs). split_and!; [done| |].
      * intros s' Hs' q' Hq'. left. rewrite Hsession in Hs'. by injection Hs' as <-.
      * intros b Hin. right. by rewrite <- Hb.
  - by apply Hsame; [|left|].
  - destruct (handleNext_effect now uuid userFocus manualReinforce w)
      as ((Hb & _ & _ & Hlib & _) & _ & Hsession).
    apply Hsame; [done| |done].
    destruct Hsession as [?|[?|(s & a & Hs & _ & Hs')]]; [by left|by right; left|].
    right; right. by eexists s, _.
  - unfold App.handlePrev. destruct (App.session (App.app w)) as [s|] eqn:Hs;
      [|by apply Hsame; [|left|]].
    destruct (0 <? currentQuestionIndex s)%nat; [|by apply Hsame; [|left|]].
    apply Hsame; [done| |done]. right; right. by eexists s, _.
  - by apply Hsame; [|right; left|].
  - destruct (remediationSettled_effect response (App.app w))
      as (Hsession & Hlib & _ & _ & Hb & _).
    eexists. split_and!; [exact Hlib| |].
    + intros s' Hs' q Hq. rewrite Hsession in Hs'.
      destruct (App.session (App.app w)) as [s|]; [|done].
      injection Hs' as <-. cbn in Hq. apply elem_of_app in Hq as [Hq|Hq].
      * right. by exists s.
      * by left.
    + intros b Hin. right. by rewrite <- Hb.
  - destruct (bookmarked q (App.app w)) eqn:Hbm.
    + rewrite toggleBookmark_off by done.
      exists []. split_and!; [done| |].
      * intros s' Hs' q' Hq'. right. by exists s'.
      * intros b Hb. right. cbn in Hb. apply list_elem_of_In, filter_In in Hb as [Hb _].
        by apply list_elem_of_In.
    + rewrite toggleBookmark_on by done. exists [q]. split_and!.
      * cbn -[Library.addToLibrary].
        by destruct (App.srsStates (App.app w) !! q_id q).
      * intros s' Hs' q' Hq'. right. exists s'. split; [|done].
        rewrite <- Hs'. cbn. by destruct (App.srsStates (App.app w) !! q_id q).
      * intros b Hb. cbn in Hb.
        assert (Hb' : b ∈ App.bookmarks (App.app w) ++ [q])
          by (by destruct (App.srsStates (App.app w) !! q_id q)).
        apply elem_of_app in Hb' as [?|?]; [by right|by left].
  - destruct (dissectQuestion_effect now aistudio generated q (App.app w))
      as (Hsession & Hlib & _ & _ & Hb & _).
    apply Hsame; [done|by left|done].
  - by apply Hsame; [|left|].
  - by apply Hsame; [|left|].
Qed.

Lemma step_library_keeps w e k q :
  App.questionLibrary (App.app w) !! k = Some q ->
  App.questionLibrary (App.app (App.step w e)) !! k = Some q.
Proof.
  intros Hk. destruct (step_library w e) as (qs & -> & _).
  by apply addToLibrary_keeps.
Qed.

(** X22: a question stored in the library is never replaced or removed:
    whatever happens afterwards, the identifier keeps the question first
    stored under it. *)
Theorem run_keeps_library_entries events w (k : string) q :
  App.questionLibrary (App.app w) !! k = Some q ->
  App.questionLibrary (App.app (App.run events w)) !! k = Some q.
Proof.
  apply (run_invariant (fun w => App.questionLibrary (App.app w) !! k = Some q)).
  intros w' e. apply step_library_keeps.
Qed.

Lemma run_keeps_library_entries_witness :
  let old := Sample.question "a1" 0 in
  App.questionLibrary Sample.inProgress !! "a1" = Some old /\
  App.questionLibrary
    (App.app
       (App.run [App.RemediationSettled (App.Resolved [Sample.question "a1" 2]);
                 App.ToggleBookmark 5 (Sample.question "a1" 1)]
          {| App.app := Sample.inProgress; App.db := Db.emptyStore |})) !! "a1"
    = Some old.
Proof.
  cbn zeta. split; [reflexivity|].
  apply (run_keeps_library_entries _
           {| App.app := Sample.inProgress; App.db := Db.emptyStore |}).
  reflexivity.
Defined.

Lemma step_srs_is_Some w e k :
  is_Some (App.srsStates (App.app w) !! k) ->
  is_Some (App.srsStates (App.app (App.step w e)) !! k).
Proof.
  intros Hk.
  destruct (step_srsStates w e)
    as [->|[(now & id & rating & ->)|[(now & layers & ->)|(now & q & _ & _ & _ & ->)]]].
  - exact Hk.
  - by apply updateSRS_is_Some.
  - by apply rateCards_is_Some.
  - destruct (decide (k = q_id q)) as [->|Hne].
    + rewrite lookup_insert_eq. by eexists.
    + by rewrite lookup_insert_ne.
Qed.

(** X23: a schedule state is never deleted: an item that has one keeps one,
    also after its bookmark is removed. *)
Theorem run_keeps_schedule_states events w (k : string) :
  is_Some (App.srsStates (App.app w) !! k) ->
  is_Some (App.srsStates (App.app (App.run events w)) !! k).
Proof.
  apply (run_invariant (fun w => is_Some (App.srsStates (App.app w) !! k))).
  intros w' e. apply step_srs_is_Some.
Qed.

Lemma run_keeps_schedule_states_witness :
  let w := {| App.app := App.toggleBookmark 5 (Sample.question "a1" 0) Sample.inProgress;
              App.db := Db.emptyStore |} in
  is_Some (App.srsStates (App.app w) !! "a1") /\
  is_Some
    (App.srsStates
       (App.app (App.run [App.ToggleBookmark 6 (Sample.question "a1" 0)] w)) !! "a1").
Proof.
  cbn zeta.
  assert (Hsome :
            is_Some
              (App.srsStates
                 (App.toggleBookmark 5 (Sample.question "a1" 0) Sample.inProgress)
                 !! "a1")) by (by eexists).
  split; [exact Hsome|].
  exact (run_keeps_schedule_states _
           {| App.app := App.toggleBookmark 5 (Sample.question "a1" 0) Sample.inProgress;
              App.db := Db.emptyStore |} "a1" Hsome).
Defined.

Lemma step_references w e :
  referencesResolved (App.app w) -> referencesResolved (App.app (App.step w e)).
Proof.
  intros [Hsession Hbookmarks].
  destruct (step_library w e) as (qs & Hlib & Hs' & Hb').
  split.
  - intros s' q Hs Hq Hord. rewrite Hlib.
    destruct (Hs' s' Hs q Hq) as [Hin|(s & Hs0 & Hq0)].
    + by apply addToLibrary_member.
    + apply addToLibrary_is_Some. by apply (Hsession s).
  - intros b Hb Hord. split.
    + rewrite Hlib. destruct (Hb' b Hb) as [Hin|Hin].
      * by apply addToLibrary_member.
      * apply addToLibrary_is_Some. by apply Hbookmarks.
    + destruct (step_bookmarks w e) as [Hsame|(now & q & -> & Htoggle)].
      * rewrite Hsame in Hb. by apply step_srs_is_Some, Hbookmarks.
      * rewrite <- Htoggle in Hb |- *. cbn [App.step App.persist App.app App.onApp].
        destruct (bookmarked q (App.app w)) eqn:Hbm.
        -- rewrite toggleBookmark_off in Hb |- * by done. cbn in Hb |- *.
           apply list_elem_of_In, filter_In in Hb as [Hb _].
           by apply Hbookmarks; [apply list_elem_of_In|].
        -- rewrite toggleBookmark_on_srsStates by done.
           rewrite toggleBookmark_on in Hb by done. cbn in Hb.
           apply elem_of_app in Hb as [Hin|Hin].
           ++ assert (Hhas : is_Some (App.srsStates (App.app w) !! q_id b))
                by (by apply Hbookmarks).
              destruct (JS.get (App.srsStates (App.app w)) (q_id q)); [done..|].
              destruct (decide (q_id b = q_id q)) as [->|Hne].
              ** rewrite lookup_insert_eq. by eexists.
              ** by rewrite lookup_insert_ne.
           ++ apply list_elem_of_singleton in Hin as ->.
              rewrite (get_ordinary _ _ Hord).
              destruct (App.srsStates (App.app w) !! q_id q) eqn:Hq;
                [by rewrite Hq|].
              rewrite lookup_insert_eq. by eexists.
Qed.

(** X24: every question of the active session and every bookmarked question
    whose identifier names no inherited property has an entry in the
    question library under its identifier, and every such bookmarked
    question has a schedule state; this stays so whatever happens. *)
Theorem run_keeps_references events w :
  referencesResolved (App.app w) -> referencesResolved (App.app (App.run events w)).
Proof.
  apply (run_invariant (fun w => referencesResolved (App.app w))), step_references.
Qed.

Lemma run_keeps_references_witness :
  referencesResolved Sample.idle /\
  referencesResolved
    (App.app
       (App.run [App.StartQuiz 10 None
                   (App.Resolved [Sample.question "a1" 0; Sample.question "a2" 1])
                   [SURGERY] [STEP_3] MEDIUM 2 "" true;
                 App.ToggleBookmark 11 (Sample.question "a1" 0);
                 App.RemediationSettled (App.Resolved [Sample.question "r1" 2])]
          {| App.app := Sample.idle; App.db := Db.emptyStore |})).
Proof.
  assert (Hidle : referencesResolved Sample.idle).
  { split.
    - intros s q Hs. discriminate Hs.
    - intros b Hb. by apply not_elem_of_nil in Hb. }
  split; [exact Hidle|].
  exact (run_keeps_references _ {| App.app := Sample.idle; App.db := Db.emptyStore |}
           Hidle).
Defined.

Lemma step_mirrored_history w e :
  App.history (App.app (App.step w e)) = App.history (App.app w) \/
  exists entry, App.history (App.app (App.step w e)) = entry :: App.history (App.app w).
Proof.
  destruct e; cbn [App.step App.persist App.app App.onApp].
  - match goal with
    | |- context [App.startQuiz ?n ?a ?g ?sp ?ex ?cx ?c ?t ?ar ?st] =>
        destruct (startQuiz_effect n a g sp ex cx c t ar st)
          as [Hsame|(q & qs & Hfields)]
    end.
    + apply sameData_sameApp in Hsame. left. apply Hsame.
    + left. apply Hfields.
  - by left.
  - destruct (handleNext_effect now uuid userFocus manualReinforce w)
      as (_ & [(Hhist & _)|(entry & Hhist & _)] & _); [by left|right; by exists entry].
  - left. unfold App.handlePrev. destruct (App.session (App.app w)) as [s|]; [|done].
    by destruct (0 <? currentQuestionIndex s)%nat.
  - by left.
  - left. apply (remediationSettled_effect response (App.app w)).
  - left. unfold App.toggleBookmark. destruct (existsb _ _); [done|].
    cbn. by destruct (App.srsStates (App.app w) !! q_id q).
  - left. apply (dissectQuestion_effect now aistudio generated q (App.app w)).
  - by left.
  - by left.
Qed.

Lemma step_history w e :
  exists newer,
    App.history (App.app (App.step w e)) = newer ++ App.history (App.app w) /\
    (length newer <= 1)%nat.
Proof.
  destruct (step_mirrored_history w e) as [->|(entry & ->)].
  - exists []. split; [done|cbn; lia].
  - exists [entry]. split; [done|cbn; lia].
Qed.

(** X25: the history is only ever extended at the front: after any sequence
    of events the earlier history is still there, unchanged, behind at most
    one new entry per event. *)
Theorem run_history_append_only events w :
  exists newer,
    App.history (App.app (App.run events w)) = newer ++ App.history (App.app w) /\
    (length newer <= length events)%nat.
Proof.
  revert w. unfold App.run.
  induction events as [|e events IH]; intros w; [exists []; split; [done|cbn; lia]|].
  cbn [fold_left length]. destruct (IH (App.step w e)) as (newer & -> & Hlen).
  destruct (step_history w e) as (newer' & -> & Hlen').
  exists (newer ++ newer'). rewrite length_app, app_assoc. split; [done|lia].
Qed.

End Monotonicity.

(** ** Starting a quiz *)

Section StartFacts.

Implicit Types (st : App.AppState).

Lemma startQuiz_outcome now aistudio generated specialties' examTypes' complexity'
    count topics' autoReinforce' st :
  App.outcome
    (App.startQuiz now aistudio generated specialties' examTypes' complexity'
       count topics' autoReinforce' st) =
    if keyAvailable aistudio then
      match generationError generated with
      | Some error => App.GenerationFailed error
      | None => App.Started
      end
    else App.KeySelectionFailed.
Proof.
  unfold App.startQuiz.
  destruct aistudio as [[has opens]|];
    cbn [App.hasSelectedApiKey App.openSelectKey keyAvailable];
    [destruct has, opens|destruct (App.hasKey st)]; cbn [orb];
    try reflexivity;
    destruct generated as [error|[|q qs]]; cbn [length Nat.eqb generationError];
    try reflexivity;
    match goal with
    | |- context [App.handleError ?a ?l ?e ?s] => by destruct (App.handleError a l e s)
    end.
Qed.

(** X26: [startQuiz] starts a session exactly when a key is available and
    the generator returns at least one question.  The session then holds the
    generated questions at position 0 with no answer, every one of them
    whose identifier names no inherited property has a library entry under
    its identifier, the previous completed session is forgotten and the quiz
    is on screen. *)
Theorem startQuiz_starts (now : Z) (aistudio : option App.AIStudio)
    (generated : App.Generated) (specialties' : list MedicalSpecialty)
    (examTypes' : list ExamType) (complexity' : ClinicalComplexity) (count : Z)
    (topics' : string) (autoReinforce' : bool) st :
  let result :=
    App.startQuiz now aistudio generated specialties' examTypes' complexity'
      count topics' autoReinforce' st in
  (App.outcome result = App.Started <->
   keyAvailable aistudio = true /\ exists q qs, generated = App.Resolved (q :: qs)) /\
  (App.outcome result = App.Started ->
   exists qs,
     generated = App.Resolved qs /\
     App.session (App.started result) =
       Some (freshSession now qs specialties' examTypes' complexity' topics'
               autoReinforce') /\
     (forall q, q ∈ qs -> ordinary (q_id q) ->
                is_Some (App.questionLibrary (App.started result) !! q_id q)) /\
     App.completedSession (App.started result) = None /\
     App.view (App.started result) = App.View_quiz /\
     App.isLoading (App.started result) = false).
Proof.
  cbn zeta.
  assert (Hiff :
            App.outcome
              (App.startQuiz now aistudio generated specialties' examTypes'
                 complexity' count topics' autoReinforce' st) = App.Started <->
            keyAvailable aistudio = true /\
            exists q qs, generated = App.Resolved (q :: qs)).
  { rewrite startQuiz_outcome.
    destruct (keyAvailable aistudio); [|split; [done|by intros [? _]]].
    destruct generated as [error|[|q qs]]; cbn [generationError].
    - split; [done|]. by intros [_ (q & qs & ?)].
    - split; [done|]. by intros [_ (q & qs & ?)].
    - split; [|done]. intros _. split; [done|]. by exists q, qs. }
  split; [exact Hiff|].
  intros Hstarted. apply Hiff in Hstarted as [Hkey (q & qs & ->)].
  exists (q :: qs). split; [done|].
  unfold App.startQuiz.
  destruct aistudio as [[has opens]|];
    cbn [App.hasSelectedApiKey App.openSelectKey keyAvailable orb] in *;
    [destruct has, opens|destruct (App.hasKey st)]; try done;
    cbn -[Library.addToLibrary]; (split_and!; [done| |done..]);
    intros q0 Hq0 Hord; by apply addToLibrary_member.
Qed.

End StartFacts.
